(** * bloom: git-bloom-import-upstream

    A shallow embedding of [src/bloom/import_upstream.py] and the
    verification of its specification.

    The program is a sequence of calls to external tools (git, vcstools,
    git-buildpackage, catkin_pkg, rospkg).  It is embedded as a program in a
    small monad that records every external call as an event, threads the
    process working directory, and distinguishes the three ways a Python
    statement can end: falling through to the next statement, [return], and
    a raised exception ([sys.exit] raises [SystemExit]).  The answers of the
    external tools are the fields of an environment [Env]; every theorem
    quantifies over all environments.

    The built-ins and the standard library are those of Python 3.  The
    calls that run git raise [CalledProcessError] when the command fails;
    reading and writing the configuration file and the calls into
    [catkin_pkg] and [rospkg] may raise any exception.

    Left out: the prefix that the decorator [log_prefix] puts before the
    log messages, the parsing of the command line by [argparse] (the
    program starts from the parsed arguments), and failures of the calls
    into [os] and [shutil] ([makedirs], [chdir], [rmtree], [exists]) and of
    the logging functions, which are taken to succeed. *)

From Stdlib Require Import String Ascii List Arith ZArith NArith Bool Lia.
Import ListNotations.

Open Scope string_scope.

(** ** Python built-ins used by the program *)

Module Py.

(** The characters the program's texts need and a string literal cannot
    hold conveniently. *)
Definition nl : string := String (ascii_of_nat 10) EmptyString.
Definition dquote : string := String (ascii_of_nat 34) EmptyString.

(** [str.count(sub)] for a non-empty [sub]: occurrences are counted from the
    left and do not overlap.  [skip] is the number of characters still
    covered by the occurrence found last. *)
Fixpoint count_from (sub : string) (skip : nat) (s : string) : nat :=
  match s with
  | EmptyString => 0
  | String _ s' =>
      match skip with
      | S k => count_from sub k s'
      | O => if prefix sub s
             then S (count_from sub (String.length sub - 1) s')
             else count_from sub 0 s'
      end
  end.

Definition count (s sub : string) : nat :=
  match sub with
  | EmptyString => S (String.length s)
  | _ => count_from sub 0 s
  end.

(** [str.replace(old, new)] for a non-empty [old]. *)
Fixpoint replace_from (old new : string) (skip : nat) (s : string) : string :=
  match s with
  | EmptyString => EmptyString
  | String c s' =>
      match skip with
      | S k => replace_from old new k s'
      | O => if prefix old s
             then new ++ replace_from old new (String.length old - 1) s'
             else String c (replace_from old new 0 s')
      end
  end.

Definition replace (s old new : string) : string := replace_from old new 0 s.

(** [str.split(sep)] for a one-character separator. *)
Fixpoint split (sep : ascii) (s : string) : list string :=
  match s with
  | EmptyString => [EmptyString]
  | String c s' =>
      if Ascii.eqb c sep then EmptyString :: split sep s'
      else match split sep s' with
           | [] => [String c EmptyString]
           | w :: ws => String c w :: ws
           end
  end.

(** [str.strip()]: white space removed at both ends *)
Definition is_space (c : ascii) : bool :=
  let n := nat_of_ascii c in
  (n =? 32)%nat || ((9 <=? n)%nat && (n <=? 13)%nat).

Fixpoint lstrip (s : string) : string :=
  match s with
  | EmptyString => EmptyString
  | String c s' => if is_space c then lstrip s' else s
  end.

Fixpoint rstrip (s : string) : string :=
  match s with
  | EmptyString => EmptyString
  | String c s' =>
      match rstrip s' with
      | EmptyString => if is_space c then EmptyString else String c EmptyString
      | r => String c r
      end
  end.

Definition strip (s : string) : string := rstrip (lstrip s).

(** [sep.join(l)] *)
Definition join (sep : string) (l : list string) : string := String.concat sep l.

(** [posixpath.join(a, b)] *)
Fixpoint ends_with_slash (a : string) : bool :=
  match a with
  | EmptyString => false
  | String c EmptyString => Ascii.eqb c "/"
  | String _ a' => ends_with_slash a'
  end.

Definition path_join (a b : string) : string :=
  if prefix "/" b then b
  else if (a =? "") || ends_with_slash a then a ++ b
  else a ++ "/" ++ b.

(** *** [distutils.version.StrictVersion]

    [StrictVersion.parse] matches the version string against
    [^(\d+) \. (\d+) (\. (\d+))? ([ab](\d+))?$] (verbose mode); [$] also
    matches before one final newline.  A string that does not match raises
    [ValueError]. *)

Definition is_digit (c : ascii) : bool :=
  (48 <=? nat_of_ascii c)%nat && (nat_of_ascii c <=? 57)%nat.

Fixpoint span_digits (s : string) : string * string :=
  match s with
  | EmptyString => (EmptyString, EmptyString)
  | String c s' =>
      if is_digit c
      then let (d, r) := span_digits s' in (String c d, r)
      else (EmptyString, s)
  end.

Fixpoint int_acc (acc : N) (s : string) : N :=
  match s with
  | EmptyString => acc
  | String c s' => int_acc (10 * acc + (N_of_ascii c - 48))%N s'
  end.

(** [int(s)] for a string of decimal digits *)
Definition int (s : string) : N := int_acc 0%N s.

(** [(\d+)] : the number and the rest of the string *)
Definition parse_number (s : string) : option (N * string) :=
  let (d, r) := span_digits s in
  if d =? "" then None else Some (int d, r).

Record StrictVersion : Type := mkStrictVersion {
  version : N * N * N;
  prerelease : option (ascii * N)
}.

(** [(\. (\d+))?] *)
Definition parse_patch (s : string) : option N * string :=
  match s with
  | String "." r =>
      match parse_number r with
      | Some (p, r') => (Some p, r')
      | None => (None, s)
      end
  | _ => (None, s)
  end.

(** [([ab](\d+))?] *)
Definition parse_prerelease (s : string) : option (ascii * N) * string :=
  match s with
  | String c r =>
      if Ascii.eqb c "a" || Ascii.eqb c "b"
      then match parse_number r with
           | Some (n, r') => (Some (c, n), r')
           | None => (None, s)
           end
      else (None, s)
  | EmptyString => (None, s)
  end.

Definition at_end (s : string) : bool := (s =? "") || (s =? nl).

(** [StrictVersion.parse(vstring)]; [None] stands for the [ValueError]. *)
Definition parse (vstring : string) : option StrictVersion :=
  match parse_number vstring with
  | Some (major, String "." r1) =>
      match parse_number r1 with
      | Some (minor, r2) =>
          let (patch, r3) := parse_patch r2 in
          let (pre, r4) := parse_prerelease r3 in
          if at_end r4
          then Some (mkStrictVersion
                       (major, minor, match patch with Some p => p | None => 0%N end)
                       pre)
          else None
      | None => None
      end
  | _ => None
  end.

(** [cmp] on the version tuples *)
Definition cmp_tuple (v w : N * N * N) : comparison :=
  let '(a1, b1, c1) := v in
  let '(a2, b2, c2) := w in
  match (a1 ?= a2)%N with
  | Eq => match (b1 ?= b2)%N with
          | Eq => (c1 ?= c2)%N
          | r => r
          end
  | r => r
  end.

(** [cmp] on the prerelease tuples [(letter, number)] *)
Definition cmp_prerelease (p q : ascii * N) : comparison :=
  match (N_of_ascii (fst p) ?= N_of_ascii (fst q))%N with
  | Eq => (snd p ?= snd q)%N
  | r => r
  end.

(** [StrictVersion._cmp]: the tuples decide; when they are equal a
    version without prerelease is greater than one with a prerelease. *)
Definition cmp (v w : StrictVersion) : comparison :=
  match cmp_tuple (version v) (version w) with
  | Eq =>
      match prerelease v, prerelease w with
      | None, None => Eq
      | Some _, None => Lt
      | None, Some _ => Gt
      | Some p, Some q => cmp_prerelease p q
      end
  | r => r
  end.

Definition lt (v w : StrictVersion) : bool :=
  match cmp v w with Lt => true | _ => false end.

Definition le (v w : StrictVersion) : bool :=
  match cmp v w with Gt => false | _ => true end.

End Py.

(** ** Outcomes, events and the monad of the program *)

(** The exceptions the program raises or lets through. *)
Inductive exn : Type :=
| SystemExit (code : Z)
| CalledProcessError
| ValueError (msg : string)
| RuntimeError (msg : string)
| TypeError
| AttributeError
| IndexError
| OSError
| OtherException (kind : string).

(** How a block of statements ends: it falls through with a value, the
    enclosing function returns ([None] is Python's [None]), or an exception
    propagates. *)
Inductive outcome (A : Type) : Type :=
| Next (a : A)
| Return (rc : option Z)
| Raise (e : exn).

Arguments Next {A} a.
Arguments Return {A} rc.
Arguments Raise {A} e.

Inductive level : Type := LDebug | LInfo | LWarning | LError.

(** One event per call that leaves the program.  The arguments are the ones
    the source passes; [cwd] and [directory] are [None] where the source
    leaves them out. *)
Inductive event : Type :=
| Log (l : level) (msg : string)
| PrintExc
| PrintUsage
| HandleGlobalArguments
| GetRoot
| GetCurrentBranch
| CreateTemporaryDirectory (path : string)
| ChDir (path : string)
| MakeDirs (path : string)
| RmTree (path : string)
| PathExists (path : string)
| ReadFile (path : string)
| WriteFile (path content : string)
| TrackBranches (branches : list string)
| ExecuteCommand (cmd : string) (cwd : option string)
| CheckOutput (cmd : string) (cwd : option string)
| GitCheckout (branch : string) (directory : option string)
| CreateBranch (branch : string) (orphaned changeto : bool)
| BranchExists (branch : string) (local_only : bool) (directory : string)
| GetLastTagByDate
| VcsCheckout (vcs path url ver : string)
| VcsExport (vcs path ver tarball : string)
| VcsUpdate (vcs path ver : string)
| FindPackages (basepath : string)
| ParseStackFile (path : string)
| HasReplace
| ImportOrig (tarball : string) (interactive merge : bool).

(** A program: from the working directory of the process to the events it
    emits, the working directory it leaves and its outcome. *)
Definition M (A : Type) : Type := string -> list event * string * outcome A.

Definition ret {A} (a : A) : M A := fun c => ([], c, Next a).

Definition bind {A B} (m : M A) (k : A -> M B) : M B :=
  fun c =>
    match m c with
    | (t1, c1, Next a) => let '(t2, c2, r) := k a c1 in ((t1 ++ t2)%list, c2, r)
    | (t1, c1, Return rc) => (t1, c1, Return rc)
    | (t1, c1, Raise e) => (t1, c1, Raise e)
    end.

Notation "x <- m ;; k" := (bind m (fun x => k))
  (at level 61, m at next level, right associativity).
Notation "m ;; k" := (bind m (fun _ => k))
  (at level 61, right associativity).

Definition emit (e : event) : M unit := fun c => ([e], c, Next tt).

(** [return rc] *)
Definition return_ {A} (rc : option Z) : M A := fun c => ([], c, Return rc).

Definition raise {A} (e : exn) : M A := fun c => ([], c, Raise e).

(** [sys.exit(code)] *)
Definition sys_exit {A} (code : Z) : M A := raise (SystemExit code).

(** [os.getcwd()] and [os.chdir(path)] *)
Definition getcwd : M string := fun c => ([], c, Next c).
Definition chdir (path : string) : M unit := fun _ => ([ChDir path], path, Next tt).

(** [try: m except CalledProcessError: h] *)
Definition try_except_CalledProcessError {A} (m h : M A) : M A :=
  fun c =>
    match m c with
    | (t1, c1, Raise CalledProcessError) =>
        let '(t2, c2, r) := h c1 in ((t1 ++ t2)%list, c2, r)
    | r => r
    end.

(** [try: m finally: f].  The [finally] block runs whatever the outcome of
    [m]; the outcome of [m] stands unless the block itself returns or
    raises. *)
Definition try_finally {A} (m : M A) (f : M unit) : M A :=
  fun c =>
    let '(t1, c1, r) := m c in
    match f c1 with
    | (t2, c2, Next _) => ((t1 ++ t2)%list, c2, r)
    | (t2, c2, Return rc) => ((t1 ++ t2)%list, c2, Return rc)
    | (t2, c2, Raise e) => ((t1 ++ t2)%list, c2, Raise e)
    end.

(** The body of a function whose last statement is not a [return]: falling
    off the end returns [None]. *)
Definition call (body : M unit) : M (option Z) :=
  fun c =>
    match body c with
    | (t, c1, Next _) => (t, c1, Next None)
    | (t, c1, Return rc) => (t, c1, Next rc)
    | (t, c1, Raise e) => (t, c1, Raise e)
    end.

Definition events {A} (r : list event * string * outcome A) : list event := fst (fst r).
Definition cwd_after {A} (r : list event * string * outcome A) : string := snd (fst r).
Definition result {A} (r : list event * string * outcome A) : outcome A := snd r.

(** ** The data of the program *)

(** The parsed command line ([get_argument_parser]). *)
Record Args : Type := mkArgs {
  upstream_devel : option string;
  interactive : bool;
  merge : bool;
  replace : bool;
  not_catkin : bool;
  name : option string;
  tag : option string
}.

(** A package as [catkin_pkg] returns it. *)
Record Package : Type := mkPackage {
  pkg_name : string;
  pkg_version : string;
  pkg_filename : string
}.

(** A stack as [rospkg] parses it from [stack.xml]. *)
Record Stack : Type := mkStack {
  stack_name : string;
  stack_version : option string
}.

(** [meta['name']] is a list of names or, with [--not-catkin], one name. *)
Inductive meta_name : Type :=
| NameList (l : list string)
| NameStr (s : string).

Record Meta : Type := mkMeta {
  meta_names : meta_name;
  meta_version : option string;
  meta_type : string
}.

(** ** The environment: what the external tools answer

    Each field is the answer of one external call as a function of the
    arguments of the call.  A field [.._ok] says whether the call returns
    normally; the helpers of [bloom.git] and [bloom.util] that run git raise
    [CalledProcessError] otherwise (the source catches that exception at
    [checkout] and [check_output]).  A field [.._outcome] is the value a
    call returns or the exception it raises.  Every call site of the program runs at
    most once, so an answer per call and argument is a general
    deterministic environment; the calls the arguments do not tell
    apart have a field each ([checkout_after_rename_ok] and
    [renamed_conf_exists] answer the calls of [convert_catkin_to_bloom]).
    [segment_version] and [get_versions_from_upstream_tag] are functions of
    [bloom.util], which is not part of the source file: they are taken as
    parameters, and either may fail. *)
Record Env : Type := mkEnv {
  (* bloom.logging *)
  ansi : string -> string;
  (* the modules found when the file is loaded *)
  has_rospkg : bool;
  has_catkin_pkg : bool;
  (* bloom.util *)
  segment_version : string -> exn + list string;
  get_versions_from_upstream_tag : string -> exn + list string;
  execute_command_ok : string -> option string -> bool;
  check_output_result : string -> option string -> option string;
  create_temporary_directory_path : string;
  (* bloom.git; the working directory of the process is the last argument
     of [track_branches_ok] *)
  track_branches_ok : list string -> string -> bool;
  checkout_ok : string -> option string -> bool;
  checkout_after_rename_ok : bool;
  create_branch_ok : string -> bool;
  get_last_tag_by_date_result : string;
  get_root_result : option string;
  get_current_branch_result : option string;
  branch_exists_result : string -> bool -> string -> bool;
  (* bloom.gbp *)
  has_replace_result : bool;
  import_orig_result : string -> bool -> bool -> Z;
  (* vcstools.VcsClient: client type, client path, then the arguments *)
  vcs_checkout_ok : string -> string -> string -> string -> bool;
  vcs_export_ok : string -> string -> string -> string -> bool;
  (* os and files *)
  path_exists : string -> bool;
  renamed_conf_exists : string -> bool;
  (* [open(path, 'r').read()] and [open(path, 'w+').write(text)] *)
  read_file_outcome : string -> exn + string;
  write_file_outcome : string -> string -> option exn;
  (* catkin_pkg and rospkg *)
  find_packages_outcome : string -> exn + list (string * Package);
  parse_stack_file_outcome : string -> exn + Stack
}.

(** The text of a file that can be read *)
Definition file_contents (E : Env) (path : string) : string :=
  match read_file_outcome E path with
  | inr text => text
  | inl _ => ""
  end.

(** The packages that [find_packages] returns, when it returns *)
Definition find_packages_result (E : Env) (basepath : string) : list (string * Package) :=
  match find_packages_outcome E basepath with
  | inr packages => packages
  | inl _ => []
  end.

(** ** The program *)

Section Program.

Variable E : Env.

(** *** The helpers of [bloom] and of the libraries, as calls to the
    environment *)

Definition debug (msg : string) : M unit := emit (Log LDebug msg).
Definition info (msg : string) : M unit := emit (Log LInfo msg).
Definition warning (msg : string) : M unit := emit (Log LWarning msg).
Definition error (msg : string) : M unit := emit (Log LError msg).

Definition execute_command (cmd : string) (cwd : option string) : M unit :=
  emit (ExecuteCommand cmd cwd) ;;
  if execute_command_ok E cmd cwd then ret tt else raise CalledProcessError.

Definition check_output (cmd : string) (cwd : option string) : M string :=
  emit (CheckOutput cmd cwd) ;;
  match check_output_result E cmd cwd with
  | Some out => ret out
  | None => raise CalledProcessError
  end.

Definition checkout (branch : string) (directory : option string) : M unit :=
  emit (GitCheckout branch directory) ;;
  if checkout_ok E branch directory then ret tt else raise CalledProcessError.

Definition track_branches (branches : list string) : M unit :=
  c <- getcwd ;;
  emit (TrackBranches branches) ;;
  if track_branches_ok E branches c then ret tt else raise CalledProcessError.

Definition create_branch (branch : string) (orphaned changeto : bool) : M unit :=
  emit (CreateBranch branch orphaned changeto) ;;
  if create_branch_ok E branch then ret tt else raise CalledProcessError.

Definition get_last_tag_by_date : M string :=
  emit GetLastTagByDate ;; ret (get_last_tag_by_date_result E).

Definition get_root : M (option string) :=
  emit GetRoot ;; ret (get_root_result E).

Definition get_current_branch : M (option string) :=
  emit GetCurrentBranch ;; ret (get_current_branch_result E).

Definition branch_exists (branch : string) (local_only : bool) (directory : string) : M bool :=
  emit (BranchExists branch local_only directory) ;;
  ret (branch_exists_result E branch local_only directory).

Definition create_temporary_directory : M string :=
  emit (CreateTemporaryDirectory (create_temporary_directory_path E)) ;;
  ret (create_temporary_directory_path E).

Definition has_replace : M bool :=
  emit HasReplace ;; ret (has_replace_result E).

Definition import_orig (tarball : string) (interactive merge : bool) : M Z :=
  emit (ImportOrig tarball interactive merge) ;;
  ret (import_orig_result E tarball interactive merge).

(** [VcsClient(vcs, path).checkout(url, ver)] *)
Definition vcs_checkout (vcs path url ver : string) : M bool :=
  emit (VcsCheckout vcs path url ver) ;; ret (vcs_checkout_ok E vcs path url ver).

(** [VcsClient(vcs, path).export_repository(ver, tarball)] *)
Definition vcs_export (vcs path ver tarball : string) : M bool :=
  emit (VcsExport vcs path ver tarball) ;; ret (vcs_export_ok E vcs path ver tarball).

(** [VcsClient(vcs, path).update(ver)]; the source drops the result *)
Definition vcs_update (vcs path ver : string) : M unit :=
  emit (VcsUpdate vcs path ver).

Definition os_path_exists (path : string) : M bool :=
  emit (PathExists path) ;; ret (path_exists E path).

(** [os.path.join(a, b)] where [a] may be [None]: [os.fspath(None)] raises
    [TypeError]. *)
Definition os_path_join (a : option string) (b : string) : M string :=
  match a with
  | Some a => ret (Py.path_join a b)
  | None => raise TypeError
  end.

(** [open(path, 'r').read()] *)
Definition read_file (path : string) : M string :=
  emit (ReadFile path) ;;
  match read_file_outcome E path with
  | inr text => ret text
  | inl e => raise e
  end.

(** [open(path, 'w+').write(text)] *)
Definition write_file (path text : string) : M unit :=
  emit (WriteFile path text) ;;
  match write_file_outcome E path text with
  | None => ret tt
  | Some e => raise e
  end.

Definition find_packages (basepath : string) : M (list (string * Package)) :=
  emit (FindPackages basepath) ;;
  match find_packages_outcome E basepath with
  | inr packages => ret packages
  | inl e => raise e
  end.

Definition parse_stack_file (path : string) : M Stack :=
  emit (ParseStackFile path) ;;
  match parse_stack_file_outcome E path with
  | inr stack => ret stack
  | inl e => raise e
  end.

(** The text of the [RuntimeError] of [verify_equal_package_versions] *)
Definition versions_differ_message (found expected filename first_filename : string)
  : string :=
  "Two packages have different version numbers ("
  ++ found ++ " != " ++ expected ++ "):" ++ Py.nl
  ++ "- " ++ filename ++ Py.nl
  ++ "- " ++ first_filename.

(** [catkin_pkg.packages.verify_equal_package_versions]: the version all
    packages share, or a [RuntimeError] that names the two versions that
    differ and the files of the two packages. *)
Fixpoint verify_from (first_filename : string) (version : option string)
    (packages : list Package) : exn + option string :=
  match packages with
  | [] => inr version
  | p :: rest =>
      match version with
      | None => verify_from first_filename (Some (pkg_version p)) rest
      | Some v =>
          if pkg_version p =? v then verify_from first_filename version rest
          else inl (RuntimeError
                      (versions_differ_message (pkg_version p) v
                         (pkg_filename p) first_filename))
      end
  end.

Definition verify_equal_package_versions (packages : list Package) : exn + option string :=
  verify_from (match packages with p :: _ => pkg_filename p | [] => "" end) None packages.

(** [StrictVersion(vstring)].  The constructor parses the string only when
    it is not empty ([if vstring: self.parse(vstring)]): the object made
    from the empty string, [None] here, has no attribute [version]. *)
Definition StrictVersion (vstring : string) : M (option Py.StrictVersion) :=
  if vstring =? "" then ret None
  else
    match Py.parse vstring with
    | Some v => ret (Some v)
    | None => raise (ValueError ("invalid version number '" ++ vstring ++ "'"))
    end.

(** [v < w] and [v <= w] on [StrictVersion] objects: the comparison reads
    the attribute [version] of both. *)
Definition strict_lt (v w : option Py.StrictVersion) : M bool :=
  match v, w with
  | Some v, Some w => ret (Py.lt v w)
  | _, _ => raise AttributeError
  end.

Definition strict_le (v w : option Py.StrictVersion) : M bool :=
  match v, w with
  | Some v, Some w => ret (Py.le v w)
  | _, _ => raise AttributeError
  end.

(** The text of the [ValueError] of an unpacking into three names *)
Definition unpack_message (l : list string) : string :=
  match l with
  | [] => "not enough values to unpack (expected 3, got 0)"
  | [_] => "not enough values to unpack (expected 3, got 1)"
  | [_; _] => "not enough values to unpack (expected 3, got 2)"
  | _ => "too many values to unpack (expected 3)"
  end.

(** [a, b, c = l] *)
Definition unpack3 (l : exn + list string) : M (string * string * string) :=
  match l with
  | inr [a; b; c] => ret (a, b, c)
  | inr l => raise (ValueError (unpack_message l))
  | inl e => raise e
  end.

(** *** [convert_catkin_to_bloom] *)
Definition convert_catkin_to_bloom (cwd : option string) : M unit :=
  execute_command "git branch -m catkin bloom" cwd ;;
  emit (GitCheckout "bloom" cwd) ;;
  (if checkout_after_rename_ok E then ret tt else raise CalledProcessError) ;;
  catkin_conf <- os_path_join cwd "catkin.conf" ;;
  found <- os_path_exists catkin_conf ;;
  (if found then execute_command "git mv catkin.conf bloom.conf" cwd else ret tt) ;;
  bloom_path <- os_path_join cwd "bloom.conf" ;;
  emit (PathExists bloom_path) ;;
  if renamed_conf_exists E bloom_path then
    conf_file <- read_file bloom_path ;;
    let conf_file := Py.replace conf_file "[catkin]" "[bloom]" in
    write_file bloom_path conf_file ;;
    execute_command "git add bloom.conf" cwd ;;
    execute_command ("git commit -m " ++ Py.dquote
                     ++ "rename catkin.conf to bloom.conf" ++ Py.dquote) cwd
  else ret tt.

(** *** [not_a_bloom_release_repo] *)
Definition not_a_bloom_release_repo_message : string :=
  "This does not appear to be a bloom release repo. "
  ++ "Please initialize it first using: git "
  ++ "bloom-set-upstream <UPSTREAM_VCS_URL> <VCS_TYPE> [<VCS_BRANCH>]".

Definition not_a_bloom_release_repo {A} : M A :=
  error not_a_bloom_release_repo_message ;;
  sys_exit 1.

(** The test of [check_for_bloom] and of [import_upstream] for a branch:
    [output.count(branch) == 0] on the text that [git branch] prints. *)
Definition branch_absent (output branch : string) : bool :=
  (Py.count output branch =? 0)%nat.

(** *** [check_for_bloom] *)
Definition check_for_bloom (cwd : option string) : M unit :=
  branches <- check_output "git branch" cwd ;;
  (if branch_absent branches "bloom" then
     if branch_absent branches "catkin" then not_a_bloom_release_repo
     else
       info "catkin branch detected, up converting to the bloom branch" ;;
       convert_catkin_to_bloom cwd
   else ret tt) ;;
  try_except_CalledProcessError (checkout "bloom" cwd) not_a_bloom_release_repo ;;
  let loc := match cwd with
             | Some d => Py.path_join d "bloom.conf"
             | None => "bloom.conf"
             end in
  found <- os_path_exists loc ;;
  if negb found then not_a_bloom_release_repo else ret tt.

(** *** [parse_bloom_conf] *)
Definition parse_bloom_conf (cwd : option string) : M (string * string * string) :=
  out <- check_output "git config -f bloom.conf bloom.upstream" cwd ;;
  let upstream_repo := Py.strip out in
  out <- check_output "git config -f bloom.conf bloom.upstreamtype" cwd ;;
  let upstream_type := Py.strip out in
  upstream_branch <-
    try_except_CalledProcessError
      (out <- check_output "git config -f bloom.conf bloom.upstreambranch" cwd ;;
       ret (Py.strip out))
      (ret "") ;;
  ret (upstream_repo, upstream_type, upstream_branch).

(** *** [create_initial_upstream_branch] *)
Definition create_initial_upstream_branch (cwd : option string) : M unit :=
  create_branch "upstream" true true.

(** *** [summarize_repo_info] *)
Definition summarize_repo_info (upstream_repo upstream_type upstream_branch : string) : M unit :=
  info ("upstream repo: " ++ ansi E "boldon" ++ upstream_repo ++ ansi E "reset") ;;
  info ("upstream type: " ++ ansi E "boldon" ++ upstream_type ++ ansi E "reset") ;;
  let upstream_branch :=
    if upstream_branch =? "" then "(No branch set)" else upstream_branch in
  info ("upstream branch: " ++ ansi E "boldon" ++ upstream_branch ++ ansi E "reset").

(** *** [get_upstream_meta] *)
Definition versions_not_supported_message (err : string) : string :=
  "Releasing multiple packages with different versions is "
  ++ "not supported: " ++ err.

Definition get_upstream_meta (upstream_dir : string) : M Meta :=
  let stack_path := Py.path_join upstream_dir "stack.xml" in
  info "Checking for package.xml(s)" ;;
  (if has_catkin_pkg E then ret tt
   else error "catkin_pkg was not detected, please install it." ;; sys_exit 1) ;;
  packages <- find_packages upstream_dir ;;
  match packages with
  | [] =>
      if has_rospkg E then
        info "package.xml(s) not found, looking for stack.xml" ;;
        found <- os_path_exists stack_path ;;
        if found then
          info "stack.xml found" ;;
          stack <- parse_stack_file stack_path ;;
          ret (mkMeta (NameList [stack_name stack]) (stack_version stack) "stack.xml")
        else
          error "Neither stack.xml, nor package.xml(s) were detected." ;;
          sys_exit 1
      else
        error "Package.xml(s) were not detected." ;;
        sys_exit 1
  | _ :: _ =>
      info "package.xml(s) found" ;;
      version <-
        match verify_equal_package_versions (map snd packages) with
        | inr v => ret v
        | inl (RuntimeError err) =>
            emit PrintExc ;;
            error (versions_not_supported_message err) ;;
            sys_exit 1
        | inl e => raise e
        end ;;
      ret (mkMeta (NameList (map (fun p => pkg_name (snd p)) packages))
                  version "package.xml")
  end.

(** *** [import_upstream]

    The function is one sequence of statements; it is embedded block by
    block, each block one commented part of the source, and
    [import_upstream] chains the blocks in the order of the source. *)

(** Lines 228-254: clone the release repository, check it and read its
    configuration.  Gives the clone directory, the upstream repository, the
    upstream type and the branch in effect. *)
Definition clone_and_configure (cwd tmp_dir : string) (args : Args)
  : M (string * string * string * string) :=
  track_branches ["bloom"; "upstream"] ;;
  let bloom_repo_clone_dir := Py.path_join tmp_dir "bloom_clone" in
  emit (MakeDirs bloom_repo_clone_dir) ;;
  chdir bloom_repo_clone_dir ;;
  _ <- vcs_checkout "git" bloom_repo_clone_dir ("file://" ++ cwd) "" ;;
  track_branches ["bloom"; "upstream"] ;;
  here <- getcwd ;;
  check_for_bloom (Some here) ;;
  conf <- parse_bloom_conf None ;;
  let '(upstream_repo, upstream_type, upstream_branch) := conf in
  ver <- match upstream_devel args with
         | Some ver =>
             warning ("Overriding the bloom.conf upstream branch with " ++ ver) ;;
             ret ver
         | None => ret upstream_branch
         end ;;
  summarize_repo_info upstream_repo upstream_type ver ;;
  ret (bloom_repo_clone_dir, upstream_repo, upstream_type, ver).

(** Line 259: the text that stands for no branch is turned into the empty
    string. *)
Definition effective_branch (ver : string) : string :=
  if ver =? "(No branch set)" then "" else ver.

(** Lines 261-270: the url and the version handed to the upstream
    checkout. *)
Definition checkout_target (upstream_repo upstream_type ver : string) : string * string :=
  if upstream_type =? "svn" then
    if ver =? "" then (upstream_repo ++ "/trunk", "")
    else (upstream_repo ++ "/branches/" ++ ver, "")
  else (upstream_repo, ver).

(** Lines 256-290: check out the upstream repository.  Gives the directory
    of the checkout. *)
Definition checkout_upstream (tmp_dir upstream_repo upstream_type ver : string) : M string :=
  let upstream_dir := Py.path_join tmp_dir "upstream" in
  let ver := effective_branch ver in
  let (checkout_url, checkout_ver) := checkout_target upstream_repo upstream_type ver in
  (if upstream_type =? "svn" then
     debug ("Checking out from url " ++ checkout_url)
   else
     debug ("Checking out branch (" ++ checkout_ver ++ ") from url " ++ checkout_url)) ;;
  ok <- vcs_checkout upstream_type upstream_dir checkout_url checkout_ver ;;
  if negb ok then
    (if upstream_type =? "svn" then
       error ("Could not checkout upstream repostiory (" ++ checkout_url ++ ")")
     else
       error ("Could not checkout upstream repostiory (" ++ checkout_url ++ ")"
              ++ " to branch (" ++ ver ++ ")")) ;;
    return_ (Some 1%Z)
  else ret upstream_dir.

(** [meta['name'][0]] *)
Definition first_name (n : meta_name) : M string :=
  match n with
  | NameList (x :: _) => ret x
  | NameList [] => raise IndexError
  | NameStr (String c _) => ret (String c EmptyString)
  | NameStr EmptyString => raise IndexError
  end.

(** The elements of [meta['name']] as [len] and [join] see them *)
Definition name_items (n : meta_name) : list string :=
  match n with
  | NameList l => l
  | NameStr s => map (fun c => String c EmptyString) (list_ascii_of_string s)
  end.

Definition usage_error_message : string :=
  "If '--not-catkin' is specified, then '--upstream-name' and "
  ++ "'--upstream-tag' must also be specified.".

(** Lines 292-324: the name and the version of the upstream project. *)
Definition resolve_meta (args : Args) (upstream_dir : string) : M (string * string) :=
  meta <-
    (if not_catkin args then
       match name args, tag args with
       | Some n, Some t => ret (mkMeta (NameStr n) (Some t) "not_catkin")
       | _, _ =>
           error usage_error_message ;;
           return_ (Some 1%Z)
       end
     else
       meta <- get_upstream_meta upstream_dir ;;
       match meta_version meta with
       | None => error "Failed to get the upstream meta data." ;; sys_exit 1
       | Some _ => ret meta
       end) ;;
  version <- match meta_version meta with
             | Some v => ret v
             | None => raise TypeError
             end ;;
  info ("Upstream has version " ++ ansi E "boldon" ++ version ++ ansi E "reset") ;;
  (if meta_type meta =? "stack.xml" then
     n <- first_name (meta_names meta) ;;
     info ("Upstream contains a stack called " ++ ansi E "boldon" ++ n ++ ansi E "reset")
   else if meta_type meta =? "not_catkin" then
     match meta_names meta with
     | NameStr n =>
         info ("Upstream manually specified as " ++ ansi E "boldon" ++ n ++ ansi E "reset")
     | NameList _ => raise TypeError
     end
   else
     info ("Upstream contains package"
           ++ (if (1 <? List.length (name_items (meta_names meta)))%nat then "s: " else ": ")
           ++ Py.join ", " (name_items (meta_names meta)))) ;;
  name <- match meta_names meta with
          | NameList _ => first_name (meta_names meta)
          | NameStr n => ret n
          end ;;
  ret (name, version).

(** Lines 326-345: export the upstream repository to a tarball.  Gives the
    path of the tarball without its extension. *)
Definition export_tarball (tmp_dir upstream_repo upstream_type upstream_dir
                           name version : string) : M string :=
  let tarball_prefix := "upstream-" ++ version in
  info ("Exporting version " ++ version) ;;
  let tarball_path := Py.path_join tmp_dir tarball_prefix in
  client <-
    (if upstream_type =? "svn" then
       let svn_tag := Py.path_join tmp_dir "svn_tag" in
       let checkout_url := upstream_repo ++ "/tags/" ++ version in
       ok <- vcs_checkout "svn" svn_tag checkout_url "" ;;
       (if negb ok then
          warning ("Didn't find the tagged version at " ++ checkout_url) ;;
          let checkout_url := upstream_repo ++ "/tags/" ++ name ++ "-" ++ version in
          warning ("Trying " ++ checkout_url) ;;
          ok <- vcs_checkout "svn" svn_tag checkout_url "" ;;
          if negb ok then
            error "Could not checkout upstream version" ;;
            return_ (Some 1%Z)
          else ret tt
        else ret tt) ;;
       ret ("svn", svn_tag, "")
     else ret (upstream_type, upstream_dir, version)) ;;
  let '(client_type, client_path, export_version) := client in
  ok <- vcs_export client_type client_path export_version tarball_path ;;
  if negb ok then
    error "Failed to export upstream repository." ;;
    return_ (Some 1%Z)
  else ret tarball_path.

Definition replace_unsupported_message : string :=
  "The '--replace' flag is not supported on this "
  ++ "version of git-buildpackage.".

Definition regression_warning (version last_tag_version : string) : string :=
  "Version discrepancy:" ++ Py.nl
  ++ "    The upstream version, " ++ version
  ++ ", should be greater than the previous release version, "
  ++ last_tag_version ++ "." ++ Py.nl ++ Py.nl
  ++ "Upstream should re-release or you should fix the release repository.".

Definition replace_warning (version : string) : string :=
  "Version discrepancy:" ++ Py.nl
  ++ "    The upstream version, " ++ version
  ++ ", is equal to or less than a previous import version." ++ Py.nl
  ++ "    Removing conflicting tag before continuing "
  ++ "because the '--replace' options was specified.".

Definition collision_warning (version : string) : string :=
  "Version discrepancy:" ++ Py.nl
  ++ "    The upstream version, " ++ version
  ++ ", is equal to a previous import version. "
  ++ "git-buildpackage will fail, if you want to replace the existing "
  ++ "upstream import use the '--replace' option.".

(** Lines 347-391: the version guard.  Gives the version elements
    [gbp_major], [gbp_minor] and [gbp_patch]. *)
Definition version_guard (args : Args) (version : string) : M (string * string * string) :=
  last_tag <- get_last_tag_by_date ;;
  if last_tag =? "" then
    unpack3 (segment_version E version)
  else
    gbp <- unpack3 (get_versions_from_upstream_tag E last_tag) ;;
    let '(gbp_major, gbp_minor, gbp_patch) := gbp in
    info ("The latest upstream tag in the release repository is "
          ++ ansi E "boldon" ++ last_tag ++ ansi E "reset") ;;
    full_version_strict <- StrictVersion version ;;
    let last_tag_version := Py.join "." [gbp_major; gbp_minor; gbp_patch] in
    last_tag_version_strict <- StrictVersion last_tag_version ;;
    regressed <- strict_lt full_version_strict last_tag_version_strict ;;
    (if regressed then
       warning (regression_warning version last_tag_version)
     else ret tt) ;;
    collides <- strict_le full_version_strict last_tag_version_strict ;;
    (if collides then
       if replace args then
         supported <- has_replace ;;
         if negb supported then
           error replace_unsupported_message ;;
           return_ (Some 1%Z)
         else
           warning (replace_warning version) ;;
           execute_command ("git tag -d " ++ last_tag) None ;;
           execute_command ("git push origin :refs/tags/" ++ last_tag) None
       else
         warning (collision_warning version)
     else ret tt) ;;
    ret gbp.

(** Lines 393-409: make sure of the upstream branch, import the tarball and
    push. *)
Definition import_and_push (bloom_repo_clone_dir : string) (args : Args)
    (tarball_path : string) : M unit :=
  output <- check_output "git branch" None ;;
  (if branch_absent output "upstream" then
     info (ansi E "boldon" ++ "No upstream branch" ++ ansi E "reset"
           ++ "... creating an initial upstream branch.") ;;
     create_initial_upstream_branch None
   else ret tt) ;;
  vcs_update "git" bloom_repo_clone_dir "master" ;;
  rc <- import_orig (tarball_path ++ ".tar.gz") (interactive args) (merge args) ;;
  (if (rc =? 0)%Z then ret tt else return_ (Some 1%Z)) ;;
  execute_command "git push --all -f" None ;;
  execute_command "git push --tags" None.

(** The run up to the version guard.  Gives the clone directory, the
    upstream version and the path of the tarball. *)
Definition before_guard (cwd tmp_dir : string) (args : Args) : M (string * string * string) :=
  conf <- clone_and_configure cwd tmp_dir args ;;
  let '(bloom_repo_clone_dir, upstream_repo, upstream_type, ver) := conf in
  upstream_dir <- checkout_upstream tmp_dir upstream_repo upstream_type ver ;;
  meta <- resolve_meta args upstream_dir ;;
  let '(name, version) := meta in
  tarball_path <- export_tarball tmp_dir upstream_repo upstream_type upstream_dir
                                 name version ;;
  ret (bloom_repo_clone_dir, version, tarball_path).

Definition import_upstream_body (cwd tmp_dir : string) (args : Args) : M unit :=
  ctx <- before_guard cwd tmp_dir args ;;
  let '(bloom_repo_clone_dir, version, tarball_path) := ctx in
  _ <- version_guard args version ;;
  import_and_push bloom_repo_clone_dir args tarball_path.

Definition import_upstream (cwd tmp_dir : string) (args : Args) : M (option Z) :=
  call (import_upstream_body cwd tmp_dir args).

(** *** [main] *)

(** Python's truth value of [current_branch] *)
Definition truthy (s : option string) : bool :=
  match s with
  | Some s => negb (s =? "")
  | None => false
  end.

(** [current_branch == 'upstream'] *)
Definition on_upstream (current_branch : option string) : bool :=
  match current_branch with
  | Some b => b =? "upstream"
  | None => false
  end.

(** The [finally] block of [main]: [os.chdir(cwd)], [shutil.rmtree(tmp_dir)]
    and the checkout of the branch that was checked out, if there was one
    and it still exists. *)
Definition cleanup (cwd tmp_dir : string) (current_branch : option string) : M unit :=
  chdir cwd ;;
  emit (RmTree tmp_dir) ;;
  match current_branch with
  | Some b =>
      if truthy current_branch then
        still <- branch_exists b true cwd ;;
        if still then checkout b (Some cwd) else ret tt
      else ret tt
  | None => ret tt
  end.

(** The checks of [main] before the scratch directory is made.  Gives the
    branch that is checked out. *)
Definition preconditions : M (option string) :=
  emit HandleGlobalArguments ;;
  root <- get_root ;;
  match root with
  | None =>
      error "This command has to be run in a git repository." ;;
      emit PrintUsage ;;
      return_ (Some 1%Z)
  | Some _ =>
      current_branch <- get_current_branch ;;
      if on_upstream current_branch then
        error ("You cannot run git-bloom-import-upstream while in the "
               ++ "upstream branch, because this branch is going to be modified.") ;;
        return_ (Some 1%Z)
      else ret current_branch
  end.

(** The body of the [try] statement of [main] *)
Definition attempt (cwd tmp_dir : string) (args : Args) : M unit :=
  retcode <- import_upstream cwd tmp_dir args ;;
  (match retcode with
   | None | Some 0%Z => info "I'm happy.  You should be too."
   | _ => ret tt
   end) ;;
  return_ retcode.

Definition main (args : Args) : M (option Z) :=
  call (current_branch <- preconditions ;;
        tmp_dir <- create_temporary_directory ;;
        cwd <- getcwd ;;
        try_finally (attempt cwd tmp_dir args) (cleanup cwd tmp_dir current_branch)).

End Program.

(** ** Example environments *)

(** Modelled from the spec: [segment_version] of [bloom.util] is not part of
    the source file.  The spec has the version "derived by splitting the new
    version into major/minor/patch": the segments between the dots. *)
Definition segment_version_spec (full_version : string) : exn + list string :=
  inr (Py.split "." full_version).

(** Upstream tags named [upstream/<version>], as git-buildpackage names
    them: the version elements of such a tag. *)
Definition tag_versions (tag : string) : exn + list string :=
  match Py.split "/" tag with
  | [_; v] => segment_version_spec v
  | _ => inl (SystemExit 1)
  end.

Definition sample_branches : string :=
  "* master" ++ Py.nl ++ "  bloom" ++ Py.nl ++ "  upstream" ++ Py.nl.

(** A release repository in good order: every command succeeds.  The
    upstream type, the configured branch, the packages found upstream, the
    last tag, the support for replacement and the answer of git-import-orig
    vary. *)
Definition sample_env (upstream_type : string) (branch : option string)
    (packages : list (string * Package)) (last_tag : string)
    (supports_replace : bool) (import_rc : Z) : Env :=
  {| ansi := fun _ => "";
     has_rospkg := true;
     has_catkin_pkg := true;
     segment_version := segment_version_spec;
     get_versions_from_upstream_tag := tag_versions;
     execute_command_ok := fun _ _ => true;
     check_output_result := fun cmd _ =>
       if cmd =? "git branch" then Some sample_branches
       else if cmd =? "git config -f bloom.conf bloom.upstream"
       then Some ("https://example.org/project" ++ Py.nl)
       else if cmd =? "git config -f bloom.conf bloom.upstreamtype"
       then Some (upstream_type ++ Py.nl)
       else if cmd =? "git config -f bloom.conf bloom.upstreambranch"
       then option_map (fun b => b ++ Py.nl) branch
       else None;
     create_temporary_directory_path := "/tmp/scratch";
     track_branches_ok := fun _ _ => true;
     checkout_ok := fun _ _ => true;
     checkout_after_rename_ok := true;
     create_branch_ok := fun _ => true;
     get_last_tag_by_date_result := last_tag;
     get_root_result := Some "/home/user/release";
     get_current_branch_result := Some "master";
     branch_exists_result := fun _ _ _ => true;
     has_replace_result := supports_replace;
     import_orig_result := fun _ _ _ => import_rc;
     vcs_checkout_ok := fun _ _ _ _ => true;
     vcs_export_ok := fun _ _ _ _ => true;
     path_exists := fun _ => true;
     renamed_conf_exists := fun _ => true;
     read_file_outcome := fun _ => inr ("[bloom]" ++ Py.nl);
     write_file_outcome := fun _ _ => None;
     find_packages_outcome := fun _ => inr packages;
     parse_stack_file_outcome := fun _ => inr (mkStack "project" (Some "1.0.0")) |}.

(** The environment [E] for a repository where [git branch] prints
    [output]. *)
Definition with_branches (output : string) (E : Env) : Env :=
  {| ansi := ansi E;
     has_rospkg := has_rospkg E;
     has_catkin_pkg := has_catkin_pkg E;
     segment_version := segment_version E;
     get_versions_from_upstream_tag := get_versions_from_upstream_tag E;
     execute_command_ok := execute_command_ok E;
     check_output_result := fun cmd cwd =>
       if cmd =? "git branch" then Some output else check_output_result E cmd cwd;
     create_temporary_directory_path := create_temporary_directory_path E;
     track_branches_ok := track_branches_ok E;
     checkout_ok := checkout_ok E;
     checkout_after_rename_ok := checkout_after_rename_ok E;
     create_branch_ok := create_branch_ok E;
     get_last_tag_by_date_result := get_last_tag_by_date_result E;
     get_root_result := get_root_result E;
     get_current_branch_result := get_current_branch_result E;
     branch_exists_result := branch_exists_result E;
     has_replace_result := has_replace_result E;
     import_orig_result := import_orig_result E;
     vcs_checkout_ok := vcs_checkout_ok E;
     vcs_export_ok := vcs_export_ok E;
     path_exists := path_exists E;
     renamed_conf_exists := renamed_conf_exists E;
     read_file_outcome := read_file_outcome E;
     write_file_outcome := write_file_outcome E;
     find_packages_outcome := find_packages_outcome E;
     parse_stack_file_outcome := parse_stack_file_outcome E |}.

Definition one_package : list (string * Package) :=
  [("project", mkPackage "project" "1.0.0" "project/package.xml")].

Definition two_packages : list (string * Package) :=
  [("a", mkPackage "a" "1.0.0" "a/package.xml");
   ("b", mkPackage "b" "1.0.1" "b/package.xml")].

(** The command line [--replace] *)
Definition args_replace : Args := mkArgs None false false true false None None.

(** The command line without options *)
Definition args_plain : Args := mkArgs None false false false false None None.

(** The command line [--not-catkin --upstream-name project --upstream-tag t] *)
Definition args_not_catkin (t : string) : Args :=
  mkArgs None false false false true (Some "project") (Some t).

(** ** Properties of runs *)

(** The events that mark the progress of a run: the search of the upstream
    tree for manifests, the export of the tarball, the deletion of a tag,
    the call of git-import-orig and the two final pushes. *)
Definition is_discovery (e : event) : bool :=
  match e with
  | FindPackages _ => true
  | ParseStackFile _ => true
  | _ => false
  end.

Definition is_export (e : event) : bool :=
  match e with VcsExport _ _ _ _ => true | _ => false end.

Definition is_tag_delete (e : event) : bool :=
  match e with
  | ExecuteCommand cmd _ =>
      prefix "git tag -d " cmd || prefix "git push origin :refs/tags/" cmd
  | _ => false
  end.

Definition is_import_orig (e : event) : bool :=
  match e with ImportOrig _ _ _ => true | _ => false end.

(** The two pushes at the end of a run *)
Definition is_push (e : event) : bool :=
  match e with
  | ExecuteCommand cmd _ => (cmd =? "git push --all -f") || (cmd =? "git push --tags")
  | _ => false
  end.

(** Any [git push]: the two at the end of a run and the one with which the
    version guard deletes a tag on the remote. *)
Definition is_git_push (e : event) : bool :=
  match e with
  | ExecuteCommand cmd _ => prefix "git push " cmd
  | _ => false
  end.

(** The stage of the run an event belongs to: 0 for the events of the
    setup, then one stage for each of the five kinds above. *)
Definition stage (e : event) : nat :=
  if is_discovery e then 1
  else if is_export e then 2
  else if is_tag_delete e then 3
  else if is_import_orig e then 4
  else if is_push e then 5
  else 0.

Definition up_to (n : nat) (e : event) : bool := (stage e <=? n)%nat.

(** A program all of whose events, from any working directory, satisfy
    [P]. *)
Definition emits_only {A} (P : event -> bool) (m : M A) : Prop :=
  forall c, forallb P (events (m c)) = true.

(** Whether the scratch directory exists after a sequence of events. *)
Definition scratch_step (tmp_dir : string) (present : bool) (e : event) : bool :=
  match e with
  | CreateTemporaryDirectory p => if p =? tmp_dir then true else present
  | MakeDirs p => if p =? tmp_dir then true else present
  | RmTree p => if p =? tmp_dir then false else present
  | _ => present
  end.

Definition scratch_exists (tmp_dir : string) (t : list event) : bool :=
  fold_left (scratch_step tmp_dir) t false.

(** The events with which the [finally] block of [main] restores the
    branch that was checked out. *)
Definition restore_events (E : Env) (cwd : string) (current_branch : option string)
  : list event :=
  match current_branch with
  | Some b =>
      if truthy current_branch then
        BranchExists b true cwd
          :: (if branch_exists_result E b true cwd then [GitCheckout b (Some cwd)] else [])
      else []
  | None => []
  end.

(** The two events with which the guard starts when a prior tag exists
    whose version elements are found. *)
Definition guard_head (E : Env) : list event :=
  [GetLastTagByDate;
   Log LInfo ("The latest upstream tag in the release repository is "
              ++ ansi E "boldon" ++ get_last_tag_by_date_result E ++ ansi E "reset")].

(** The rest of a run that the version guard lets through. *)
Definition continue_with_import (E : Env) (bloom_repo_clone_dir : string) (args : Args)
    (tarball_path : string) : M (option Z) :=
  call (import_and_push E bloom_repo_clone_dir args tarball_path).

(** The branch the configuration file names, and the branch in effect for a
    run: the one of [--upstream-devel] when it is given. *)
Definition configured_branch (E : Env) : string :=
  match check_output_result E "git config -f bloom.conf bloom.upstreambranch" None with
  | Some out => Py.strip out
  | None => ""
  end.

Definition branch_in_effect (E : Env) (args : Args) : string :=
  match upstream_devel args with
  | Some ver => ver
  | None => configured_branch E
  end.

(** The branch names in the text that [git branch] prints: one branch a
    line, after a two-character margin. *)
Definition branch_names (output : string) : list string :=
  map (fun line => substring 2 (String.length line - 2) line)
      (filter (fun line => negb (line =? "")) (Py.split (ascii_of_nat 10) output)).

(** ** The statements of the specification that the code does not meet

    Each is the statement as the specification has it, about one run of
    [import_upstream]: from the environment [E], the directory [cwd] of the
    release repository, the scratch directory [tmp_dir], the command line
    [args] and the working directory [c0] of the process. *)

(** When a prior tag exists and the new version is less than its version,
    the regression warning is emitted, no tag is deleted and the run goes on
    to the import, whatever the command line. *)
Definition regression_only_warns (E : Env) (cwd tmp_dir : string) (args : Args)
    (c0 : string) : Prop :=
  forall t1 c1 clone version tarball a b c v w,
    before_guard E cwd tmp_dir args c0 = (t1, c1, Next (clone, version, tarball)) ->
    get_last_tag_by_date_result E <> "" ->
    get_versions_from_upstream_tag E (get_last_tag_by_date_result E) = inr [a; b; c] ->
    Py.parse version = Some v ->
    Py.parse (Py.join "." [a; b; c]) = Some w ->
    Py.cmp v w = Lt ->
    let r := import_upstream E cwd tmp_dir args c0 in
    In (Log LWarning (regression_warning version (Py.join "." [a; b; c]))) (events r)
    /\ (forall e, In e (events r) -> is_tag_delete e = false)
    /\ In (CheckOutput "git branch" None) (events r).

(** When no prior tag exists the version guard lets the run through,
    whatever the new version. *)
Definition guard_never_fails_without_tag (E : Env) (cwd tmp_dir : string) (args : Args)
    (c0 : string) : Prop :=
  forall t1 c1 clone version tarball,
    before_guard E cwd tmp_dir args c0 = (t1, c1, Next (clone, version, tarball)) ->
    get_last_tag_by_date_result E = "" ->
    exists t2 c2 gbp, version_guard E args version c1 = (t2, c2, Next gbp).

(** A run with [--not-catkin] that lacks the name or the tag returns 1
    before the upstream repository is checked out. *)
Definition usage_error_before_checkout (E : Env) (cwd tmp_dir : string) (args : Args)
    (c0 : string) : Prop :=
  not_catkin args = true ->
  name args = None \/ tag args = None ->
  let r := import_upstream E cwd tmp_dir args c0 in
  result r = Next (Some 1%Z)
  /\ forall vcs url ver,
       ~ In (VcsCheckout vcs (Py.path_join tmp_dir "upstream") url ver) (events r).

(** Whenever the version guard runs, a new version that is not a strict
    version makes the run fail with the parsing error. *)
Definition malformed_version_is_rejected (E : Env) (cwd tmp_dir : string) (args : Args)
    (c0 : string) : Prop :=
  forall t1 c1 clone version tarball,
    before_guard E cwd tmp_dir args c0 = (t1, c1, Next (clone, version, tarball)) ->
    Py.parse version = None ->
    exists msg, result (import_upstream E cwd tmp_dir args c0) = Raise (ValueError msg).

(** With upstream type svn the upstream checkout is from [<repo>/trunk] when
    the configuration names no branch and from [<repo>/branches/<name>] when
    it names one. *)
Definition svn_checkout_follows_configuration (E : Env) (cwd tmp_dir : string)
    (args : Args) (c0 : string) : Prop :=
  forall t1 c1 clone repo ver t2 c2 upstream_dir,
    clone_and_configure E cwd tmp_dir args c0 = (t1, c1, Next (clone, repo, "svn", ver)) ->
    checkout_upstream E tmp_dir repo "svn" ver c1 = (t2, c2, Next upstream_dir) ->
    let url := if configured_branch E =? "" then repo ++ "/trunk"
               else repo ++ "/branches/" ++ configured_branch E in
    In (VcsCheckout "svn" upstream_dir url "") (events (import_upstream E cwd tmp_dir args c0)).

(** In every run, a nonzero result of git-import-orig ends the run with a
    nonzero result, and the run performs no push. *)
Definition failed_import_never_pushes (E : Env) (cwd tmp_dir : string) (args : Args)
    (c0 : string) : Prop :=
  let r := import_upstream E cwd tmp_dir args c0 in
  forall tarball i m,
    In (ImportOrig tarball i m) (events r) ->
    import_orig_result E tarball i m <> 0%Z ->
    (exists rc, result r = Next (Some rc) /\ rc <> 0%Z)
    /\ forall e, In e (events r) -> is_git_push e = false.

(** The command line [--upstream-devel dev] *)
Definition args_devel : Args := mkArgs (Some "dev") false false false false None None.

(** The command line [--not-catkin --upstream-tag 1.0.0], without a name *)
Definition args_not_catkin_no_name : Args :=
  mkArgs None false false false true None (Some "1.0.0").

(** ** Further notions for the properties of the code *)

(** The message of [main] after a successful import *)
Definition happy_message : string := "I'm happy.  You should be too.".

(** Whether the return value of [import_upstream] counts as success in
    [main]: [retcode is None or retcode == 0]. *)
Definition succeeded (retcode : option Z) : bool :=
  match retcode with
  | None => true
  | Some n => (n =? 0)%Z
  end.

(** Whether the checkout with which [main] restores the branch is made and
    raises. *)
Definition restore_raises (E : Env) (cwd : string) (current_branch : option string) : bool :=
  match current_branch with
  | Some b =>
      truthy current_branch && branch_exists_result E b true cwd
      && negb (checkout_ok E b (Some cwd))
  | None => false
  end.

(** The environment [E] when [get_root] answers [root]. *)
Definition with_root (root : option string) (E : Env) : Env :=
  {| ansi := ansi E;
     has_rospkg := has_rospkg E;
     has_catkin_pkg := has_catkin_pkg E;
     segment_version := segment_version E;
     get_versions_from_upstream_tag := get_versions_from_upstream_tag E;
     execute_command_ok := execute_command_ok E;
     check_output_result := check_output_result E;
     create_temporary_directory_path := create_temporary_directory_path E;
     track_branches_ok := track_branches_ok E;
     checkout_ok := checkout_ok E;
     checkout_after_rename_ok := checkout_after_rename_ok E;
     create_branch_ok := create_branch_ok E;
     get_last_tag_by_date_result := get_last_tag_by_date_result E;
     get_root_result := root;
     get_current_branch_result := get_current_branch_result E;
     branch_exists_result := branch_exists_result E;
     has_replace_result := has_replace_result E;
     import_orig_result := import_orig_result E;
     vcs_checkout_ok := vcs_checkout_ok E;
     vcs_export_ok := vcs_export_ok E;
     path_exists := path_exists E;
     renamed_conf_exists := renamed_conf_exists E;
     read_file_outcome := read_file_outcome E;
     write_file_outcome := write_file_outcome E;
     find_packages_outcome := find_packages_outcome E;
     parse_stack_file_outcome := parse_stack_file_outcome E |}.

(** A text of one or more decimal digits *)
Fixpoint only_digits (s : string) : bool :=
  match s with
  | EmptyString => true
  | String c s' => Py.is_digit c && only_digits s'
  end.

Definition is_number (s : string) : bool :=
  negb (s =? "") && only_digits s.

(** What a deletion of a tag in a run has to be: the command line asks for
    the replacement, git-buildpackage supports it, there is a last tag, and
    the tag deleted is that one. *)
Definition is_replacement (E : Env) (args : Args) (e : event) : bool :=
  if is_tag_delete e then
    replace args && has_replace_result E
    && negb (get_last_tag_by_date_result E =? "")
    && match e with
       | ExecuteCommand cmd None =>
           (cmd =? "git tag -d " ++ get_last_tag_by_date_result E)
           || (cmd =? "git push origin :refs/tags/" ++ get_last_tag_by_date_result E)
       | _ => false
       end
  else true.

(** The environment [E] when no checkout of a [VcsClient] succeeds. *)
Definition without_checkouts (E : Env) : Env :=
  {| ansi := ansi E;
     has_rospkg := has_rospkg E;
     has_catkin_pkg := has_catkin_pkg E;
     segment_version := segment_version E;
     get_versions_from_upstream_tag := get_versions_from_upstream_tag E;
     execute_command_ok := execute_command_ok E;
     check_output_result := check_output_result E;
     create_temporary_directory_path := create_temporary_directory_path E;
     track_branches_ok := track_branches_ok E;
     checkout_ok := checkout_ok E;
     checkout_after_rename_ok := checkout_after_rename_ok E;
     create_branch_ok := create_branch_ok E;
     get_last_tag_by_date_result := get_last_tag_by_date_result E;
     get_root_result := get_root_result E;
     get_current_branch_result := get_current_branch_result E;
     branch_exists_result := branch_exists_result E;
     has_replace_result := has_replace_result E;
     import_orig_result := import_orig_result E;
     vcs_checkout_ok := fun _ _ _ _ => false;
     vcs_export_ok := vcs_export_ok E;
     path_exists := path_exists E;
     renamed_conf_exists := renamed_conf_exists E;
     read_file_outcome := read_file_outcome E;
     write_file_outcome := write_file_outcome E;
     find_packages_outcome := find_packages_outcome E;
     parse_stack_file_outcome := parse_stack_file_outcome E |}.

(** The calls that run git in [check_for_bloom] and
    [convert_catkin_to_bloom] *)
Definition is_git_call (e : event) : bool :=
  match e with
  | CheckOutput _ _ | ExecuteCommand _ _ | GitCheckout _ _ => true
  | _ => false
  end.

(** * Verification *)

(** ** The Python built-ins on examples *)

Example count_bloom :
  Py.count ("* bloom" ++ Py.nl ++ "  master" ++ Py.nl) "bloom" = 1%nat.
Proof. reflexivity. Qed.

Example count_does_not_overlap : Py.count "aaaa" "aa" = 2%nat.
Proof. reflexivity. Qed.

Example replace_section :
  Py.replace "[catkin] upstream = x [catkin]" "[catkin]" "[bloom]"
  = "[bloom] upstream = x [bloom]".
Proof. reflexivity. Qed.

Example split_version : Py.split "." "1.10.0" = ["1"; "10"; "0"].
Proof. reflexivity. Qed.

Example split_empty : Py.split "." "" = [""].
Proof. reflexivity. Qed.

Example strip_output : Py.strip ("  svn " ++ Py.nl) = "svn".
Proof. reflexivity. Qed.

Example path_join_relative : Py.path_join "/tmp/x" "upstream" = "/tmp/x/upstream".
Proof. reflexivity. Qed.

Example parse_three :
  Py.parse "1.10.0" = Some (Py.mkStrictVersion (1, 10, 0)%N None).
Proof. reflexivity. Qed.

Example parse_two_with_prerelease :
  Py.parse "1.2b3" = Some (Py.mkStrictVersion (1, 2, 0)%N (Some ("b"%char, 3%N))).
Proof. reflexivity. Qed.

Example parse_malformed :
  Py.parse "1.0.x" = None /\ Py.parse "1" = None /\ Py.parse "1.0.0.1" = None.
Proof. repeat split; reflexivity. Qed.

Example branch_names_sample : branch_names sample_branches = ["master"; "bloom"; "upstream"].
Proof. reflexivity. Qed.

(** ** The monad *)

Lemma bind_next {A B} (m : M A) (k : A -> M B) c t1 c1 a :
  m c = (t1, c1, Next a) ->
  bind m k c = (let '(t2, c2, r) := k a c1 in ((t1 ++ t2)%list, c2, r)).
Proof. intros H. unfold bind. rewrite H. reflexivity. Qed.

Lemma bind_return {A B} (m : M A) (k : A -> M B) c t1 c1 rc :
  m c = (t1, c1, Return rc) -> bind m k c = (t1, c1, Return rc).
Proof. intros H. unfold bind. rewrite H. reflexivity. Qed.

Lemma bind_raise {A B} (m : M A) (k : A -> M B) c t1 c1 e :
  m c = (t1, c1, Raise e) -> bind m k c = (t1, c1, Raise e).
Proof. intros H. unfold bind. rewrite H. reflexivity. Qed.

Lemma emits_only_ret {A} P (a : A) : emits_only P (ret a).
Proof. intros c. reflexivity. Qed.

Lemma emits_only_raise {A} P e : emits_only P (@raise A e).
Proof. intros c. reflexivity. Qed.

Lemma emits_only_sys_exit {A} P n : emits_only P (@sys_exit A n).
Proof. intros c. reflexivity. Qed.

Lemma emits_only_return {A} P rc : emits_only P (@return_ A rc).
Proof. intros c. reflexivity. Qed.

Lemma emits_only_getcwd P : emits_only P getcwd.
Proof. intros c. reflexivity. Qed.

Lemma emits_only_emit P e : P e = true -> emits_only P (emit e).
Proof. intros H c. cbn. rewrite H. reflexivity. Qed.

Lemma emits_only_chdir P p : P (ChDir p) = true -> emits_only P (chdir p).
Proof. intros H c. cbn. rewrite H. reflexivity. Qed.

Lemma emits_only_bind {A B} P (m : M A) (k : A -> M B) :
  emits_only P m -> (forall a, emits_only P (k a)) -> emits_only P (bind m k).
Proof.
  intros Hm Hk c. specialize (Hm c). unfold bind.
  destruct (m c) as [[t1 c1] [a | rc | e]]; cbn in *; try assumption.
  specialize (Hk a c1). destruct (k a c1) as [[t2 c2] r]. cbn in *.
  rewrite forallb_app, Hm, Hk. reflexivity.
Qed.

Lemma emits_only_try_except {A} P (m h : M A) :
  emits_only P m -> emits_only P h -> emits_only P (try_except_CalledProcessError m h).
Proof.
  intros Hm Hh c. specialize (Hm c). unfold try_except_CalledProcessError.
  destruct (m c) as [[t1 c1] [a | rc | []]]; cbn in *; try assumption.
  specialize (Hh c1). destruct (h c1) as [[t2 c2] r]. cbn in *.
  rewrite forallb_app, Hm, Hh. reflexivity.
Qed.

Lemma emits_only_call P (m : M unit) : emits_only P m -> emits_only P (call m).
Proof.
  intros Hm c. specialize (Hm c). unfold call.
  destruct (m c) as [[t1 c1] [a | rc | e]]; assumption.
Qed.

Lemma emits_only_weaken {A} (P Q : event -> bool) (m : M A) :
  (forall e, P e = true -> Q e = true) -> emits_only P m -> emits_only Q m.
Proof.
  intros HPQ Hm c. specialize (Hm c). rewrite forallb_forall in *. auto.
Qed.

Lemma emits_only_In {A} P (m : M A) c e :
  emits_only P m -> In e (events (m c)) -> P e = true.
Proof. intros Hm Hin. specialize (Hm c). rewrite forallb_forall in Hm. auto. Qed.

(** The tactic that proves [emits_only P m] for a program written with the
    helpers above, when [P] is decided by the shape of each event. *)
Ltac emits_step :=
  first
    [ apply emits_only_ret | apply emits_only_raise | apply emits_only_sys_exit
    | apply emits_only_return | apply emits_only_getcwd
    | apply emits_only_emit; reflexivity
    | apply emits_only_chdir; reflexivity
    | apply emits_only_bind; [ | intros ? ]
    | apply emits_only_try_except
    | apply emits_only_call
    | match goal with
      | |- emits_only _ (if ?b then _ else _) => destruct b
      | |- emits_only _ (match ?x with _ => _ end) => destruct x
      end ].

Ltac emits := repeat emits_step.

(** ** What each block emits *)

Section Emits.

Variable E : Env.

Lemma check_for_bloom_setup cwd : emits_only (up_to 0) (check_for_bloom E cwd).
Proof.
  unfold check_for_bloom, convert_catkin_to_bloom, not_a_bloom_release_repo,
    check_output, checkout, execute_command, os_path_exists, os_path_join, read_file, write_file, info, error.
  emits.
Qed.

Lemma parse_bloom_conf_setup cwd : emits_only (up_to 0) (parse_bloom_conf E cwd).
Proof. unfold parse_bloom_conf, check_output. emits. Qed.

Lemma clone_and_configure_setup cwd tmp_dir args :
  emits_only (up_to 0) (clone_and_configure E cwd tmp_dir args).
Proof.
  unfold clone_and_configure.
  repeat first
    [ apply check_for_bloom_setup | apply parse_bloom_conf_setup
    | progress unfold track_branches, vcs_checkout, summarize_repo_info, warning, info
    | emits_step
    | match goal with |- emits_only _ (let '(_, _) := ?x in _) => destruct x end ].
Qed.

Lemma checkout_upstream_setup tmp_dir repo type ver :
  emits_only (up_to 0) (checkout_upstream E tmp_dir repo type ver).
Proof.
  unfold checkout_upstream. destruct (checkout_target _ _ _) as [url cver].
  unfold vcs_checkout, debug, error. emits.
Qed.

Lemma get_upstream_meta_discovery upstream_dir :
  emits_only (up_to 1) (get_upstream_meta E upstream_dir).
Proof.
  unfold get_upstream_meta, find_packages, os_path_exists, parse_stack_file, info, error.
  emits.
Qed.

Lemma resolve_meta_discovery args upstream_dir :
  emits_only (up_to 1) (resolve_meta E args upstream_dir).
Proof.
  unfold resolve_meta.
  repeat first
    [ apply get_upstream_meta_discovery
    | progress unfold first_name, info, error
    | emits_step ].
Qed.

Lemma export_tarball_export tmp_dir repo type dir name version :
  emits_only (up_to 2) (export_tarball E tmp_dir repo type dir name version).
Proof.
  unfold export_tarball, vcs_checkout, vcs_export, info, warning, error.
  repeat first
    [ emits_step
    | match goal with |- emits_only _ (let '(_, _) := ?x in _) => destruct x end ].
Qed.

Lemma tag_delete_stage last_tag cwd :
  stage (ExecuteCommand ("git tag -d " ++ last_tag) cwd) = 3%nat
  /\ stage (ExecuteCommand ("git push origin :refs/tags/" ++ last_tag) cwd) = 3%nat.
Proof. split; destruct last_tag; reflexivity. Qed.

Lemma version_guard_tags args version :
  emits_only (up_to 3) (version_guard E args version).
Proof.
  unfold version_guard, get_last_tag_by_date, unpack3, StrictVersion, strict_lt, strict_le,
    has_replace,
    execute_command, info, warning, error.
  repeat first
    [ emits_step
    | apply emits_only_emit; unfold up_to;
      first [ rewrite (proj1 (tag_delete_stage _ _)) | rewrite (proj2 (tag_delete_stage _ _)) ];
      reflexivity
    | match goal with |- emits_only _ (let '(_, _) := ?x in _) => destruct x end ].
Qed.

Lemma up_to_mono n m e : (n <= m)%nat -> up_to n e = true -> up_to m e = true.
Proof.
  unfold up_to. intros Hnm H. apply Nat.leb_le in H. apply Nat.leb_le. lia.
Qed.

Lemma emits_only_up_to {A} n m (p : M A) :
  (n <= m)%nat -> emits_only (up_to n) p -> emits_only (up_to m) p.
Proof. intros Hnm. apply emits_only_weaken. intros e. apply up_to_mono, Hnm. Qed.

Lemma before_guard_export cwd tmp_dir args :
  emits_only (up_to 2) (before_guard E cwd tmp_dir args).
Proof.
  unfold before_guard.
  apply emits_only_bind.
  { apply (emits_only_up_to 0); [ lia | apply clone_and_configure_setup ]. }
  intros [[[clone repo] type] ver].
  apply emits_only_bind.
  { apply (emits_only_up_to 0); [ lia | apply checkout_upstream_setup ]. }
  intros upstream_dir.
  apply emits_only_bind.
  { apply (emits_only_up_to 1); [ lia | apply resolve_meta_discovery ]. }
  intros [name version].
  apply emits_only_bind; [ apply export_tarball_export | intros; apply emits_only_ret ].
Qed.

End Emits.

(** ** The version guard *)

(** Simplification of a run that leaves the texts as they are written. *)
Ltac simp_run :=
  cbn -[Py.join String.append Py.parse Py.lt Py.le Py.count Py.path_join
        regression_warning replace_warning collision_warning
        replace_unsupported_message usage_error_message
        verify_equal_package_versions List.map versions_not_supported_message].

Section Guard.

Variable E : Env.

(** A run that reaches the version guard goes on as the guard decides. *)
Lemma run_through_guard cwd tmp_dir args c0 t1 c1 clone version tarball :
  before_guard E cwd tmp_dir args c0 = (t1, c1, Next (clone, version, tarball)) ->
  import_upstream E cwd tmp_dir args c0
  = match version_guard E args version c1 with
    | (t2, c2, Next _) =>
        let rest := continue_with_import E clone args tarball c2 in
        ((t1 ++ t2 ++ events rest)%list, cwd_after rest, result rest)
    | (t2, c2, Return rc) => ((t1 ++ t2)%list, c2, Next rc)
    | (t2, c2, Raise e) => ((t1 ++ t2)%list, c2, Raise e)
    end.
Proof.
  intros H. unfold import_upstream, call, import_upstream_body.
  rewrite (bind_next _ _ _ _ _ _ H). unfold bind at 1.
  destruct (version_guard E args version c1) as [[t2 c2] [gbp | rc | e]]; try reflexivity.
  unfold continue_with_import, call, events, cwd_after, result.
  destruct (import_and_push E clone args tarball c2) as [[t3 c3] [[] | rc | e]];
    cbn; rewrite ?app_assoc; reflexivity.
Qed.

(** The guard when no prior tag exists: the segments of the new version and
    nothing else. *)
Lemma version_guard_without_tag args version c :
  get_last_tag_by_date_result E = "" ->
  version_guard E args version c
  = match segment_version E version with
    | inr [a; b; c'] => ([GetLastTagByDate], c, Next (a, b, c'))
    | inr l => ([GetLastTagByDate], c, Raise (ValueError (unpack_message l)))
    | inl e => ([GetLastTagByDate], c, Raise e)
    end.
Proof.
  intros Htag. unfold version_guard, get_last_tag_by_date. cbn. rewrite Htag. cbn.
  unfold unpack3.
  destruct (segment_version E version) as [e | [ | a [ | b [ | c' [ | d l]]]]]; reflexivity.
Qed.

(** A strict version is not the empty string, and neither is the version
    that the guard joins from the three elements of a tag. *)
Lemma parse_nonempty s v : Py.parse s = Some v -> (s =? "") = false.
Proof. destruct s; [ discriminate | reflexivity ]. Qed.

Lemma join3_nonempty a b c : (Py.join "." [a; b; c] =? "") = false.
Proof. destruct a; reflexivity. Qed.

Lemma version_guard_malformed_new args version c a b c' :
  get_last_tag_by_date_result E <> "" ->
  get_versions_from_upstream_tag E (get_last_tag_by_date_result E) = inr [a; b; c'] ->
  version <> "" ->
  Py.parse version = None ->
  version_guard E args version c
  = (guard_head E, c, Raise (ValueError ("invalid version number '" ++ version ++ "'"))).
Proof.
  intros Htag Hseg Hne Hv. apply String.eqb_neq in Htag. apply String.eqb_neq in Hne.
  unfold version_guard, get_last_tag_by_date, has_replace, info, warning, error, guard_head.
  simp_run. rewrite Htag, Hseg.
  simp_run. unfold StrictVersion. rewrite Hne, Hv. reflexivity.
Qed.

Lemma version_guard_malformed_last args version c a b c' :
  get_last_tag_by_date_result E <> "" ->
  get_versions_from_upstream_tag E (get_last_tag_by_date_result E) = inr [a; b; c'] ->
  version = "" \/ Py.parse version <> None ->
  Py.parse (Py.join "." [a; b; c']) = None ->
  version_guard E args version c
  = (guard_head E, c,
     Raise (ValueError ("invalid version number '" ++ Py.join "." [a; b; c'] ++ "'"))).
Proof.
  intros Htag Hseg Hv Hw. apply String.eqb_neq in Htag.
  unfold version_guard, get_last_tag_by_date, has_replace, info, warning, error, guard_head.
  simp_run. rewrite Htag, Hseg.
  simp_run. unfold StrictVersion. rewrite join3_nonempty, Hw.
  destruct Hv as [-> | Hv]; [ reflexivity | ].
  destruct (version =? ""); [ reflexivity | ].
  destruct (Py.parse version); [ reflexivity | contradiction ].
Qed.

(** The empty string is not parsed: the guard fails when it compares. *)
Lemma version_guard_empty_new args c a b c' w :
  get_last_tag_by_date_result E <> "" ->
  get_versions_from_upstream_tag E (get_last_tag_by_date_result E) = inr [a; b; c'] ->
  Py.parse (Py.join "." [a; b; c']) = Some w ->
  version_guard E args "" c = (guard_head E, c, Raise AttributeError).
Proof.
  intros Htag Hseg Hw. apply String.eqb_neq in Htag.
  unfold version_guard, get_last_tag_by_date, has_replace, info, warning, error, guard_head.
  simp_run. rewrite Htag, Hseg.
  simp_run. unfold StrictVersion. rewrite join3_nonempty, Hw. reflexivity.
Qed.

(** The guard when a prior tag exists and both versions are strict
    versions: every way it can go. *)
Lemma version_guard_with_tag args version c a b c' v w :
  get_last_tag_by_date_result E <> "" ->
  get_versions_from_upstream_tag E (get_last_tag_by_date_result E) = inr [a; b; c'] ->
  Py.parse version = Some v ->
  Py.parse (Py.join "." [a; b; c']) = Some w ->
  let last_tag := get_last_tag_by_date_result E in
  let delete_local := ExecuteCommand ("git tag -d " ++ last_tag) None in
  let delete_remote := ExecuteCommand ("git push origin :refs/tags/" ++ last_tag) None in
  let head :=
    (guard_head E ++
     if Py.lt v w
     then [Log LWarning (regression_warning version (Py.join "." [a; b; c']))]
     else [])%list in
  version_guard E args version c
  = if Py.le v w then
      if replace args then
        if has_replace_result E then
          if execute_command_ok E ("git tag -d " ++ last_tag) None then
            if execute_command_ok E ("git push origin :refs/tags/" ++ last_tag) None then
              ((head ++ [HasReplace; Log LWarning (replace_warning version);
                         delete_local; delete_remote])%list,
               c, Next (a, b, c'))
            else
              ((head ++ [HasReplace; Log LWarning (replace_warning version);
                         delete_local; delete_remote])%list,
               c, Raise CalledProcessError)
          else
            ((head ++ [HasReplace; Log LWarning (replace_warning version);
                       delete_local])%list,
             c, Raise CalledProcessError)
        else
          ((head ++ [HasReplace;
                     Log LError replace_unsupported_message])%list,
           c, Return (Some 1%Z))
      else
        ((head ++ [Log LWarning (collision_warning version)])%list, c, Next (a, b, c'))
    else (head, c, Next (a, b, c')).
Proof.
  intros Htag Hseg Hv Hw. apply String.eqb_neq in Htag. cbv zeta.
  unfold version_guard, get_last_tag_by_date, has_replace, info, warning, error, guard_head.
  simp_run. rewrite Htag, Hseg.
  simp_run. unfold StrictVersion, strict_lt, strict_le.
  rewrite (parse_nonempty _ _ Hv), Hv, join3_nonempty, Hw. simp_run.
  destruct (Py.lt v w); simp_run;
    (destruct (Py.le v w); simp_run; [ | reflexivity ]);
    (destruct (replace args); simp_run; [ | reflexivity ]);
    (destruct (has_replace_result E); simp_run; [ | reflexivity ]);
    unfold execute_command; simp_run;
    (destruct (execute_command_ok E _ None); simp_run; [ | reflexivity ]);
    (destruct (execute_command_ok E _ None); simp_run; reflexivity).
Qed.

End Guard.

(** ** The decisions of the version guard *)

(** Finds an event in the events of a run on given inputs. *)
Ltac find_event := vm_compute; repeat (first [ left; reflexivity | right ]).

Lemma tag_delete_is_stage_3 e : is_tag_delete e = true -> stage e = 3%nat.
Proof.
  destruct e; cbn; try discriminate. unfold stage. cbn. intros ->. reflexivity.
Qed.

Lemma up_to_2_keeps_tags e : up_to 2 e = true -> is_tag_delete e = false.
Proof.
  unfold up_to. intros H. apply Nat.leb_le in H.
  destruct (is_tag_delete e) eqn:Hd; [ | reflexivity ].
  apply tag_delete_is_stage_3 in Hd. lia.
Qed.

Lemma before_guard_keeps_tags E cwd tmp_dir args c0 e :
  In e (events (before_guard E cwd tmp_dir args c0)) -> is_tag_delete e = false.
Proof.
  intros Hin. apply up_to_2_keeps_tags.
  exact (emits_only_In _ _ _ _ (before_guard_export E cwd tmp_dir args) Hin).
Qed.

Lemma import_and_push_keeps_tags E clone args tarball :
  emits_only (fun e => negb (is_tag_delete e)) (import_and_push E clone args tarball).
Proof.
  unfold import_and_push, create_initial_upstream_branch, create_branch, check_output,
    vcs_update, import_orig, execute_command, info.
  emits.
Qed.

Lemma continue_with_import_keeps_tags E clone args tarball c e :
  In e (events (continue_with_import E clone args tarball c)) -> is_tag_delete e = false.
Proof.
  intros Hin. apply negb_true_iff.
  apply (emits_only_In (fun e => negb (is_tag_delete e))
           (continue_with_import E clone args tarball) c e); [ | exact Hin ].
  apply emits_only_call, import_and_push_keeps_tags.
Qed.

(** The last block, as the answers of the environment decide it. *)
Lemma import_and_push_run E clone args tarball_path c :
  let query := CheckOutput "git branch" None in
  let create :=
    [Log LInfo (ansi E "boldon" ++ "No upstream branch" ++ ansi E "reset"
                ++ "... creating an initial upstream branch.");
     CreateBranch "upstream" true true] in
  let call_import :=
    ImportOrig (tarball_path ++ ".tar.gz") (interactive args) (merge args) in
  let rc := import_orig_result E (tarball_path ++ ".tar.gz") (interactive args) (merge args) in
  let push_all := ExecuteCommand "git push --all -f" None in
  let push_tags := ExecuteCommand "git push --tags" None in
  import_and_push E clone args tarball_path c
  = match check_output_result E "git branch" None with
    | None => ([query], c, Raise CalledProcessError)
    | Some output =>
        let made := if branch_absent output "upstream" then create else [] in
        if branch_absent output "upstream" && negb (create_branch_ok E "upstream") then
          (query :: made, c, Raise CalledProcessError)
        else
          let imported :=
            (query :: made ++ [VcsUpdate "git" clone "master"; call_import])%list in
          if (rc =? 0)%Z then
            if execute_command_ok E "git push --all -f" None then
              ((imported ++ [push_all; push_tags])%list, c,
               if execute_command_ok E "git push --tags" None
               then Next tt else Raise CalledProcessError)
            else ((imported ++ [push_all])%list, c, Raise CalledProcessError)
          else (imported, c, Return (Some 1%Z))
    end.
Proof.
  intros query create call_import rc push_all push_tags.
  unfold import_and_push, create_initial_upstream_branch, create_branch, check_output,
    vcs_update, import_orig, execute_command, info.
  unfold bind, emit, ret, raise, return_. simp_run.
  fold rc call_import push_all push_tags.
  destruct (check_output_result E "git branch" None) as [output | ]; simp_run;
    [ | reflexivity ].
  destruct (branch_absent output "upstream"); simp_run;
    [ destruct (create_branch_ok E "upstream"); simp_run; [ | reflexivity ] | ];
    (destruct (rc =? 0)%Z; simp_run; [ | reflexivity ]);
    (destruct (execute_command_ok E "git push --all -f" None); simp_run; [ | reflexivity ]);
    destruct (execute_command_ok E "git push --tags" None); reflexivity.
Qed.

(** C1.  In every run that reaches the version guard, finds a prior tag,
    has a new version equal to the version of that tag and was asked to
    replace, the guard asks whether git-buildpackage supports replacement.
    If it does not, [import_upstream] returns 1 after the error and no tag
    was deleted in the run.  If it does, the guard warns and deletes the
    tag locally, then from the remote; a deletion that fails ends the run
    with [CalledProcessError].  After the two deletions the import
    proceeds: the run queries the branches, creates the branch [upstream]
    if it is absent, updates to [master] and calls git-import-orig on the
    tarball it exported; the result of that call decides the rest as in
    every run. *)
Theorem replace_on_collision E cwd tmp_dir args c0 t1 c1 clone version tarball a b c v w :
  before_guard E cwd tmp_dir args c0 = (t1, c1, Next (clone, version, tarball)) ->
  get_last_tag_by_date_result E <> "" ->
  get_versions_from_upstream_tag E (get_last_tag_by_date_result E) = inr [a; b; c] ->
  Py.parse version = Some v ->
  Py.parse (Py.join "." [a; b; c]) = Some w ->
  Py.cmp v w = Eq ->
  replace args = true ->
  let last_tag := get_last_tag_by_date_result E in
  let delete_local := ExecuteCommand ("git tag -d " ++ last_tag) None in
  let delete_remote := ExecuteCommand ("git push origin :refs/tags/" ++ last_tag) None in
  let query := CheckOutput "git branch" None in
  let create :=
    [Log LInfo (ansi E "boldon" ++ "No upstream branch" ++ ansi E "reset"
                ++ "... creating an initial upstream branch.");
     CreateBranch "upstream" true true] in
  let call_import := ImportOrig (tarball ++ ".tar.gz") (interactive args) (merge args) in
  let rc := import_orig_result E (tarball ++ ".tar.gz") (interactive args) (merge args) in
  let push_all := ExecuteCommand "git push --all -f" None in
  let push_tags := ExecuteCommand "git push --tags" None in
  let r := import_upstream E cwd tmp_dir args c0 in
  let asked := (t1 ++ guard_head E ++ [HasReplace])%list in
  let warned := (asked ++ [Log LWarning (replace_warning version); delete_local])%list in
  let deleted := (warned ++ [delete_remote; query])%list in
  if has_replace_result E then
    if execute_command_ok E ("git tag -d " ++ last_tag) None then
      if execute_command_ok E ("git push origin :refs/tags/" ++ last_tag) None then
        match check_output_result E "git branch" None with
        | None => r = (deleted, c1, Raise CalledProcessError)
        | Some output =>
            let made := if branch_absent output "upstream" then create else [] in
            if branch_absent output "upstream" && negb (create_branch_ok E "upstream") then
              r = ((deleted ++ made)%list, c1, Raise CalledProcessError)
            else
              let imported :=
                (deleted ++ made ++ [VcsUpdate "git" clone "master"; call_import])%list in
              if (rc =? 0)%Z then
                if execute_command_ok E "git push --all -f" None then
                  r = ((imported ++ [push_all; push_tags])%list, c1,
                       if execute_command_ok E "git push --tags" None
                       then Next None else Raise CalledProcessError)
                else r = ((imported ++ [push_all])%list, c1, Raise CalledProcessError)
              else r = (imported, c1, Next (Some 1%Z))
        end
      else r = ((warned ++ [delete_remote])%list, c1, Raise CalledProcessError)
    else r = (warned, c1, Raise CalledProcessError)
  else
    r = ((asked ++ [Log LError replace_unsupported_message])%list, c1, Next (Some 1%Z))
    /\ forall e, In e (events r) -> is_tag_delete e = false.
Proof.
  intros Hrun Htag Hseg Hv Hw Hcmp Hrep last_tag delete_local delete_remote query create
    call_import rc push_all push_tags r asked warned deleted.
  assert (Hr := run_through_guard E _ _ _ _ _ _ _ _ _ Hrun). fold r in Hr.
  rewrite (version_guard_with_tag E args version c1 _ _ _ _ _ Htag Hseg Hv Hw) in Hr.
  unfold Py.lt, Py.le in Hr. rewrite Hcmp, Hrep in Hr. rewrite app_nil_r in Hr.
  fold last_tag delete_local delete_remote in Hr.
  destruct (has_replace_result E).
  - destruct (execute_command_ok E ("git tag -d " ++ last_tag) None).
    + destruct (execute_command_ok E ("git push origin :refs/tags/" ++ last_tag) None).
      * unfold continue_with_import, call in Hr.
        rewrite (import_and_push_run E clone args tarball c1) in Hr.
        fold query create call_import rc push_all push_tags in Hr.
        subst asked warned deleted.
        destruct (check_output_result E "git branch" None) as [output | ].
        2: { rewrite Hr. cbn. rewrite <- !app_assoc. reflexivity. }
        cbv zeta in Hr |- *.
        destruct (branch_absent output "upstream" && negb (create_branch_ok E "upstream")).
        { rewrite Hr. cbn. rewrite <- !app_assoc. reflexivity. }
        destruct (rc =? 0)%Z;
          [ destruct (execute_command_ok E "git push --all -f" None);
            [ destruct (execute_command_ok E "git push --tags" None) | ] | ];
          rewrite Hr; cbn; rewrite <- !app_assoc; reflexivity.
      * rewrite Hr. subst asked warned. rewrite <- !app_assoc. reflexivity.
    + rewrite Hr. subst asked warned. rewrite <- !app_assoc. reflexivity.
  - assert (Hr' : r = ((asked ++ [Log LError replace_unsupported_message])%list, c1,
                       Next (Some 1%Z))).
    { rewrite Hr. subst asked. rewrite <- !app_assoc. reflexivity. }
    split; [ exact Hr' | ].
    rewrite Hr. unfold events. cbn [fst]. intros e Hin.
    apply in_app_or in Hin. destruct Hin as [Hin | Hin].
    + apply (before_guard_keeps_tags E cwd tmp_dir args c0). rewrite Hrun. exact Hin.
    + cbn in Hin. intuition (subst; reflexivity).
Qed.

(** C1 on the sample repository with the last tag [upstream/1.0.0], the
    upstream version 1.0.0 and [--replace]: without support for
    replacement the run returns 1; with it the run deletes the tag and
    calls git-import-orig on the tarball. *)
Lemma replace_on_collision_witness :
  let cwd := "/home/user/release" in
  let r := import_upstream (sample_env "git" None one_package "upstream/1.0.0" true 0)
             cwd "/tmp/scratch" args_replace cwd in
  result (import_upstream (sample_env "git" None one_package "upstream/1.0.0" false 0)
            cwd "/tmp/scratch" args_replace cwd) = Next (Some 1%Z)
  /\ In (ExecuteCommand "git tag -d upstream/1.0.0" None) (events r)
  /\ In (ImportOrig "/tmp/scratch/upstream-1.0.0.tar.gz" false false) (events r)
  /\ result r = Next None.
Proof.
  intros cwd r. split.
  - pose proof (replace_on_collision
                  (sample_env "git" None one_package "upstream/1.0.0" false 0)
                  cwd "/tmp/scratch" args_replace cwd _ _ _ _ _ "1" "0" "0"
                  (Py.mkStrictVersion (1, 0, 0)%N None) (Py.mkStrictVersion (1, 0, 0)%N None)
                  eq_refl ltac:(discriminate) eq_refl eq_refl eq_refl eq_refl eq_refl) as H.
    cbv zeta in H. destruct H as [Hr _]. rewrite Hr. reflexivity.
  - pose proof (replace_on_collision
                  (sample_env "git" None one_package "upstream/1.0.0" true 0)
                  cwd "/tmp/scratch" args_replace cwd _ _ _ _ _ "1" "0" "0"
                  (Py.mkStrictVersion (1, 0, 0)%N None) (Py.mkStrictVersion (1, 0, 0)%N None)
                  eq_refl ltac:(discriminate) eq_refl eq_refl eq_refl eq_refl eq_refl) as H.
    cbv zeta in H. change (import_upstream _ _ _ _ _) with r in H.
    rewrite H. repeat split; find_event.
Defined.

(** C2, as the code has it.  In every run that reaches the version guard and
    finds a prior tag whose version is greater than the new version, the
    guard first emits the regression warning.  Without [--replace] it then
    emits the collision warning and the run goes on with the import; no tag
    is deleted in the run.  With [--replace] the guard does what it does
    for equal versions: [import_upstream] returns 1 when git-buildpackage
    does not support replacement, and otherwise the guard deletes the tag
    locally and from the remote (the two git commands, taken to succeed)
    before the run goes on. *)
Theorem regression_warns_and_follows_replace
    E cwd tmp_dir args c0 t1 c1 clone version tarball a b c v w :
  before_guard E cwd tmp_dir args c0 = (t1, c1, Next (clone, version, tarball)) ->
  get_last_tag_by_date_result E <> "" ->
  get_versions_from_upstream_tag E (get_last_tag_by_date_result E) = inr [a; b; c] ->
  Py.parse version = Some v ->
  Py.parse (Py.join "." [a; b; c]) = Some w ->
  Py.cmp v w = Lt ->
  let last_tag := get_last_tag_by_date_result E in
  let regression := Log LWarning (regression_warning version (Py.join "." [a; b; c])) in
  let rest := continue_with_import E clone args tarball c1 in
  let r := import_upstream E cwd tmp_dir args c0 in
  (replace args = false ->
   r = ((t1 ++ ((guard_head E ++ [regression])
                  ++ [Log LWarning (collision_warning version)])
            ++ events rest)%list,
        cwd_after rest, result rest)
   /\ forall e, In e (events r) -> is_tag_delete e = false)
  /\ (replace args = true -> has_replace_result E = false ->
      r = ((t1 ++ (guard_head E ++ [regression])
               ++ [HasReplace;
                   Log LError replace_unsupported_message])%list,
           c1, Next (Some 1%Z)))
  /\ (replace args = true -> has_replace_result E = true ->
      execute_command_ok E ("git tag -d " ++ last_tag) None = true ->
      execute_command_ok E ("git push origin :refs/tags/" ++ last_tag) None = true ->
      r = ((t1 ++ ((guard_head E ++ [regression])
                     ++ [HasReplace; Log LWarning (replace_warning version);
                         ExecuteCommand ("git tag -d " ++ last_tag) None;
                         ExecuteCommand ("git push origin :refs/tags/" ++ last_tag) None])
               ++ events rest)%list,
           cwd_after rest, result rest)).
Proof.
  intros Hrun Htag Hseg Hv Hw Hcmp last_tag regression rest r.
  assert (Hr := run_through_guard E _ _ _ _ _ _ _ _ _ Hrun). fold r in Hr.
  rewrite (version_guard_with_tag E args version c1 _ _ _ _ _ Htag Hseg Hv Hw) in Hr.
  unfold Py.lt, Py.le in Hr. rewrite Hcmp in Hr.
  fold last_tag regression in Hr.
  split; [ | split ].
  - intros Hrep. rewrite Hrep in Hr. fold rest in Hr. split; [ exact Hr | ].
    rewrite Hr. unfold events at 1. cbn [fst]. intros e Hin.
    apply in_app_or in Hin. destruct Hin as [Hin | Hin].
    + apply (before_guard_keeps_tags E cwd tmp_dir args c0). rewrite Hrun. exact Hin.
    + apply in_app_or in Hin. destruct Hin as [Hin | Hin].
      * cbn in Hin. intuition (subst; reflexivity).
      * exact (continue_with_import_keeps_tags _ _ _ _ _ _ Hin).
  - intros Hrep Hsup. rewrite Hrep, Hsup in Hr. exact Hr.
  - intros Hrep Hsup Hd1 Hd2. rewrite Hrep, Hsup, Hd1, Hd2 in Hr. exact Hr.
Qed.

(** The amended C2 on the sample repository with the last tag
    [upstream/1.0.1] and the upstream version 1.0.0: without [--replace]
    the run succeeds and deletes no tag. *)
Lemma regression_warns_and_follows_replace_witness :
  let cwd := "/home/user/release" in
  let r := import_upstream (sample_env "git" None one_package "upstream/1.0.1" true 0)
             cwd "/tmp/scratch" args_plain cwd in
  forallb (fun e => negb (is_tag_delete e)) (events r) = true.
Proof.
  intros cwd r.
  pose proof (regression_warns_and_follows_replace
                (sample_env "git" None one_package "upstream/1.0.1" true 0)
                cwd "/tmp/scratch" args_plain cwd _ _ _ _ _ "1" "0" "1"
                (Py.mkStrictVersion (1, 0, 0)%N None) (Py.mkStrictVersion (1, 0, 1)%N None)
                eq_refl ltac:(discriminate) eq_refl eq_refl eq_refl eq_refl) as H.
  cbv zeta in H. destruct H as [H _].
  apply forallb_forall. intros e He. apply negb_true_iff.
  exact (proj2 (H eq_refl) e He).
Defined.

(** C2 as the specification states it fails on the sample repository with
    the last tag [upstream/1.0.1], the upstream version 1.0.0 and
    [--replace]: the run deletes the tag. *)
Lemma regression_with_replace_deletes_tag :
  ~ regression_only_warns (sample_env "git" None one_package "upstream/1.0.1" true 0)
      "/home/user/release" "/tmp/scratch" args_replace "/home/user/release".
Proof.
  intros H.
  specialize (H _ _ _ _ _ "1" "0" "1"
                (Py.mkStrictVersion (1, 0, 0)%N None) (Py.mkStrictVersion (1, 0, 1)%N None)
                eq_refl ltac:(discriminate) eq_refl eq_refl eq_refl eq_refl).
  cbv zeta in H. destruct H as (_ & Hkeep & _).
  specialize (Hkeep (ExecuteCommand "git tag -d upstream/1.0.1" None)).
  assert (Hd : is_tag_delete (ExecuteCommand "git tag -d upstream/1.0.1" None) = false).
  { apply Hkeep. find_event. }
  discriminate Hd.
Qed.

(** C3, as the code has it.  In every run that reaches the version guard and
    finds no prior tag, the guard compares nothing: when
    [segment_version] gives exactly three segments for the new version the
    guard yields them as the version elements, emits nothing but the query
    for the last tag, and the run goes on with the import; when it gives
    anything else the run ends there with an exception. *)
Theorem no_tag_guard_takes_three_segments
    E cwd tmp_dir args c0 t1 c1 clone version tarball :
  before_guard E cwd tmp_dir args c0 = (t1, c1, Next (clone, version, tarball)) ->
  get_last_tag_by_date_result E = "" ->
  let r := import_upstream E cwd tmp_dir args c0 in
  let rest := continue_with_import E clone args tarball c1 in
  (forall a b c,
      segment_version E version = inr [a; b; c] ->
      version_guard E args version c1 = ([GetLastTagByDate], c1, Next (a, b, c))
      /\ r = ((t1 ++ [GetLastTagByDate] ++ events rest)%list, cwd_after rest, result rest))
  /\ ((forall a b c, segment_version E version <> inr [a; b; c]) ->
      exists e, r = ((t1 ++ [GetLastTagByDate])%list, c1, Raise e)).
Proof.
  intros Hrun Htag r rest.
  assert (Hr := run_through_guard E _ _ _ _ _ _ _ _ _ Hrun). fold r in Hr.
  rewrite (version_guard_without_tag E args version c1 Htag) in Hr.
  split.
  - intros a b c Hseg. rewrite (version_guard_without_tag E args version c1 Htag).
    rewrite Hseg in *. split; [ reflexivity | exact Hr ].
  - intros Hnot.
    destruct (segment_version E version) as [e | [ | a [ | b [ | c [ | d l]]]]];
      try (eexists; exact Hr).
    exfalso. exact (Hnot a b c eq_refl).
Qed.

(** The amended C3 on the sample repository without tags and the upstream
    version 1.0.0: the run succeeds. *)
Lemma no_tag_guard_takes_three_segments_witness :
  let cwd := "/home/user/release" in
  result (import_upstream (sample_env "git" None one_package "" true 0)
            cwd "/tmp/scratch" args_plain cwd) = Next None.
Proof.
  intros cwd.
  pose proof (no_tag_guard_takes_three_segments
                (sample_env "git" None one_package "" true 0)
                cwd "/tmp/scratch" args_plain cwd _ _ _ _ _ eq_refl eq_refl) as H.
  cbv zeta in H. destruct H as [H _].
  destruct (H "1" "0" "0" eq_refl) as [_ Hr]. rewrite Hr. reflexivity.
Defined.

(** C3 as the specification states it fails on the sample repository
    without tags when the upstream version is given as 1.0
    ([--not-catkin --upstream-name project --upstream-tag 1.0]): the version
    has two segments and the guard raises. *)
Lemma no_tag_guard_fails_on_two_segments :
  ~ guard_never_fails_without_tag (sample_env "git" None [] "" true 0)
      "/home/user/release" "/tmp/scratch" (args_not_catkin "1.0") "/home/user/release".
Proof.
  intros H.
  destruct (H _ _ _ _ _ eq_refl eq_refl) as (t2 & c2 & gbp & Hg).
  vm_compute in Hg. discriminate Hg.
Qed.

(** C5, as the code has it.  In every run that reaches the version guard and
    finds a prior tag with its three version elements, the new version,
    unless it is the empty string, and then the version of the tag are
    parsed as strict versions, and the run ends with the [ValueError] of the
    first of the two that is not one, after the query for the last tag and
    the note of it.  [StrictVersion] does not parse the empty string: a run
    whose new version is empty ends with the [ValueError] of the version of
    the tag or, when that is a strict version, with the [AttributeError] of
    the first comparison. *)
Theorem malformed_version_with_tag_is_rejected
    E cwd tmp_dir args c0 t1 c1 clone version tarball a b c :
  before_guard E cwd tmp_dir args c0 = (t1, c1, Next (clone, version, tarball)) ->
  get_last_tag_by_date_result E <> "" ->
  get_versions_from_upstream_tag E (get_last_tag_by_date_result E) = inr [a; b; c] ->
  let r := import_upstream E cwd tmp_dir args c0 in
  let last_tag_version := Py.join "." [a; b; c] in
  (version <> "" -> Py.parse version = None ->
   r = ((t1 ++ guard_head E)%list, c1,
        Raise (ValueError ("invalid version number '" ++ version ++ "'"))))
  /\ (version = "" \/ Py.parse version <> None ->
      Py.parse last_tag_version = None ->
      r = ((t1 ++ guard_head E)%list, c1,
           Raise (ValueError ("invalid version number '" ++ last_tag_version ++ "'"))))
  /\ (version = "" -> Py.parse last_tag_version <> None ->
      r = ((t1 ++ guard_head E)%list, c1, Raise AttributeError)).
Proof.
  intros Hrun Htag Hseg r last_tag_version.
  assert (Hr := run_through_guard E _ _ _ _ _ _ _ _ _ Hrun). fold r in Hr.
  split; [ | split ].
  - intros Hne Hv.
    rewrite (version_guard_malformed_new E args version c1 _ _ _ Htag Hseg Hne Hv) in Hr.
    exact Hr.
  - intros Hv Hw.
    rewrite (version_guard_malformed_last E args version c1 _ _ _ Htag Hseg Hv Hw) in Hr.
    exact Hr.
  - intros -> Hw. destruct (Py.parse last_tag_version) as [w | ] eqn:Hpw; [ | contradiction ].
    rewrite (version_guard_empty_new E args c1 _ _ _ _ Htag Hseg Hpw) in Hr.
    exact Hr.
Qed.

(** The amended C5 on the sample repository with the last tag
    [upstream/1.0.0]: when the upstream version is given as 1.0.x the run
    ends with the [ValueError]; when it is given as the empty string the
    run ends with the [AttributeError]. *)
Lemma malformed_version_with_tag_is_rejected_witness :
  let cwd := "/home/user/release" in
  result (import_upstream (sample_env "git" None [] "upstream/1.0.0" true 0)
            cwd "/tmp/scratch" (args_not_catkin "1.0.x") cwd)
  = Raise (ValueError "invalid version number '1.0.x'")
  /\ result (import_upstream (sample_env "git" None [] "upstream/1.0.0" true 0)
               cwd "/tmp/scratch" (args_not_catkin "") cwd)
     = Raise AttributeError.
Proof.
  intros cwd. split.
  - pose proof (malformed_version_with_tag_is_rejected
                  (sample_env "git" None [] "upstream/1.0.0" true 0)
                  cwd "/tmp/scratch" (args_not_catkin "1.0.x") cwd _ _ _ _ _ "1" "0" "0"
                  eq_refl ltac:(discriminate) eq_refl) as H.
    cbv zeta in H. destruct H as [H _].
    rewrite (H ltac:(discriminate) eq_refl). reflexivity.
  - pose proof (malformed_version_with_tag_is_rejected
                  (sample_env "git" None [] "upstream/1.0.0" true 0)
                  cwd "/tmp/scratch" (args_not_catkin "") cwd _ _ _ _ _ "1" "0" "0"
                  eq_refl ltac:(discriminate) eq_refl) as H.
    cbv zeta in H. destruct H as (_ & _ & H).
    rewrite (H eq_refl ltac:(discriminate)). reflexivity.
Defined.

(** C5 as the specification states it fails on the sample repository
    without tags when the upstream version is given as 1.0.x: the guard
    runs, the version is not a strict version, and the run succeeds. *)
Lemma malformed_version_passes_without_tag :
  ~ malformed_version_is_rejected (sample_env "git" None [] "" true 0)
      "/home/user/release" "/tmp/scratch" (args_not_catkin "1.0.x") "/home/user/release".
Proof.
  intros H.
  destruct (H _ _ _ _ _ eq_refl eq_refl) as (msg & Hr).
  vm_compute in Hr. discriminate Hr.
Qed.

(** ** The usage error of [--not-catkin] *)

(** A program that never ends with [return]. *)
Lemma bind_never_returns {A B} (m : M A) (k : A -> M B) :
  (forall c rc, result (m c) <> Return rc) ->
  (forall a c rc, result (k a c) <> Return rc) ->
  forall c rc, result (bind m k c) <> Return rc.
Proof.
  intros Hm Hk c rc. specialize (Hm c). unfold bind.
  destruct (m c) as [[t1 c1] [a | rc' | e]]; cbn in *.
  - specialize (Hk a c1 rc). destruct (k a c1) as [[t2 c2] r]. exact Hk.
  - exfalso. exact (Hm rc' eq_refl).
  - discriminate.
Qed.

Lemma try_except_never_returns {A} (m h : M A) :
  (forall c rc, result (m c) <> Return rc) ->
  (forall c rc, result (h c) <> Return rc) ->
  forall c rc, result (try_except_CalledProcessError m h c) <> Return rc.
Proof.
  intros Hm Hh c rc. specialize (Hm c rc). unfold try_except_CalledProcessError.
  destruct (m c) as [[t1 c1] [a | rc' | []]]; cbn in *; try assumption; try discriminate.
  specialize (Hh c1 rc). destruct (h c1) as [[t2 c2] r]. exact Hh.
Qed.

Ltac never_returns_step :=
  first
    [ apply bind_never_returns; [ | intros ? ]
    | apply try_except_never_returns
    | match goal with
      | |- forall c rc, result ((if ?b then _ else _) c) <> Return rc => destruct b
      | |- forall c rc, result ((match ?x with _ => _ end) c) <> Return rc => destruct x
      | |- forall c rc, result ((let '(_, _) := ?x in _) c) <> Return rc => destruct x
      end
    | (intros ? ?; discriminate) ].

Lemma check_for_bloom_never_returns E cwd :
  forall c rc, result (check_for_bloom E cwd c) <> Return rc.
Proof.
  unfold check_for_bloom, convert_catkin_to_bloom, not_a_bloom_release_repo,
    check_output, checkout, execute_command, os_path_exists, os_path_join, read_file, write_file, info, error.
  repeat never_returns_step.
Qed.

Lemma parse_bloom_conf_never_returns E cwd :
  forall c rc, result (parse_bloom_conf E cwd c) <> Return rc.
Proof. unfold parse_bloom_conf, check_output. repeat never_returns_step. Qed.

Lemma clone_and_configure_never_returns E cwd tmp_dir args :
  forall c rc, result (clone_and_configure E cwd tmp_dir args c) <> Return rc.
Proof.
  unfold clone_and_configure.
  repeat first
    [ apply check_for_bloom_never_returns | apply parse_bloom_conf_never_returns
    | progress unfold track_branches, vcs_checkout, summarize_repo_info, warning, info
    | never_returns_step ].
Qed.

(** The upstream checkout: the events and the three ways it ends. *)
Lemma checkout_upstream_run E tmp_dir repo type ver c :
  let upstream_dir := Py.path_join tmp_dir "upstream" in
  exists msg url cver failure,
    checkout_upstream E tmp_dir repo type ver c
    = if vcs_checkout_ok E type upstream_dir url cver
      then ([Log LDebug msg; VcsCheckout type upstream_dir url cver], c, Next upstream_dir)
      else ([Log LDebug msg; VcsCheckout type upstream_dir url cver; Log LError failure],
            c, Return (Some 1%Z)).
Proof.
  unfold checkout_upstream, vcs_checkout, debug, error.
  destruct (checkout_target repo type (effective_branch ver)) as [url cver].
  destruct (type =? "svn"); simp_run.
  - exists ("Checking out from url " ++ url), url, cver,
      ("Could not checkout upstream repostiory (" ++ url ++ ")").
    destruct (vcs_checkout_ok E type _ url cver); reflexivity.
  - exists ("Checking out branch (" ++ cver ++ ") from url " ++ url), url, cver,
      ("Could not checkout upstream repostiory (" ++ url ++ ")"
       ++ " to branch (" ++ effective_branch ver ++ ")").
    destruct (vcs_checkout_ok E type _ url cver); reflexivity.
Qed.

(** C4, as the code has it.  A run with [--not-catkin] that lacks the name
    or the tag never succeeds and never searches the upstream tree, exports,
    imports or pushes.  The usage error is not raised before the upstream
    repository is reached: when the setup and the upstream checkout
    succeed, the run emits the usage error right after the checkout and
    [import_upstream] returns 1. *)
Theorem usage_error_after_checkout E cwd tmp_dir args c0 :
  not_catkin args = true ->
  name args = None \/ tag args = None ->
  let r := import_upstream E cwd tmp_dir args c0 in
  (result r = Next (Some 1%Z) \/ exists e, result r = Raise e)
  /\ (forall e, In e (events r) -> up_to 0 e = true)
  /\ (forall t1 c1 clone repo type ver t2 c2 upstream_dir,
        clone_and_configure E cwd tmp_dir args c0 = (t1, c1, Next (clone, repo, type, ver)) ->
        checkout_upstream E tmp_dir repo type ver c1 = (t2, c2, Next upstream_dir) ->
        r = ((t1 ++ t2 ++ [Log LError usage_error_message])%list, c2, Next (Some 1%Z))
        /\ exists msg url cver,
             t2 = [Log LDebug msg; VcsCheckout type upstream_dir url cver]
             /\ upstream_dir = Py.path_join tmp_dir "upstream"
             /\ vcs_checkout_ok E type upstream_dir url cver = true).
Proof.
  intros Hnc Hmiss r.
  assert (Hmeta : forall upstream_dir c,
             resolve_meta E args upstream_dir c
             = ([Log LError usage_error_message], c, Return (Some 1%Z))).
  { intros upstream_dir c. unfold resolve_meta, error. rewrite Hnc.
    destruct Hmiss as [Hn | Ht].
    - rewrite Hn. reflexivity.
    - rewrite Ht. destruct (name args); reflexivity. }
  pose proof (clone_and_configure_setup E cwd tmp_dir args c0) as Hev1.
  pose proof (clone_and_configure_never_returns E cwd tmp_dir args c0) as Hnr.
  subst r. unfold import_upstream, call, import_upstream_body, before_guard, bind.
  destruct (clone_and_configure E cwd tmp_dir args c0)
    as [[t1 c1] [[[[clone repo] type] ver] | rc | e]] eqn:Hcc; cbn in Hev1, Hnr.
  2: { exfalso. exact (Hnr rc eq_refl). }
  2: { cbn. split; [ right; eexists; reflexivity | split ].
       - intros e0 Hin. rewrite forallb_forall in Hev1. auto.
       - intros; discriminate. }
  destruct (checkout_upstream_run E tmp_dir repo type ver c1) as (msg & url & cver & fl & Hco).
  rewrite Hco.
  destruct (vcs_checkout_ok E type (Py.path_join tmp_dir "upstream") url cver) eqn:Hok.
  - rewrite Hmeta. cbn.
    split; [ left; reflexivity | split ].
    + intros e0 Hin. apply in_app_or in Hin. destruct Hin as [Hin | Hin].
      * rewrite forallb_forall in Hev1. auto.
      * cbn in Hin. intuition (subst; reflexivity).
    + intros t1' c1' clone' repo' type' ver' t2 c2 upstream_dir H1 H2.
      inversion H1; subst. rewrite Hco in H2. inversion H2; subst.
      split; [ reflexivity | ].
      exists msg, url, cver. repeat split. exact Hok.
  - cbn. split; [ left; reflexivity | split ].
    + intros e0 Hin. apply in_app_or in Hin. destruct Hin as [Hin | Hin].
      * rewrite forallb_forall in Hev1. auto.
      * cbn in Hin. intuition (subst; reflexivity).
    + intros t1' c1' clone' repo' type' ver' t2 c2 upstream_dir H1 H2.
      inversion H1; subst. rewrite Hco in H2. discriminate H2.
Qed.

(** The amended C4 on the sample repository with
    [--not-catkin --upstream-tag 1.0.0]: the run returns 1. *)
Lemma usage_error_after_checkout_witness :
  let cwd := "/home/user/release" in
  result (import_upstream (sample_env "git" None [] "" true 0)
            cwd "/tmp/scratch" args_not_catkin_no_name cwd) = Next (Some 1%Z).
Proof.
  intros cwd.
  pose proof (usage_error_after_checkout (sample_env "git" None [] "" true 0)
                cwd "/tmp/scratch" args_not_catkin_no_name cwd
                eq_refl (or_introl eq_refl)) as H.
  cbv zeta in H. destruct H as (_ & _ & H).
  destruct (H _ _ _ _ _ _ _ _ _ eq_refl eq_refl) as [Hr _].
  rewrite Hr. reflexivity.
Defined.

(** C4 as the specification states it fails on the sample repository with
    [--not-catkin --upstream-tag 1.0.0]: the upstream repository is checked
    out before the run ends with the usage error. *)
Lemma usage_error_comes_after_checkout :
  ~ usage_error_before_checkout (sample_env "git" None [] "" true 0)
      "/home/user/release" "/tmp/scratch" args_not_catkin_no_name "/home/user/release".
Proof.
  intros H. destruct (H eq_refl (or_introl eq_refl)) as [_ Hno].
  apply (Hno "git" "https://example.org/project" ""). find_event.
Qed.

(** ** The paths of a subversion upstream *)

Lemma bind_next_inv {A B} (m : M A) (k : A -> M B) c t c' b :
  bind m k c = (t, c', Next b) ->
  exists t1 c1 a t2,
    m c = (t1, c1, Next a) /\ k a c1 = (t2, c', Next b) /\ t = (t1 ++ t2)%list.
Proof.
  unfold bind. destruct (m c) as [[t1 c1] [a | rc | e]]; try discriminate.
  destruct (k a c1) as [[t2 c2] r] eqn:Hk. intros H. inversion H; subst.
  exists t1, c1, a, t2. repeat split. exact Hk.
Qed.

(** The branch that [parse_bloom_conf] gives is the configured one. *)
Lemma parse_bloom_conf_branch E c t c' repo type branch :
  parse_bloom_conf E None c = (t, c', Next (repo, type, branch)) ->
  branch = configured_branch E.
Proof.
  unfold parse_bloom_conf. intros H.
  apply bind_next_inv in H. destruct H as (t1 & c1 & out1 & t2 & _ & H & _).
  apply bind_next_inv in H. destruct H as (t3 & c3 & out2 & t4 & _ & H & _).
  apply bind_next_inv in H. destruct H as (t5 & c5 & br & t6 & Hbr & H & _).
  inversion H; subst. clear H.
  unfold try_except_CalledProcessError, check_output, configured_branch in *.
  cbn in Hbr.
  destruct (check_output_result E "git config -f bloom.conf bloom.upstreambranch" None);
    cbn in Hbr; inversion Hbr; reflexivity.
Qed.

(** The branch that the setup hands to the upstream checkout is the branch
    in effect. *)
Lemma clone_and_configure_branch E cwd tmp_dir args c t c' clone repo type ver :
  clone_and_configure E cwd tmp_dir args c = (t, c', Next (clone, repo, type, ver)) ->
  ver = branch_in_effect E args.
Proof.
  unfold clone_and_configure. intros H.
  do 7 (apply bind_next_inv in H; destruct H as (? & ? & ? & ? & _ & H & _)).
  apply bind_next_inv in H. destruct H as (t1 & c1 & conf & t2 & Hconf & H & _).
  destruct conf as [[repo' type'] branch].
  apply parse_bloom_conf_branch in Hconf. subst branch.
  apply bind_next_inv in H. destruct H as (t3 & c3 & ver' & t4 & Hver & H & _).
  apply bind_next_inv in H. destruct H as (t5 & c5 & [] & t6 & _ & H & _).
  inversion H; subst. clear H.
  unfold branch_in_effect.
  destruct (upstream_devel args) as [dev | ]; cbn in Hver; inversion Hver; reflexivity.
Qed.

(** C6, as the code has it.  In every run whose configuration has the
    upstream type svn, the upstream checkout is from [<repo>/trunk] when
    the branch in effect -- the branch of [--upstream-devel] if it is
    given, else the configured one -- is empty or the text
    [(No branch set)], and from [<repo>/branches/<branch>] otherwise, with
    no version; and the export of the tag first checks out
    [<repo>/tags/<version>], checks out [<repo>/tags/<name>-<version>] only
    when that failed, returns 1 without an export when both failed, and
    exports from the checkout that succeeded otherwise. *)
Theorem svn_checkout_and_tag_paths E cwd tmp_dir args c0 t1 c1 clone repo ver :
  clone_and_configure E cwd tmp_dir args c0 = (t1, c1, Next (clone, repo, "svn", ver)) ->
  let branch := effective_branch (branch_in_effect E args) in
  let url := if branch =? "" then repo ++ "/trunk" else repo ++ "/branches/" ++ branch in
  let upstream_dir := Py.path_join tmp_dir "upstream" in
  let svn_tag := Py.path_join tmp_dir "svn_tag" in
  let checkout := [Log LDebug ("Checking out from url " ++ url);
                   VcsCheckout "svn" upstream_dir url ""] in
  checkout_upstream E tmp_dir repo "svn" ver c1
  = (if vcs_checkout_ok E "svn" upstream_dir url ""
     then (checkout, c1, Next upstream_dir)
     else ((checkout
              ++ [Log LError ("Could not checkout upstream repostiory (" ++ url ++ ")")])%list,
           c1, Return (Some 1%Z)))
  /\ forall name version c,
       let first_url := repo ++ "/tags/" ++ version in
       let second_url := repo ++ "/tags/" ++ name ++ "-" ++ version in
       let tarball_path := Py.path_join tmp_dir ("upstream-" ++ version) in
       let first := [Log LInfo ("Exporting version " ++ version);
                     VcsCheckout "svn" svn_tag first_url ""] in
       let second := [Log LWarning ("Didn't find the tagged version at " ++ first_url);
                      Log LWarning ("Trying " ++ second_url);
                      VcsCheckout "svn" svn_tag second_url ""] in
       let export := VcsExport "svn" svn_tag "" tarball_path in
       let exported (before : list event) :=
         if vcs_export_ok E "svn" svn_tag "" tarball_path
         then ((before ++ [export])%list, c, Next tarball_path)
         else ((before ++ [export; Log LError "Failed to export upstream repository."])%list,
               c, Return (Some 1%Z)) in
       export_tarball E tmp_dir repo "svn" upstream_dir name version c
       = if vcs_checkout_ok E "svn" svn_tag first_url "" then exported first
         else if vcs_checkout_ok E "svn" svn_tag second_url ""
              then exported (first ++ second)%list
              else ((first ++ second ++ [Log LError "Could not checkout upstream version"])%list,
                    c, Return (Some 1%Z)).
Proof.
  intros Hcc. apply clone_and_configure_branch in Hcc. subst ver. cbv zeta. split.
  - unfold checkout_upstream, checkout_target, vcs_checkout, debug, error.
    change ("svn" =? "svn") with true. cbv iota.
    destruct (effective_branch (branch_in_effect E args) =? ""); simp_run;
      destruct (vcs_checkout_ok E "svn" _ _ ""); reflexivity.
  - intros name version c.
    unfold export_tarball, vcs_checkout, vcs_export, info, warning, error.
    change ("svn" =? "svn") with true. cbv iota. simp_run.
    destruct (vcs_checkout_ok E "svn" _ (repo ++ "/tags/" ++ version) ""); simp_run.
    + destruct (vcs_export_ok E "svn" _ "" _); reflexivity.
    + destruct (vcs_checkout_ok E "svn" _ (repo ++ "/tags/" ++ name ++ "-" ++ version) "");
        simp_run; [ | reflexivity ].
      destruct (vcs_export_ok E "svn" _ "" _); reflexivity.
Qed.

(** The amended C6 on the sample repository with a subversion upstream, the
    configured branch [stable] and [--upstream-devel dev]: the checkout is
    from the branch [dev]. *)
Lemma svn_checkout_and_tag_paths_witness :
  let E := sample_env "svn" (Some "stable") one_package "" true 0 in
  events (checkout_upstream E "/tmp/scratch" "https://example.org/project" "svn" "dev"
            "/tmp/scratch/bloom_clone")
  = [Log LDebug "Checking out from url https://example.org/project/branches/dev";
     VcsCheckout "svn" "/tmp/scratch/upstream" "https://example.org/project/branches/dev" ""].
Proof.
  intros E.
  pose proof (svn_checkout_and_tag_paths E "/home/user/release" "/tmp/scratch" args_devel
                "/home/user/release" _ _ _ _ _ eq_refl) as H.
  cbv zeta in H. destruct H as [H _].
  etransitivity; [ exact (f_equal events H) | reflexivity ].
Defined.

(** C6 as the specification states it fails on the sample repository with a
    subversion upstream, no configured branch and [--upstream-devel dev]:
    the checkout is from [branches/dev], not from [trunk]. *)
Lemma svn_checkout_follows_override :
  ~ svn_checkout_follows_configuration (sample_env "svn" None one_package "" true 0)
      "/home/user/release" "/tmp/scratch" args_devel "/home/user/release".
Proof.
  intros H. specialize (H _ _ _ _ _ _ _ _ eq_refl eq_refl).
  vm_compute in H.
  repeat (destruct H as [H | H]; [ discriminate H | ]). exact H.
Qed.

(** ** Packages with different versions *)

Lemma verify_from_conflict first_filename v packages :
  (exists p, In p packages /\ pkg_version p <> v) ->
  exists p,
    In p packages /\ pkg_version p <> v
    /\ verify_from first_filename (Some v) packages
       = inl (RuntimeError (versions_differ_message (pkg_version p) v
                              (pkg_filename p) first_filename)).
Proof.
  induction packages as [ | p0 rest IH]; intros (p & Hin & Hne).
  - destruct Hin.
  - cbn [verify_from]. destruct (pkg_version p0 =? v) eqn:Heq.
    + apply String.eqb_eq in Heq. destruct Hin as [-> | Hin]; [ contradiction | ].
      destruct IH as (p' & Hin' & Hne' & Hv); [ exists p; split; assumption | ].
      exists p'. repeat split; [ right; exact Hin' | exact Hne' | exact Hv ].
    + apply String.eqb_neq in Heq. exists p0.
      repeat split; [ left; reflexivity | exact Heq ].
Qed.

(** Two packages with different versions make
    [verify_equal_package_versions] raise the [RuntimeError] that names the
    version of the first package and a version that differs from it. *)
Lemma verify_equal_package_versions_conflict packages p q :
  In p packages -> In q packages -> pkg_version p <> pkg_version q ->
  exists found first,
    In found packages /\ In first packages
    /\ pkg_version found <> pkg_version first
    /\ verify_equal_package_versions packages
       = inl (RuntimeError (versions_differ_message (pkg_version found) (pkg_version first)
                              (pkg_filename found) (pkg_filename first))).
Proof.
  intros Hp Hq Hne. destruct packages as [ | p0 rest]; [ destruct Hp | ].
  unfold verify_equal_package_versions. cbn [verify_from].
  assert (Hex : exists x, In x rest /\ pkg_version x <> pkg_version p0).
  { destruct (String.eqb_spec (pkg_version p) (pkg_version p0)) as [Hp0 | Hp0].
    - destruct Hq as [-> | Hq]; [ congruence | ].
      exists q. split; [ exact Hq | congruence ].
    - destruct Hp as [-> | Hp]; [ congruence | ].
      exists p. split; assumption. }
  destruct (verify_from_conflict (pkg_filename p0) (pkg_version p0) rest Hex)
    as (found & Hin & Hd & Hv).
  exists found, p0. repeat split; [ right; exact Hin | left; reflexivity | exact Hd | exact Hv ].
Qed.

(** The manifests are searched in the directory the resolver is given. *)
Lemma resolve_meta_searches_upstream_dir E args upstream_dir :
  emits_only (fun e => match e with
                       | FindPackages d => d =? upstream_dir
                       | _ => true
                       end)
             (resolve_meta E args upstream_dir).
Proof.
  unfold resolve_meta, get_upstream_meta, find_packages, os_path_exists, parse_stack_file,
    first_name, info, error.
  repeat first [ apply emits_only_emit; apply String.eqb_refl | emits_step ].
Qed.

(** A search for manifests means that the run is not one with
    [--not-catkin] and that [catkin_pkg] is there. *)
Lemma resolve_meta_search E args upstream_dir c d :
  In (FindPackages d) (events (resolve_meta E args upstream_dir c)) ->
  d = upstream_dir /\ not_catkin args = false /\ has_catkin_pkg E = true.
Proof.
  intros Hin. split.
  - apply String.eqb_eq.
    exact (emits_only_In _ _ _ _ (resolve_meta_searches_upstream_dir E args upstream_dir) Hin).
  - revert Hin. unfold resolve_meta, get_upstream_meta, error, info.
    destruct (not_catkin args).
    + destruct (name args), (tag args); simp_run; intros Hin;
        repeat (destruct Hin as [Hin | Hin]; [ discriminate Hin | ]); destruct Hin.
    + destruct (has_catkin_pkg E); [ split; reflexivity | ].
      simp_run. intros Hin.
      repeat (destruct Hin as [Hin | Hin]; [ discriminate Hin | ]); destruct Hin.
Qed.

(** The resolver on packages whose versions differ. *)
Lemma resolve_meta_conflict E args upstream_dir c err :
  not_catkin args = false ->
  has_catkin_pkg E = true ->
  verify_equal_package_versions (map snd (find_packages_result E upstream_dir))
  = inl (RuntimeError err) ->
  resolve_meta E args upstream_dir c
  = ([Log LInfo "Checking for package.xml(s)"; FindPackages upstream_dir;
      Log LInfo "package.xml(s) found"; PrintExc;
      Log LError (versions_not_supported_message err)],
     c, Raise (SystemExit 1)).
Proof.
  intros Hnc Hcp Hv.
  unfold resolve_meta, get_upstream_meta, find_packages, info, error.
  rewrite Hnc, Hcp.
  unfold find_packages_result in Hv.
  destruct (find_packages_outcome E upstream_dir) as [e | [ | p0 rest]] eqn:Hp;
    try discriminate Hv.
  unfold bind, emit, ret, sys_exit, raise. simp_run. rewrite Hv. reflexivity.
Qed.

Lemma export_tarball_no_discovery E tmp_dir repo type dir name version :
  emits_only (fun e => negb (is_discovery e))
             (export_tarball E tmp_dir repo type dir name version).
Proof.
  unfold export_tarball, vcs_checkout, vcs_export, info, warning, error.
  repeat first
    [ emits_step
    | match goal with |- emits_only _ (let '(_, _) := ?x in _) => destruct x end ].
Qed.

Lemma version_guard_no_discovery E args version :
  emits_only (fun e => negb (is_discovery e)) (version_guard E args version).
Proof.
  unfold version_guard, get_last_tag_by_date, unpack3, StrictVersion, strict_lt, strict_le,
    has_replace,
    execute_command, info, warning, error.
  repeat first
    [ emits_step
    | match goal with |- emits_only _ (let '(_, _) := ?x in _) => destruct x end ].
Qed.

Lemma import_and_push_no_discovery E clone args tarball :
  emits_only (fun e => negb (is_discovery e)) (import_and_push E clone args tarball).
Proof.
  unfold import_and_push, create_initial_upstream_branch, create_branch, check_output,
    vcs_update, import_orig, execute_command, info.
  emits.
Qed.

(** The run up to the resolution of the metadata, and the rest of it. *)
Lemma import_upstream_through_resolver E cwd tmp_dir args c0 :
  let r := import_upstream E cwd tmp_dir args c0 in
  (forallb (up_to 0) (events r) = true)
  \/ exists t1 c1 clone repo type ver t2 c2 upstream_dir,
       clone_and_configure E cwd tmp_dir args c0 = (t1, c1, Next (clone, repo, type, ver))
       /\ checkout_upstream E tmp_dir repo type ver c1 = (t2, c2, Next upstream_dir)
       /\ upstream_dir = Py.path_join tmp_dir "upstream"
       /\ forallb (up_to 0) (t1 ++ t2) = true
       /\ match resolve_meta E args upstream_dir c2 with
          | (t3, c3, Next _) =>
              exists t4, events r = (t1 ++ t2 ++ t3 ++ t4)%list
                         /\ forallb (fun e => negb (is_discovery e)) t4 = true
          | (t3, c3, Return rc) => r = ((t1 ++ t2 ++ t3)%list, c3, Next rc)
          | (t3, c3, Raise e) => r = ((t1 ++ t2 ++ t3)%list, c3, Raise e)
          end.
Proof.
  intros r. subst r.
  pose proof (clone_and_configure_setup E cwd tmp_dir args c0) as Hev1.
  unfold import_upstream, call, import_upstream_body, before_guard, bind.
  destruct (clone_and_configure E cwd tmp_dir args c0)
    as [[t1 c1] [[[[clone repo] type] ver] | rc | e]] eqn:Hcc; cbn in Hev1;
    [ | left; exact Hev1 | left; exact Hev1 ].
  pose proof (checkout_upstream_setup E tmp_dir repo type ver c1) as Hev2.
  destruct (checkout_upstream E tmp_dir repo type ver c1) as [[t2 c2] [dir | rc | e]] eqn:Hco;
    cbn in Hev2.
  2, 3: left; cbn; rewrite forallb_app, Hev1, Hev2; reflexivity.
  assert (Hdir : dir = Py.path_join tmp_dir "upstream").
  { destruct (checkout_upstream_run E tmp_dir repo type ver c1) as (? & url & cver & ? & H).
    rewrite Hco in H.
    destruct (vcs_checkout_ok E type _ url cver); inversion H; reflexivity. }
  right. exists t1, c1, clone, repo, type, ver, t2, c2, dir.
  split; [ reflexivity | ]. split; [ exact Hco | ]. split; [ exact Hdir | ].
  split; [ rewrite forallb_app, Hev1, Hev2; reflexivity | ].
  destruct (resolve_meta E args dir c2) as [[t3 c3] [[name version] | rc | e]];
    [ | reflexivity | reflexivity ].
  pose proof (export_tarball_no_discovery E tmp_dir repo type dir name version c3) as Hev4.
  destruct (export_tarball E tmp_dir repo type dir name version c3)
    as [[t4 c4] [tarball | rc | e]]; cbn in Hev4.
  2, 3: exists t4; split; [ reflexivity | exact Hev4 ].
  cbv beta iota zeta delta [ret].
  pose proof (version_guard_no_discovery E args version c4) as Hev5.
  destruct (version_guard E args version c4) as [[t5 c5] [gbp | rc | e]]; cbn in Hev5.
  2, 3: exists (t4 ++ t5)%list; split;
    [ cbn; rewrite <- ?app_assoc, ?app_nil_r; reflexivity
    | rewrite forallb_app, Hev4, Hev5; reflexivity ].
  pose proof (import_and_push_no_discovery E clone args tarball c5) as Hev6.
  destruct (import_and_push E clone args tarball c5) as [[t6 c6] r6]; cbn in Hev6.
  exists (t4 ++ t5 ++ t6)%list. split.
  - destruct r6; cbn; rewrite <- ?app_assoc, ?app_nil_r; reflexivity.
  - rewrite !forallb_app, Hev4, Hev5, Hev6. reflexivity.
Qed.

Lemma up_to_1_is_no_export e : up_to 1 e = true -> is_export e = false.
Proof.
  unfold up_to, stage. destruct (is_discovery e) eqn:Hd.
  - destruct e; try discriminate Hd; reflexivity.
  - destruct (is_export e); [ discriminate | reflexivity ].
Qed.

(** C7.  In every run that searches an upstream tree for package manifests
    and finds two packages that declare different versions, the resolution
    of the metadata ends the run with [sys.exit(1)]; the last event of the
    run is the error that names the two versions that differ; and the run
    exports no tarball. *)
Theorem differing_versions_fail_before_export E cwd tmp_dir args c0 d p q :
  let r := import_upstream E cwd tmp_dir args c0 in
  let packages := map snd (find_packages_result E d) in
  In (FindPackages d) (events r) ->
  In p packages -> In q packages ->
  pkg_version p <> pkg_version q ->
  result r = Raise (SystemExit 1)
  /\ (forall e, In e (events r) -> is_export e = false)
  /\ exists found first t,
       In found packages /\ In first packages
       /\ pkg_version found <> pkg_version first
       /\ events r
          = (t ++ [PrintExc;
                   Log LError
                     (versions_not_supported_message
                        (versions_differ_message (pkg_version found) (pkg_version first)
                           (pkg_filename found) (pkg_filename first)))])%list.
Proof.
  intros r packages Hfind Hp Hq Hne.
  destruct (import_upstream_through_resolver E cwd tmp_dir args c0) as [Hev | Hrun];
    fold r in Hev || fold r in Hrun.
  { rewrite forallb_forall in Hev. apply Hev in Hfind. discriminate Hfind. }
  destruct Hrun as (t1 & c1 & clone & repo & type & ver & t2 & c2 & dir
                    & Hcc & Hco & Hdir & Hev & Hrm).
  rewrite forallb_forall in Hev.
  assert (Hin : In (FindPackages d) (events (resolve_meta E args dir c2))).
  { destruct (resolve_meta E args dir c2) as [[t3 c3] [nv | rc | e]].
    - destruct Hrm as (t4 & Hr & Hev4). rewrite Hr in Hfind.
      rewrite app_assoc in Hfind. apply in_app_or in Hfind. destruct Hfind as [Hfind | Hfind].
      { apply Hev in Hfind. discriminate Hfind. }
      apply in_app_or in Hfind. destruct Hfind as [Hfind | Hfind]; [ exact Hfind | ].
      rewrite forallb_forall in Hev4. apply Hev4 in Hfind. discriminate Hfind.
    - rewrite Hrm in Hfind. cbn in Hfind.
      rewrite app_assoc in Hfind. apply in_app_or in Hfind. destruct Hfind as [Hfind | Hfind].
      { apply Hev in Hfind. discriminate Hfind. }
      exact Hfind.
    - rewrite Hrm in Hfind. cbn in Hfind.
      rewrite app_assoc in Hfind. apply in_app_or in Hfind. destruct Hfind as [Hfind | Hfind].
      { apply Hev in Hfind. discriminate Hfind. }
      exact Hfind. }
  apply resolve_meta_search in Hin. destruct Hin as (-> & Hnc & Hcp).
  destruct (verify_equal_package_versions_conflict packages p q Hp Hq Hne)
    as (found & first & Hf & Hfi & Hd & Hv).
  rewrite (resolve_meta_conflict E args dir c2 _ Hnc Hcp Hv) in Hrm.
  rewrite Hrm. split; [ reflexivity | split ].
  - unfold events. cbn [fst]. intros e Hin.
    rewrite app_assoc in Hin. apply in_app_or in Hin. destruct Hin as [Hin | Hin].
    + apply Hev in Hin. apply up_to_1_is_no_export. apply (up_to_mono 0); [ lia | exact Hin ].
    + cbn in Hin. intuition (subst; reflexivity).
  - exists found, first,
      (t1 ++ t2 ++ [Log LInfo "Checking for package.xml(s)"; FindPackages dir;
                    Log LInfo "package.xml(s) found"])%list.
    repeat split; try assumption.
    unfold events. cbn [fst]. rewrite <- !app_assoc. reflexivity.
Qed.

(** C7 on the sample repository when the upstream tree holds the package
    [a] with version 1.0.0 and the package [b] with version 1.0.1: the run
    ends with [sys.exit(1)]. *)
Lemma differing_versions_fail_before_export_witness :
  let cwd := "/home/user/release" in
  let r := import_upstream (sample_env "git" None two_packages "" true 0)
             cwd "/tmp/scratch" args_plain cwd in
  result r = Raise (SystemExit 1)
  /\ forallb (fun e => negb (is_export e)) (events r) = true.
Proof.
  intros cwd r.
  pose proof (differing_versions_fail_before_export
                (sample_env "git" None two_packages "" true 0)
                cwd "/tmp/scratch" args_plain cwd "/tmp/scratch/upstream"
                (mkPackage "a" "1.0.0" "a/package.xml")
                (mkPackage "b" "1.0.1" "b/package.xml")) as H.
  cbv zeta in H.
  destruct H as (Hr & Hex & _).
  - find_event.
  - left. reflexivity.
  - right. left. reflexivity.
  - discriminate.
  - split; [ exact Hr | ].
    apply forallb_forall. intros e He. apply negb_true_iff. exact (Hex e He).
Defined.

(** ** The import and the pushes *)

(** Programs that leave the working directory of the process as it is. *)
Lemma bind_keeps_cwd {A B} (m : M A) (k : A -> M B) :
  (forall c, cwd_after (m c) = c) ->
  (forall a c, cwd_after (k a c) = c) ->
  forall c, cwd_after (bind m k c) = c.
Proof.
  intros Hm Hk c. specialize (Hm c). unfold bind.
  destruct (m c) as [[t1 c1] [a | rc | e]]; cbn in *; try assumption.
  specialize (Hk a c1). destruct (k a c1) as [[t2 c2] r]. cbn in *. congruence.
Qed.

Lemma try_except_keeps_cwd {A} (m h : M A) :
  (forall c, cwd_after (m c) = c) ->
  (forall c, cwd_after (h c) = c) ->
  forall c, cwd_after (try_except_CalledProcessError m h c) = c.
Proof.
  intros Hm Hh c. specialize (Hm c). unfold try_except_CalledProcessError.
  destruct (m c) as [[t1 c1] [a | rc | []]]; cbn in *; try assumption.
  specialize (Hh c1). destruct (h c1) as [[t2 c2] r]. cbn in *. congruence.
Qed.

Ltac keeps_cwd_step :=
  first
    [ apply bind_keeps_cwd; [ | intros ? ]
    | apply try_except_keeps_cwd
    | match goal with
      | |- forall c, cwd_after ((if ?b then _ else _) c) = c => destruct b
      | |- forall c, cwd_after ((match ?x with _ => _ end) c) = c => destruct x
      | |- forall c, cwd_after ((let '(_, _) := ?x in _) c) = c => destruct x
      end
    | (intros ?; reflexivity) ].

Lemma check_for_bloom_keeps_cwd E cwd : forall c, cwd_after (check_for_bloom E cwd c) = c.
Proof.
  unfold check_for_bloom, convert_catkin_to_bloom, not_a_bloom_release_repo,
    check_output, checkout, execute_command, os_path_exists, os_path_join, read_file, write_file, info, error.
  repeat keeps_cwd_step.
Qed.

Lemma parse_bloom_conf_keeps_cwd E cwd : forall c, cwd_after (parse_bloom_conf E cwd c) = c.
Proof. unfold parse_bloom_conf, check_output. repeat keeps_cwd_step. Qed.

Lemma checkout_upstream_keeps_cwd E tmp_dir repo type ver :
  forall c, cwd_after (checkout_upstream E tmp_dir repo type ver c) = c.
Proof.
  unfold checkout_upstream. destruct (checkout_target _ _ _) as [url cver].
  unfold vcs_checkout, debug, error. repeat keeps_cwd_step.
Qed.

Lemma resolve_meta_keeps_cwd E args upstream_dir :
  forall c, cwd_after (resolve_meta E args upstream_dir c) = c.
Proof.
  unfold resolve_meta, get_upstream_meta, find_packages, os_path_exists, parse_stack_file,
    first_name, info, error.
  repeat keeps_cwd_step.
Qed.

Lemma export_tarball_keeps_cwd E tmp_dir repo type dir name version :
  forall c, cwd_after (export_tarball E tmp_dir repo type dir name version c) = c.
Proof.
  unfold export_tarball, vcs_checkout, vcs_export, info, warning, error.
  repeat keeps_cwd_step.
Qed.

Lemma version_guard_keeps_cwd E args version :
  forall c, cwd_after (version_guard E args version c) = c.
Proof.
  unfold version_guard, get_last_tag_by_date, unpack3, StrictVersion, strict_lt, strict_le,
    has_replace,
    execute_command, info, warning, error.
  repeat keeps_cwd_step.
Qed.

(** A run that gets past the setup works in the clone of the release
    repository, which the setup made from the directory of the
    repository. *)
Lemma clone_and_configure_clone E cwd tmp_dir args c t c' clone repo type ver :
  clone_and_configure E cwd tmp_dir args c = (t, c', Next (clone, repo, type, ver)) ->
  clone = Py.path_join tmp_dir "bloom_clone" /\ c' = clone
  /\ In (VcsCheckout "git" clone ("file://" ++ cwd) "") t.
Proof.
  unfold clone_and_configure. intros H.
  apply bind_next_inv in H. destruct H as (t1 & c1 & [] & t2 & _ & H & ->).
  apply bind_next_inv in H. destruct H as (t3 & c3 & [] & t4 & _ & H & ->).
  apply bind_next_inv in H. destruct H as (t5 & c5 & [] & t6 & Hcd & H & ->).
  apply bind_next_inv in H. destruct H as (t7 & c7 & ok & t8 & Hvc & H & ->).
  assert (Hc : c' = c7).
  { match type of H with
    | ?m _ = _ => assert (Hk : forall c, cwd_after (m c) = c)
    end.
    { repeat first
        [ apply check_for_bloom_keeps_cwd | apply parse_bloom_conf_keeps_cwd
        | progress unfold track_branches, summarize_repo_info, warning, info
        | keeps_cwd_step ]. }
    specialize (Hk c7). rewrite H in Hk. exact Hk. }
  assert (Hclone : clone = Py.path_join tmp_dir "bloom_clone").
  { do 4 (apply bind_next_inv in H; destruct H as (? & ? & ? & ? & _ & H & _)).
    match type of H with (let '(_, _) := ?x in _) _ = _ => destruct x as [[? ?] ?] end.
    do 2 (apply bind_next_inv in H; destruct H as (? & ? & ? & ? & _ & H & _)).
    inversion H. reflexivity. }
  unfold chdir in Hcd. unfold vcs_checkout, bind, emit, ret in Hvc.
  inversion Hcd. inversion Hvc. subst.
  split; [ reflexivity | split; [ reflexivity | ] ].
  apply in_or_app. right. apply in_or_app. right. apply in_or_app. right.
  apply in_or_app. left. left. reflexivity.
Qed.

Lemma up_to_3_is_no_push e : up_to 3 e = true -> is_push e = false.
Proof.
  destruct e; try reflexivity. unfold up_to, stage. cbn [is_discovery is_export is_import_orig is_push].
  destruct (cmd =? "git push --all -f") eqn:H1.
  { apply String.eqb_eq in H1. subst cmd. discriminate. }
  destruct (cmd =? "git push --tags") eqn:H2.
  { apply String.eqb_eq in H2. subst cmd. discriminate. }
  reflexivity.
Qed.

(** The last block: either it ends with an exception before it calls
    git-import-orig, or it calls it and the answer decides the rest. *)
Lemma import_and_push_cases E clone args tarball_path c :
  let call_import :=
    ImportOrig (tarball_path ++ ".tar.gz") (interactive args) (merge args) in
  let rc := import_orig_result E (tarball_path ++ ".tar.gz") (interactive args) (merge args) in
  let push_all := ExecuteCommand "git push --all -f" None in
  let push_tags := ExecuteCommand "git push --tags" None in
  exists t,
    forallb (up_to 3) t = true
    /\ ((exists e, import_and_push E clone args tarball_path c = (t, c, Raise e))
        \/ import_and_push E clone args tarball_path c
           = if (rc =? 0)%Z then
               if execute_command_ok E "git push --all -f" None then
                 ((t ++ [call_import; push_all; push_tags])%list, c,
                  if execute_command_ok E "git push --tags" None
                  then Next tt else Raise CalledProcessError)
               else ((t ++ [call_import; push_all])%list, c, Raise CalledProcessError)
             else ((t ++ [call_import])%list, c, Return (Some 1%Z))).
Proof.
  intros call_import rc push_all push_tags.
  unfold import_and_push, create_initial_upstream_branch, create_branch, check_output,
    vcs_update, import_orig, execute_command, info.
  unfold bind, emit, ret, raise, return_. simp_run. fold rc call_import push_all push_tags.
  destruct (check_output_result E "git branch" None) as [output | ]; simp_run.
  2: { eexists. split; [ | left; eexists; reflexivity ]. reflexivity. }
  destruct (branch_absent output "upstream"); simp_run.
  - destruct (create_branch_ok E "upstream"); simp_run.
    2: { eexists. split; [ | left; eexists; reflexivity ]. reflexivity. }
    exists [CheckOutput "git branch" None;
            Log LInfo (ansi E "boldon" ++ "No upstream branch" ++ ansi E "reset"
                       ++ "... creating an initial upstream branch.");
            CreateBranch "upstream" true true; VcsUpdate "git" clone "master"].
    split; [ reflexivity | right ].
    destruct (rc =? 0)%Z; simp_run; [ | reflexivity ].
    destruct (execute_command_ok E "git push --all -f" None); simp_run; [ | reflexivity ].
    destruct (execute_command_ok E "git push --tags" None); reflexivity.
  - exists [CheckOutput "git branch" None; VcsUpdate "git" clone "master"].
    split; [ reflexivity | right ].
    destruct (rc =? 0)%Z; simp_run; [ | reflexivity ].
    destruct (execute_command_ok E "git push --all -f" None); simp_run; [ | reflexivity ].
    destruct (execute_command_ok E "git push --tags" None); reflexivity.
Qed.

(** A run up to the last block, and the last block. *)
Lemma import_upstream_through_guard E cwd tmp_dir args c0 :
  let r := import_upstream E cwd tmp_dir args c0 in
  (forallb (up_to 3) (events r) = true)
  \/ exists t1 c1 clone version tarball_path t2 c2 gbp,
       before_guard E cwd tmp_dir args c0 = (t1, c1, Next (clone, version, tarball_path))
       /\ version_guard E args version c1 = (t2, c2, Next gbp)
       /\ c2 = c1
       /\ forallb (up_to 3) (t1 ++ t2) = true
       /\ r = (let rest := continue_with_import E clone args tarball_path c2 in
               ((t1 ++ t2 ++ events rest)%list, cwd_after rest, result rest)).
Proof.
  intros r.
  pose proof (emits_only_up_to 2 3 _ ltac:(lia) (before_guard_export E cwd tmp_dir args)
                c0) as Hev1.
  destruct (before_guard E cwd tmp_dir args c0)
    as [[t1 c1] [[[clone version] tarball_path] | rc | e]] eqn:Hbg; cbn in Hev1.
  2: { left. subst r. unfold import_upstream, call, import_upstream_body.
       rewrite (bind_return _ _ _ _ _ _ Hbg). exact Hev1. }
  2: { left. subst r. unfold import_upstream, call, import_upstream_body.
       rewrite (bind_raise _ _ _ _ _ _ Hbg). exact Hev1. }
  pose proof (run_through_guard E _ _ _ _ _ _ _ _ _ Hbg) as Hr. fold r in Hr.
  pose proof (version_guard_tags E args version c1) as Hev2.
  pose proof (version_guard_keeps_cwd E args version c1) as Hc2.
  destruct (version_guard E args version c1) as [[t2 c2] [gbp | rc | e]] eqn:Hg;
    cbn in Hev2, Hc2.
  - right. exists t1, c1, clone, version, tarball_path, t2, c2, gbp.
    split; [ reflexivity | ]. split; [ exact Hg | ]. split; [ exact Hc2 | ].
    split; [ rewrite forallb_app, Hev1, Hev2; reflexivity | exact Hr ].
  - left. rewrite Hr. cbn. rewrite forallb_app, Hev1, Hev2. reflexivity.
  - left. rewrite Hr. cbn. rewrite forallb_app, Hev1, Hev2. reflexivity.
Qed.

Lemma before_guard_clone E cwd tmp_dir args c t c' clone version tarball_path :
  before_guard E cwd tmp_dir args c = (t, c', Next (clone, version, tarball_path)) ->
  clone = Py.path_join tmp_dir "bloom_clone" /\ c' = clone
  /\ In (VcsCheckout "git" clone ("file://" ++ cwd) "") t.
Proof.
  unfold before_guard. intros H.
  apply bind_next_inv in H. destruct H as (t1 & c1 & conf & t2 & Hcc & H & ->).
  destruct conf as [[[clone' repo] type] ver].
  apply clone_and_configure_clone in Hcc. destruct Hcc as (Hclone & Hc1 & Hin).
  apply bind_next_inv in H. destruct H as (t3 & c3 & dir & t4 & Hco & H & ->).
  apply bind_next_inv in H. destruct H as (t5 & c5 & [name version'] & t6 & Hrm & H & ->).
  apply bind_next_inv in H. destruct H as (t7 & c7 & tp & t8 & Hex & H & ->).
  pose proof (checkout_upstream_keeps_cwd E tmp_dir repo type ver c1) as K1.
  rewrite Hco in K1. cbn in K1.
  pose proof (resolve_meta_keeps_cwd E args dir c3) as K2. rewrite Hrm in K2. cbn in K2.
  pose proof (export_tarball_keeps_cwd E tmp_dir repo type dir name version' c5) as K3.
  rewrite Hex in K3. cbn in K3.
  unfold ret in H. injection H as Ht8 Hc7 Hcl Hv Htp.
  split; [ congruence | split; [ congruence | ] ].
  apply in_or_app. left. rewrite <- Hcl. exact Hin.
Qed.

(** *** Deletions of tags and pushes *)

Lemma keeps_tags_is_replacement E args e :
  is_tag_delete e = false -> is_replacement E args e = true.
Proof. unfold is_replacement. intros ->. reflexivity. Qed.

Lemma deletions_are_replacements E args :
  replace args = true -> has_replace_result E = true ->
  (get_last_tag_by_date_result E =? "") = false ->
  is_replacement E args
    (ExecuteCommand ("git tag -d " ++ get_last_tag_by_date_result E) None) = true
  /\ is_replacement E args
       (ExecuteCommand ("git push origin :refs/tags/" ++ get_last_tag_by_date_result E) None)
     = true.
Proof.
  intros Hr Hs Ht. unfold is_replacement. rewrite Hr, Hs, Ht. rewrite !String.eqb_refl.
  split.
  - destruct (is_tag_delete _); reflexivity.
  - destruct (is_tag_delete _); [ | reflexivity ].
    cbn. first [ reflexivity | apply orb_true_r ].
Qed.

Lemma version_guard_replaces E args version :
  emits_only (is_replacement E args) (version_guard E args version).
Proof.
  intros c.
  unfold version_guard, get_last_tag_by_date, unpack3, StrictVersion, strict_lt, strict_le,
    has_replace,
    execute_command, info, warning, error.
  unfold bind, emit, ret, raise, return_.
  destruct (get_last_tag_by_date_result E =? "") eqn:Ht.
  - destruct (segment_version E version) as [e | [ | x1 [ | x2 [ | x3 [ | x4 l]]]]];
      reflexivity.
  - destruct (get_versions_from_upstream_tag E (get_last_tag_by_date_result E))
      as [e | [ | a [ | b [ | c' [ | d l]]]]]; try reflexivity.
    cbv beta iota zeta. rewrite join3_nonempty.
    destruct (version =? "");
      [ destruct (Py.parse (Py.join "." [a; b; c'])); reflexivity | ].
    destruct (Py.parse version) as [v | ]; [ | reflexivity ].
    destruct (Py.parse (Py.join "." [a; b; c'])) as [w | ]; [ | reflexivity ].
    destruct (Py.lt v w); (destruct (Py.le v w); [ | reflexivity ]);
      (destruct (replace args) eqn:Hr; [ | reflexivity ]);
      (destruct (has_replace_result E) eqn:Hs; [ | reflexivity ]);
      destruct (deletions_are_replacements E args Hr Hs Ht) as [H1 H2];
      (destruct (execute_command_ok E ("git tag -d " ++ _) None);
       [ destruct (execute_command_ok E ("git push origin :refs/tags/" ++ _) None) | ]);
      unfold events; cbn [fst snd app forallb negb]; rewrite ?H1, ?H2; reflexivity.
Qed.

(** Every deletion of a tag in a run is one the command line asked for. *)
Lemma import_upstream_replaces E cwd tmp_dir args :
  emits_only (is_replacement E args) (import_upstream E cwd tmp_dir args).
Proof.
  unfold import_upstream, import_upstream_body. apply emits_only_call.
  apply emits_only_bind.
  - apply (emits_only_weaken (up_to 2)); [ | apply before_guard_export ].
    intros x Hx. apply keeps_tags_is_replacement, up_to_2_keeps_tags, Hx.
  - intros [[clone version] tarball]. apply emits_only_bind.
    + apply version_guard_replaces.
    + intros _. apply (emits_only_weaken (fun x => negb (is_tag_delete x)));
        [ | apply import_and_push_keeps_tags ].
      intros x Hx. apply keeps_tags_is_replacement, negb_true_iff, Hx.
Qed.

Section Pushes.

Variable E : Env.

(** Nothing is pushed before the version guard. *)
Lemma clone_and_configure_no_push cwd tmp_dir args :
  emits_only (fun e => negb (is_git_push e)) (clone_and_configure E cwd tmp_dir args).
Proof.
  unfold clone_and_configure, check_for_bloom, convert_catkin_to_bloom,
    not_a_bloom_release_repo, parse_bloom_conf, check_output, checkout, execute_command,
    os_path_exists, os_path_join, read_file, write_file, track_branches, vcs_checkout,
    summarize_repo_info, warning, info, error.
  repeat first
    [ emits_step
    | match goal with |- emits_only _ (let '(_, _) := ?x in _) => destruct x end ].
Qed.

Lemma before_guard_no_push cwd tmp_dir args :
  emits_only (fun e => negb (is_git_push e)) (before_guard E cwd tmp_dir args).
Proof.
  unfold before_guard.
  apply emits_only_bind; [ apply clone_and_configure_no_push | ].
  intros [[[clone repo] type] ver].
  apply emits_only_bind.
  { unfold checkout_upstream. destruct (checkout_target _ _ _) as [url cver].
    unfold vcs_checkout, debug, error. emits. }
  intros upstream_dir.
  apply emits_only_bind.
  { unfold resolve_meta, get_upstream_meta, find_packages, os_path_exists,
      parse_stack_file, first_name, info, error.
    emits. }
  intros [name version].
  apply emits_only_bind; [ | intros; apply emits_only_ret ].
  unfold export_tarball, vcs_checkout, vcs_export, info, warning, error.
  repeat first
    [ emits_step
    | match goal with |- emits_only _ (let '(_, _) := ?x in _) => destruct x end ].
Qed.

Lemma remote_deletion_is_push last_tag cwd :
  is_git_push (ExecuteCommand ("git push origin :refs/tags/" ++ last_tag) cwd) = true
  /\ is_tag_delete (ExecuteCommand ("git push origin :refs/tags/" ++ last_tag) cwd) = true
  /\ is_git_push (ExecuteCommand ("git tag -d " ++ last_tag) cwd) = false.
Proof. repeat split; destruct last_tag; reflexivity. Qed.

(** The one push of the version guard is the deletion of a tag. *)
Lemma version_guard_pushes args version :
  emits_only (fun e => negb (is_git_push e) || is_tag_delete e) (version_guard E args version).
Proof.
  unfold version_guard, get_last_tag_by_date, unpack3, StrictVersion, strict_lt, strict_le,
    has_replace, execute_command, info, warning, error.
  repeat first
    [ emits_step
    | apply emits_only_emit;
      rewrite (proj1 (proj2 (remote_deletion_is_push _ _))); apply orb_true_r
    | match goal with |- emits_only _ (let '(_, _) := ?x in _) => destruct x end ].
Qed.

(** The pushes of the last block are the two at its end. *)
Lemma import_and_push_pushes clone args tarball :
  emits_only (fun e => negb (is_git_push e) || is_push e)
             (import_and_push E clone args tarball).
Proof.
  unfold import_and_push, create_initial_upstream_branch, create_branch, check_output,
    vcs_update, import_orig, execute_command, info.
  emits.
Qed.

(** Every push of a run is the deletion of a tag by the version guard or
    one of the two pushes at the end. *)
Lemma import_upstream_pushes cwd tmp_dir args :
  emits_only (fun e => negb (is_git_push e) || is_tag_delete e || is_push e)
             (import_upstream E cwd tmp_dir args).
Proof.
  unfold import_upstream, import_upstream_body. apply emits_only_call.
  apply emits_only_bind.
  - apply (emits_only_weaken (fun e => negb (is_git_push e)));
      [ | apply before_guard_no_push ].
    intros x ->. reflexivity.
  - intros [[clone version] tarball]. apply emits_only_bind.
    + apply (emits_only_weaken (fun e => negb (is_git_push e) || is_tag_delete e));
        [ | apply version_guard_pushes ].
      intros x ->. reflexivity.
    + intros _. apply (emits_only_weaken (fun e => negb (is_git_push e) || is_push e));
        [ | apply import_and_push_pushes ].
      intros x Hx. apply orb_true_iff in Hx. destruct Hx as [-> | ->];
        [ reflexivity | apply orb_true_r ].
Qed.

End Pushes.

(** C8, as the code has it.  In every run that calls git-import-orig: when
    the call gives a nonzero result, it is the last event of the run,
    [import_upstream] returns 1 and the run has pushed neither the branches
    nor the tags with [git push --all -f] and [git push --tags]; the one
    push such a run can hold is the one with which the version guard,
    asked to replace, has deleted the last tag on the remote before the
    import.  When the call gives zero, the run next pushes all branches
    with [-f] and, that push done, all tags, from the clone that was made
    from the directory of the release repository, and the run succeeds when
    both pushes do. *)
Theorem import_orig_decides_the_pushes E cwd tmp_dir args c0 tarball i m :
  let r := import_upstream E cwd tmp_dir args c0 in
  let clone := Py.path_join tmp_dir "bloom_clone" in
  let push_all := ExecuteCommand "git push --all -f" None in
  let push_tags := ExecuteCommand "git push --tags" None in
  In (ImportOrig tarball i m) (events r) ->
  (import_orig_result E tarball i m <> 0%Z ->
   result r = Next (Some 1%Z)
   /\ (forall e, In e (events r) -> is_push e = false)
   /\ (exists t, events r = (t ++ [ImportOrig tarball i m])%list)
   /\ (forall e, In e (events r) -> is_git_push e = true ->
       replace args = true
       /\ e = ExecuteCommand
               ("git push origin :refs/tags/" ++ get_last_tag_by_date_result E) None))
  /\ (import_orig_result E tarball i m = 0%Z ->
      (exists t,
          events r
          = (t ++ ImportOrig tarball i m :: push_all
               :: (if execute_command_ok E "git push --all -f" None
                   then [push_tags] else []))%list)
      /\ (execute_command_ok E "git push --all -f" None = true ->
          execute_command_ok E "git push --tags" None = true ->
          result r = Next None)
      /\ cwd_after r = clone
      /\ In (VcsCheckout "git" clone ("file://" ++ cwd) "") (events r)).
Proof.
  intros r clone push_all push_tags Hin.
  destruct (import_upstream_through_guard E cwd tmp_dir args c0) as [Hev | Hrun];
    fold r in Hev || fold r in Hrun.
  { rewrite forallb_forall in Hev. apply Hev in Hin. discriminate Hin. }
  destruct Hrun as (t1 & c1 & clone' & version & tp & t2 & c2 & gbp
                    & Hbg & Hg & -> & Hev & Hr).
  apply before_guard_clone in Hbg. destruct Hbg as (Hclone & Hc1 & Hvc).
  fold clone in Hclone. subst clone' c1.
  destruct (import_and_push_cases E clone args tp clone) as (t3 & Hev3 & Hcases).
  cbv zeta in Hcases, Hr.
  unfold continue_with_import, call in Hr.
  assert (Hev13 : forall e, In e ((t1 ++ t2) ++ t3)%list -> up_to 3 e = true).
  { intros e He. apply in_app_or in He. rewrite forallb_forall in Hev, Hev3.
    destruct He; auto. }
  destruct Hcases as [(e & Hraise) | Hcases].
  { rewrite Hraise in Hr. cbn in Hr. rewrite Hr in Hin. cbn in Hin.
    rewrite app_assoc in Hin. apply Hev13 in Hin. discriminate Hin. }
  set (rc := import_orig_result E (tp ++ ".tar.gz") (interactive args) (merge args)) in *.
  set (io := ImportOrig (tp ++ ".tar.gz") (interactive args) (merge args)) in *.
  assert (Hio : ImportOrig tarball i m = io
                /\ events r = (((t1 ++ t2) ++ t3)
                                 ++ io :: (if (rc =? 0)%Z
                                           then push_all
                                                  :: (if execute_command_ok E "git push --all -f" None
                                                      then [push_tags] else [])
                                           else []))%list).
  { rewrite Hcases in Hr. rewrite Hr in Hin. rewrite Hr. clear Hr Hcases.
    destruct (rc =? 0)%Z;
      [ destruct (execute_command_ok E "git push --all -f" None);
        [ destruct (execute_command_ok E "git push --tags" None) | ] | ];
      unfold events in Hin |- *; cbn [fst snd] in Hin |- *;
      rewrite !app_assoc in Hin; rewrite !app_assoc;
      (split; [ | reflexivity ]);
      apply in_app_or in Hin; destruct Hin as [Hin | Hin];
      try (apply Hev13 in Hin; discriminate Hin);
      repeat (destruct Hin as [Hin | Hin];
              [ first [ discriminate Hin | symmetry; exact Hin ] | ]);
      destruct Hin. }
  destruct Hio as [Hio Hevents]. subst io. inversion Hio; subst tarball i m. clear Hio.
  fold rc. split.
  - intros Hrc. apply Z.eqb_neq in Hrc. rewrite Hrc in Hcases, Hevents.
    rewrite Hcases in Hr. cbn in Hr.
    assert (Hnone : forall e, In e (events r) -> is_push e = false).
    { rewrite Hevents. intros e He. apply in_app_or in He. destruct He as [He | He].
      - apply up_to_3_is_no_push, Hev13, He.
      - destruct He as [<- | []]. reflexivity. }
    split; [ rewrite Hr; reflexivity | split; [ exact Hnone | split ] ].
    + eexists. exact Hevents.
    + intros e He Hpush.
      pose proof (emits_only_In _ _ c0 e (import_upstream_pushes E cwd tmp_dir args) He) as Hq.
      cbv beta in Hq. rewrite Hpush, (Hnone e He), orb_false_r in Hq. cbn [negb orb] in Hq.
      pose proof (emits_only_In _ _ c0 e (import_upstream_replaces E cwd tmp_dir args) He)
        as Hrep.
      unfold is_replacement in Hrep. rewrite Hq in Hrep.
      repeat (apply andb_true_iff in Hrep; destruct Hrep as [Hrep ?]).
      split; [ assumption | ].
      destruct e; try discriminate. destruct cwd0; try discriminate.
      match goal with
      | Hc : _ || _ = true |- _ =>
          apply orb_true_iff in Hc; destruct Hc as [Hc | Hc];
          apply String.eqb_eq in Hc; subst cmd
      end.
      * rewrite (proj2 (proj2 (remote_deletion_is_push _ _))) in Hpush. discriminate Hpush.
      * reflexivity.
  - intros Hrc. apply Z.eqb_eq in Hrc. rewrite Hrc in Hcases, Hevents.
    rewrite Hcases in Hr.
    split; [ eexists; exact Hevents | split; [ | split ] ].
    + intros H1 H2. rewrite H1, H2 in Hr. rewrite Hr. reflexivity.
    + rewrite Hr. destruct (execute_command_ok E "git push --all -f" None);
        [ destruct (execute_command_ok E "git push --tags" None) | ]; reflexivity.
    + rewrite Hevents. apply in_or_app. left. apply in_or_app. left.
      apply in_or_app. left. exact Hvc.
Qed.

(** The amended C8 on the sample repository when git-import-orig gives 1:
    the run returns 1 and pushes neither the branches nor the tags. *)
Lemma import_orig_decides_the_pushes_witness :
  let cwd := "/home/user/release" in
  let r := import_upstream (sample_env "git" None one_package "upstream/0.9.0" true 1)
             cwd "/tmp/scratch" args_plain cwd in
  result r = Next (Some 1%Z)
  /\ forallb (fun e => negb (is_push e)) (events r) = true.
Proof.
  intros cwd r.
  pose proof (import_orig_decides_the_pushes
                (sample_env "git" None one_package "upstream/0.9.0" true 1)
                cwd "/tmp/scratch" args_plain cwd
                "/tmp/scratch/upstream-1.0.0.tar.gz" false false) as H.
  cbv zeta in H. destruct H as [H _]; [ find_event | ].
  destruct H as (Hr & Hp & _); [ discriminate | ].
  split; [ exact Hr | ].
  apply forallb_forall. intros e He. apply negb_true_iff. exact (Hp e He).
Defined.

(** C8 as the specification states it fails on the sample repository with
    the last tag [upstream/1.0.0], the upstream version 1.0.0 and
    [--replace] when git-import-orig gives 1: the run has pushed the
    deletion of the tag to the remote before the import fails. *)
Lemma failed_import_follows_tag_push :
  ~ failed_import_never_pushes (sample_env "git" None one_package "upstream/1.0.0" true 1)
      "/home/user/release" "/tmp/scratch" args_replace "/home/user/release".
Proof.
  intros H.
  destruct (H "/tmp/scratch/upstream-1.0.0.tar.gz" false false) as [_ Hnone].
  - find_event.
  - discriminate.
  - specialize (Hnone (ExecuteCommand "git push origin :refs/tags/upstream/1.0.0" None)).
    assert (Hp : is_git_push
                   (ExecuteCommand "git push origin :refs/tags/upstream/1.0.0" None) = false).
    { apply Hnone. find_event. }
    discriminate Hp.
Qed.

(** ** The test for a branch *)

Lemma prefix_append sub post : prefix sub (sub ++ post) = true.
Proof.
  induction sub as [ | a sub IH]; cbn.
  - destruct post; reflexivity.
  - rewrite IH. destruct (ascii_dec a a); [ reflexivity | contradiction ].
Qed.

Lemma prefix_split sub s : prefix sub s = true -> exists post, s = sub ++ post.
Proof.
  revert s. induction sub as [ | a sub IH]; intros s H.
  - exists s. reflexivity.
  - destruct s as [ | b s]; cbn in H; [ discriminate | ].
    destruct (ascii_dec a b) as [-> | ]; [ | discriminate ].
    destruct (IH s H) as (post & ->). exists post. reflexivity.
Qed.

(** An occurrence that starts after the characters to skip is counted. *)
Lemma count_from_occurrence sub pre post skip :
  sub <> "" -> (skip <= String.length pre)%nat ->
  Py.count_from sub skip (pre ++ sub ++ post) <> 0%nat.
Proof.
  intros Hsub. revert skip. induction pre as [ | a pre IH]; intros skip Hskip.
  - cbn in Hskip. assert (skip = 0%nat) by lia. subst skip.
    destruct sub as [ | c sub]; [ contradiction | ].
    change ("" ++ String c sub ++ post) with (String c (sub ++ post)).
    cbn [Py.count_from].
    change (String c (sub ++ post)) with (String c sub ++ post).
    rewrite prefix_append. discriminate.
  - change (String a pre ++ sub ++ post) with (String a (pre ++ sub ++ post)).
    cbn [Py.count_from]. destruct skip as [ | k].
    + destruct (prefix sub (String a (pre ++ sub ++ post))); [ discriminate | ].
      apply IH. lia.
    + apply IH. cbn in Hskip. lia.
Qed.

(** What is counted is an occurrence. *)
Lemma count_from_found sub skip s :
  Py.count_from sub skip s <> 0%nat -> exists pre post, s = pre ++ sub ++ post.
Proof.
  revert skip. induction s as [ | a s IH]; intros skip H; [ contradiction | ].
  cbn [Py.count_from] in H. destruct skip as [ | k].
  - destruct (prefix sub (String a s)) eqn:Hp.
    + destruct (prefix_split _ _ Hp) as (post & ->). exists "", post. reflexivity.
    + destruct (IH _ H) as (pre & post & ->). exists (String a pre), post. reflexivity.
  - destruct (IH _ H) as (pre & post & ->). exists (String a pre), post. reflexivity.
Qed.

(** A branch counts as present exactly when its name occurs somewhere in
    the text. *)
Lemma branch_absent_false_iff output branch :
  branch <> "" ->
  branch_absent output branch = false <-> exists pre post, output = pre ++ branch ++ post.
Proof.
  intros Hb. unfold branch_absent, Py.count.
  destruct branch as [ | c branch]; [ contradiction | ].
  rewrite Nat.eqb_neq. split.
  - apply count_from_found.
  - intros (pre & post & ->). apply count_from_occurrence; [ exact Hb | lia ].
Qed.

Lemma events_bind_prefix {A B} (m : M A) (k : A -> M B) c :
  exists t, events (bind m k c) = (events (m c) ++ t)%list.
Proof.
  unfold bind. destruct (m c) as [[t1 c1] [a | rc | e]]; cbn.
  - destruct (k a c1) as [[t2 c2] r]. exists t2. reflexivity.
  - exists []. rewrite app_nil_r. reflexivity.
  - exists []. rewrite app_nil_r. reflexivity.
Qed.

Lemma events_bind_next {A B} (m : M A) (k : A -> M B) c t1 c1 a :
  m c = (t1, c1, Next a) -> events (bind m k c) = (t1 ++ events (k a c1))%list.
Proof.
  intros H. rewrite (bind_next _ _ _ _ _ _ H).
  destruct (k a c1) as [[t2 c2] r]. reflexivity.
Qed.

(** C10.  The presence of a branch is decided by counting the occurrences of
    its name in the text that [git branch] prints: a branch counts as
    present exactly when the name occurs somewhere in the text.  So when
    [bloom] occurs in the text, [check_for_bloom] neither rejects the
    repository at that test nor converts it, and accepts it when the
    checkout of [bloom] and the test for [bloom.conf] succeed; when only
    [catkin] occurs, it starts the conversion; and when [upstream] occurs,
    [import_upstream] creates no upstream branch.  For the sample
    repository with the one branch [bloomer] the validation passes (the
    checkout of [bloom] succeeds there; git also checks out a tag or a
    remote branch of that name), and with the one branch [upstreamer] no
    upstream branch is created, though neither has a branch of the exact
    name. *)
Theorem branch_presence_by_substring E :
  (forall output branch,
      branch <> "" ->
      branch_absent output branch = false
      <-> exists pre post, output = pre ++ branch ++ post)
  /\ (forall cwd c pre post,
         check_output_result E "git branch" cwd = Some (pre ++ "bloom" ++ post) ->
         let loc := match cwd with
                    | Some d => Py.path_join d "bloom.conf"
                    | None => "bloom.conf"
                    end in
         let tried := [CheckOutput "git branch" cwd; GitCheckout "bloom" cwd] in
         check_for_bloom E cwd c
         = if checkout_ok E "bloom" cwd then
             if path_exists E loc
             then ((tried ++ [PathExists loc])%list, c, Next tt)
             else ((tried ++ [PathExists loc;
                              Log LError not_a_bloom_release_repo_message])%list,
                   c, Raise (SystemExit 1))
           else ((tried ++ [Log LError not_a_bloom_release_repo_message])%list,
                 c, Raise (SystemExit 1)))
  /\ (forall cwd c output pre post,
         check_output_result E "git branch" cwd = Some output ->
         branch_absent output "bloom" = true ->
         output = pre ++ "catkin" ++ post ->
         exists t,
           events (check_for_bloom E cwd c)
           = CheckOutput "git branch" cwd
               :: Log LInfo "catkin branch detected, up converting to the bloom branch"
               :: ExecuteCommand "git branch -m catkin bloom" cwd :: t)
  /\ (forall clone args tarball_path c pre post,
         check_output_result E "git branch" None = Some (pre ++ "upstream" ++ post) ->
         forall branch orphaned changeto,
           ~ In (CreateBranch branch orphaned changeto)
               (events (import_and_push E clone args tarball_path c)))
  /\ (let output := "* bloomer" ++ Py.nl in
      let clone := "/tmp/scratch/bloom_clone" in
      branch_names output = ["bloomer"]
      /\ check_for_bloom (with_branches output (sample_env "git" None one_package "" true 0))
           (Some clone) clone
         = ([CheckOutput "git branch" (Some clone); GitCheckout "bloom" (Some clone);
             PathExists "/tmp/scratch/bloom_clone/bloom.conf"],
            clone, Next tt))
  /\ (let output := "* upstreamer" ++ Py.nl in
      let clone := "/tmp/scratch/bloom_clone" in
      branch_names output = ["upstreamer"]
      /\ import_and_push (with_branches output (sample_env "git" None one_package "" true 0))
           clone args_plain "/tmp/scratch/upstream-1.0.0" clone
         = ([CheckOutput "git branch" None; VcsUpdate "git" clone "master";
             ImportOrig "/tmp/scratch/upstream-1.0.0.tar.gz" false false;
             ExecuteCommand "git push --all -f" None;
             ExecuteCommand "git push --tags" None],
            clone, Next tt)).
Proof.
  split; [ exact branch_absent_false_iff | ].
  split; [ | split; [ | split; [ | split ] ] ].
  - intros cwd c pre post Hout loc tried.
    assert (Hb : branch_absent (pre ++ "bloom" ++ post) "bloom" = false).
    { apply branch_absent_false_iff; [ discriminate | ]. exists pre, post. reflexivity. }
    unfold check_for_bloom, check_output, checkout, os_path_exists,
      not_a_bloom_release_repo, error, try_except_CalledProcessError.
    unfold bind, emit, ret, raise, sys_exit. simp_run. rewrite Hout. simp_run.
    rewrite Hb. simp_run.
    destruct (checkout_ok E "bloom" cwd); simp_run; [ | reflexivity ].
    fold loc. destruct (path_exists E loc); reflexivity.
  - intros cwd c output pre post Hout Hbloom Hcatkin.
    assert (Hc : branch_absent output "catkin" = false).
    { apply branch_absent_false_iff; [ discriminate | ]. exists pre, post. exact Hcatkin. }
    unfold check_for_bloom.
    rewrite (events_bind_next (check_output E "git branch" cwd) _ c
               [CheckOutput "git branch" cwd] c output).
    2: { unfold check_output, bind, emit, ret. simp_run. rewrite Hout. reflexivity. }
    rewrite Hbloom, Hc.
    destruct (events_bind_prefix
                (info "catkin branch detected, up converting to the bloom branch";;
                 convert_catkin_to_bloom E cwd)
                (fun _ =>
                   try_except_CalledProcessError (checkout E "bloom" cwd)
                     not_a_bloom_release_repo;;
                   found <- os_path_exists E
                              match cwd with
                              | Some d => Py.path_join d "bloom.conf"
                              | None => "bloom.conf"
                              end;;
                   (if negb found then not_a_bloom_release_repo else ret tt)) c)
      as (t & Ht).
    rewrite Ht.
    rewrite (events_bind_next (info _) _ c [Log LInfo _] c tt eq_refl).
    unfold convert_catkin_to_bloom.
    destruct (events_bind_prefix (execute_command E "git branch -m catkin bloom" cwd)
                (fun _ =>
                   emit (GitCheckout "bloom" cwd);;
                   (if checkout_after_rename_ok E then ret tt else raise CalledProcessError);;
                   catkin_conf <- os_path_join cwd "catkin.conf";;
                   found <- os_path_exists E catkin_conf;;
                   (if found then execute_command E "git mv catkin.conf bloom.conf" cwd
                    else ret tt);;
                   bloom_path <- os_path_join cwd "bloom.conf";;
                   emit (PathExists bloom_path);;
                   (if renamed_conf_exists E bloom_path
                    then
                      conf_file <- read_file E bloom_path;;
                      write_file E bloom_path (Py.replace conf_file "[catkin]" "[bloom]");;
                      execute_command E "git add bloom.conf" cwd;;
                      execute_command E
                        ("git commit -m " ++ Py.dquote
                         ++ "rename catkin.conf to bloom.conf" ++ Py.dquote) cwd
                    else ret tt)) c) as (t' & Ht').
    rewrite Ht'.
    assert (Hx : exists t'', events (execute_command E "git branch -m catkin bloom" cwd c)
                             = ExecuteCommand "git branch -m catkin bloom" cwd :: t'').
    { unfold execute_command, bind, emit, ret, raise. simp_run.
      destruct (execute_command_ok E "git branch -m catkin bloom" cwd);
        eexists; reflexivity. }
    destruct Hx as (t'' & ->). eexists. cbn. reflexivity.
  - intros clone args tp c pre post Hout branch orphaned changeto.
    assert (Hb : branch_absent (pre ++ "upstream" ++ post) "upstream" = false).
    { apply branch_absent_false_iff; [ discriminate | ]. exists pre, post. reflexivity. }
    unfold import_and_push, check_output, vcs_update, import_orig, execute_command.
    unfold bind, emit, ret, raise, return_. simp_run. rewrite Hout. simp_run.
    rewrite Hb. simp_run.
    destruct (import_orig_result E _ _ _ =? 0)%Z; simp_run;
      [ destruct (execute_command_ok E "git push --all -f" None); simp_run;
        [ destruct (execute_command_ok E "git push --tags" None); simp_run | ] | ];
      intros Hin;
      repeat (destruct Hin as [Hin | Hin]; [ discriminate Hin | ]); exact Hin.
  - cbv zeta. split; reflexivity.
  - cbv zeta. split; reflexivity.
Qed.

(** C10 on the sample repository when [git branch] prints the one branch
    [bloomer]: the text holds [bloom], and the validation passes. *)
Lemma branch_presence_by_substring_witness :
  let clone := "/tmp/scratch/bloom_clone" in
  result (check_for_bloom
            (with_branches ("* bloomer" ++ Py.nl) (sample_env "git" None one_package "" true 0))
            (Some clone) clone) = Next tt.
Proof.
  intros clone.
  pose proof (branch_presence_by_substring
                (with_branches ("* bloomer" ++ Py.nl)
                   (sample_env "git" None one_package "" true 0))) as H.
  destruct H as (_ & H & _).
  specialize (H (Some clone) clone "* " ("er" ++ Py.nl) eq_refl).
  cbv zeta in H. rewrite H. reflexivity.
Defined.

(** ** The cleanup of [main] *)

Lemma scratch_exists_app tmp_dir t1 t2 :
  scratch_exists tmp_dir (t1 ++ t2)
  = fold_left (scratch_step tmp_dir) t2 (scratch_exists tmp_dir t1).
Proof. unfold scratch_exists. apply fold_left_app. Qed.

Lemma restore_keeps_scratch E tmp_dir cwd current_branch present :
  fold_left (scratch_step tmp_dir) (restore_events E cwd current_branch) present = present.
Proof.
  unfold restore_events. destruct current_branch as [b | ]; [ | reflexivity ].
  destruct (truthy (Some b)); [ | reflexivity ].
  destruct (branch_exists_result E b true cwd); reflexivity.
Qed.

(** The [finally] block after any body: whatever the body does and however
    it ends, the block changes back to [cwd], removes the scratch directory
    and restores the branch. *)
Lemma cleanup_after_any_body E {A} (body : M A) cwd tmp_dir current_branch c :
  events (try_finally body (cleanup E cwd tmp_dir current_branch) c)
  = (events (body c) ++ ChDir cwd :: RmTree tmp_dir :: restore_events E cwd current_branch)%list
  /\ cwd_after (try_finally body (cleanup E cwd tmp_dir current_branch) c) = cwd.
Proof.
  unfold try_finally, cleanup, restore_events, branch_exists, checkout.
  destruct (body c) as [[t1 c1] r]. cbn.
  destruct current_branch as [b | ]; cbn; [ | split; reflexivity ].
  destruct (negb (b =? "")); cbn; [ | split; reflexivity ].
  destruct (branch_exists_result E b true cwd); cbn; [ | split; reflexivity ].
  destruct (checkout_ok E b (Some cwd)); cbn; split; reflexivity.
Qed.

Lemma preconditions_keep_cwd E c t c1 current_branch :
  preconditions E c = (t, c1, Next current_branch) -> c1 = c.
Proof.
  unfold preconditions, get_root, get_current_branch, error. cbn.
  destruct (get_root_result E); cbn; [ | discriminate ].
  destruct (on_upstream (get_current_branch_result E)); cbn; [ discriminate | ].
  intros H. inversion H. reflexivity.
Qed.

(** C9.  On every exit path of a run of [main] that got past the checks of
    the arguments and of the repository -- whether [import_upstream]
    returns, calls [sys.exit] or raises -- the run ends with the [finally]
    block: it changes back to the original working directory, removes the
    scratch directory made at the start, asks whether the branch that was
    checked out still exists and checks it out again if it does.  After the
    run the scratch directory does not exist and the working directory is
    the original one. *)
Theorem cleanup_on_every_exit_path E args c0 t0 c1 current_branch :
  preconditions E c0 = (t0, c1, Next current_branch) ->
  let tmp_dir := create_temporary_directory_path E in
  let body := attempt E c0 tmp_dir args c0 in
  events (main E args c0)
  = (t0 ++ CreateTemporaryDirectory tmp_dir :: events body
        ++ ChDir c0 :: RmTree tmp_dir :: restore_events E c0 current_branch)%list
  /\ cwd_after (main E args c0) = c0
  /\ scratch_exists tmp_dir (events (main E args c0)) = false.
Proof.
  intros Hpre tmp_dir body.
  pose proof (preconditions_keep_cwd _ _ _ _ _ Hpre) as ->.
  pose proof (cleanup_after_any_body E (attempt E c0 tmp_dir args) c0 tmp_dir
                current_branch c0) as [Hev Hcwd].
  fold body in Hev.
  assert (Hmain : events (main E args c0)
                  = (t0 ++ CreateTemporaryDirectory tmp_dir :: events body
                       ++ ChDir c0 :: RmTree tmp_dir
                       :: restore_events E c0 current_branch)%list
                  /\ cwd_after (main E args c0) = c0).
  { unfold main, call. rewrite (bind_next _ _ _ _ _ _ Hpre).
    unfold create_temporary_directory. cbn. fold tmp_dir.
    destruct (try_finally (attempt E c0 tmp_dir args)
                (cleanup E c0 tmp_dir current_branch) c0) as [[t2 c2] r] eqn:Hrun.
    cbn in Hev, Hcwd. subst t2 c2.
    destruct r; cbn; split; reflexivity. }
  destruct Hmain as [Hmain Hc]. split; [ exact Hmain | split; [ exact Hc | ] ].
  rewrite Hmain.
  rewrite scratch_exists_app.
  change (CreateTemporaryDirectory tmp_dir :: events body
            ++ ChDir c0 :: RmTree tmp_dir :: restore_events E c0 current_branch)%list
    with ((CreateTemporaryDirectory tmp_dir :: events body)
            ++ ChDir c0 :: RmTree tmp_dir :: restore_events E c0 current_branch)%list.
  rewrite fold_left_app. cbn [fold_left scratch_step].
  rewrite String.eqb_refl. apply restore_keeps_scratch.
Qed.

(** [main] on the sample repository: the preconditions hold and the run
    ends with the cleanup. *)
Lemma cleanup_on_every_exit_path_witness :
  let E := sample_env "git" None one_package "upstream/0.9.0" true 0 in
  let r := main E args_plain "/home/user/release" in
  cwd_after r = "/home/user/release"
  /\ scratch_exists "/tmp/scratch" (events r) = false.
Proof.
  intros E r.
  refine (proj2 (cleanup_on_every_exit_path E args_plain "/home/user/release"
                   [HandleGlobalArguments; GetRoot; GetCurrentBranch]
                   "/home/user/release" (Some "master") _)).
  reflexivity.
Defined.

(** * Further properties of the code *)

(** ** [main] *)

Lemma preconditions_cases E c0 :
  preconditions E c0
  = match get_root_result E with
    | None =>
        ([HandleGlobalArguments; GetRoot;
          Log LError "This command has to be run in a git repository."; PrintUsage],
         c0, Return (Some 1%Z))
    | Some _ =>
        if on_upstream (get_current_branch_result E)
        then ([HandleGlobalArguments; GetRoot; GetCurrentBranch;
               Log LError ("You cannot run git-bloom-import-upstream while in the "
                           ++ "upstream branch, because this branch is going to be modified.")],
              c0, Return (Some 1%Z))
        else ([HandleGlobalArguments; GetRoot; GetCurrentBranch], c0,
              Next (get_current_branch_result E))
    end.
Proof.
  unfold preconditions, get_root, get_current_branch, error, bind, emit, ret, return_.
  destruct (get_root_result E); [ | reflexivity ].
  destruct (on_upstream (get_current_branch_result E)); reflexivity.
Qed.

(** X1.  [main] makes the scratch directory exactly when it is run inside a
    git repository and the branch checked out is not [upstream].  Otherwise
    it returns 1 after the error message, leaves the working directory
    alone and has nothing to clean up. *)
Theorem scratch_directory_needs_preconditions E args c0 :
  let r := main E args c0 in
  let tmp_dir := create_temporary_directory_path E in
  (In (CreateTemporaryDirectory tmp_dir) (events r)
   <-> get_root_result E <> None /\ on_upstream (get_current_branch_result E) = false)
  /\ (get_root_result E = None ->
      r = ([HandleGlobalArguments; GetRoot;
            Log LError "This command has to be run in a git repository."; PrintUsage],
           c0, Next (Some 1%Z)))
  /\ (get_root_result E <> None -> on_upstream (get_current_branch_result E) = true ->
      exists msg,
        r = ([HandleGlobalArguments; GetRoot; GetCurrentBranch; Log LError msg],
             c0, Next (Some 1%Z))).
Proof.
  intros r tmp_dir. subst r.
  pose proof (preconditions_cases E c0) as Hpre.
  unfold main, call.
  destruct (get_root_result E) as [root | ] eqn:Hroot.
  - destruct (on_upstream (get_current_branch_result E)) eqn:Hup.
    + rewrite (bind_return _ _ _ _ _ _ Hpre).
      split; [ | split ].
      * split; [ | intros [_ H]; discriminate H ].
        unfold events. cbn [fst In]. intros H.
        repeat (destruct H as [H | H]; [ discriminate H | ]). destruct H.
      * intros H; discriminate H.
      * intros _ _. eexists. reflexivity.
    + rewrite (bind_next _ _ _ _ _ _ Hpre).
      split; [ | split ].
      * split; [ intros _; split; [ discriminate | reflexivity ] | ].
        intros _.
        unfold create_temporary_directory, bind, emit, ret, getcwd. fold tmp_dir.
        destruct (try_finally _ _ c0) as [[t c] o].
        destruct o; unfold events; cbn [fst app In]; right; right; right; left; reflexivity.
      * intros H; discriminate H.
      * intros _ H; discriminate H.
  - rewrite (bind_return _ _ _ _ _ _ Hpre).
    split; [ | split ].
    + split; [ | intros [H _]; contradiction ].
      unfold events. cbn [fst In]. intros H.
      repeat (destruct H as [H | H]; [ discriminate H | ]). destruct H.
    + reflexivity.
    + intros H; contradiction.
Qed.

(** [main] outside a git repository: it returns 1. *)
Lemma scratch_directory_needs_preconditions_witness :
  result (main (with_root None (sample_env "git" None one_package "" true 0))
            args_plain "/home/user") = Next (Some 1%Z).
Proof.
  pose proof (scratch_directory_needs_preconditions
                (with_root None (sample_env "git" None one_package "" true 0))
                args_plain "/home/user") as H.
  cbv zeta in H. destruct H as (_ & H & _). rewrite (H eq_refl). reflexivity.
Defined.

Lemma call_never_returns (m : M unit) c rc : result (call m c) <> Return rc.
Proof. unfold call. destruct (m c) as [[t c1] [[] | rc' | e]]; discriminate. Qed.

Lemma attempt_run E cwd tmp_dir args c :
  let inner := import_upstream E cwd tmp_dir args c in
  attempt E cwd tmp_dir args c
  = match result inner with
    | Next rc =>
        ((events inner ++ if succeeded rc then [Log LInfo happy_message] else [])%list,
         cwd_after inner, Return rc)
    | Return rc => (events inner, cwd_after inner, Return rc)
    | Raise e => (events inner, cwd_after inner, Raise e)
    end.
Proof.
  intros inner. unfold attempt, bind. fold inner.
  destruct inner as [[t c1] [rc | rc | e]]; try reflexivity.
  unfold events, cwd_after, result. cbn [fst snd].
  destruct rc as [[ | p | p] | ]; cbn; rewrite ?app_nil_r; reflexivity.
Qed.

(** X2.  A run of [main] that gets past its checks consists of the events of
    [import_upstream], the success message exactly when [import_upstream]
    returned [None] or 0, and the cleanup.  [main] returns what
    [import_upstream] returns and lets its exception through -- unless the
    checkout that restores the branch raises: then [main] raises
    [CalledProcessError], also after a successful import. *)
Theorem main_returns_what_import_upstream_returns E args c0 :
  get_root_result E <> None ->
  on_upstream (get_current_branch_result E) = false ->
  let tmp_dir := create_temporary_directory_path E in
  let current_branch := get_current_branch_result E in
  let inner := import_upstream E c0 tmp_dir args c0 in
  let said := match result inner with
              | Next rc => if succeeded rc then [Log LInfo happy_message] else []
              | _ => []
              end in
  events (main E args c0)
  = ([HandleGlobalArguments; GetRoot; GetCurrentBranch; CreateTemporaryDirectory tmp_dir]
       ++ events inner ++ said
       ++ ChDir c0 :: RmTree tmp_dir :: restore_events E c0 current_branch)%list
  /\ result (main E args c0)
     = if restore_raises E c0 current_branch then Raise CalledProcessError
       else result inner.
Proof.
  intros Hroot Hup tmp_dir current_branch inner.
  pose proof (preconditions_cases E c0) as Hpre.
  destruct (get_root_result E) as [root | ]; [ | contradiction ].
  rewrite Hup in Hpre. fold current_branch in Hpre.
  pose proof (call_never_returns (import_upstream_body E c0 tmp_dir args) c0) as Hnr.
  change (call (import_upstream_body E c0 tmp_dir args) c0) with inner in Hnr.
  unfold main, call. rewrite (bind_next _ _ _ _ _ _ Hpre).
  unfold create_temporary_directory, bind, emit, ret, getcwd. fold tmp_dir.
  unfold try_finally. rewrite attempt_run. fold inner.
  unfold cleanup, chdir, branch_exists, checkout, restore_events, restore_raises,
    bind, emit, ret, raise.
  destruct inner as [[t c1] [rc | rc | e]]; unfold events, cwd_after, result in *;
    cbn [fst snd] in *; [ | exfalso; exact (Hnr rc eq_refl) | ].
  - destruct current_branch as [b | ]; cbn [truthy].
    + destruct (negb (b =? "")); cbn [andb];
        [ destruct (branch_exists_result E b true c0); cbn [andb];
          [ destruct (checkout_ok E b (Some c0)) | ] | ];
        cbn; rewrite <- ?app_assoc; split; reflexivity.
    + cbn; rewrite <- ?app_assoc; split; reflexivity.
  - destruct current_branch as [b | ]; cbn [truthy].
    + destruct (negb (b =? "")); cbn [andb];
        [ destruct (branch_exists_result E b true c0); cbn [andb];
          [ destruct (checkout_ok E b (Some c0)) | ] | ];
        cbn; rewrite <- ?app_assoc, ?app_nil_r; split; reflexivity.
    + cbn; rewrite <- ?app_assoc, ?app_nil_r; split; reflexivity.
Qed.

(** [main] on the sample repository: the import succeeds and [main] returns
    [None]. *)
Lemma main_returns_what_import_upstream_returns_witness :
  result (main (sample_env "git" None one_package "upstream/0.9.0" true 0)
            args_plain "/home/user/release") = Next None.
Proof.
  pose proof (main_returns_what_import_upstream_returns
                (sample_env "git" None one_package "upstream/0.9.0" true 0)
                args_plain "/home/user/release" ltac:(discriminate) eq_refl) as H.
  cbv zeta in H. destruct H as [_ H]. rewrite H. reflexivity.
Defined.

(** ** [check_for_bloom] and [convert_catkin_to_bloom] *)

Lemma branch_absent_true_iff output branch :
  branch <> "" ->
  branch_absent output branch = true <-> forall pre post, output <> pre ++ branch ++ post.
Proof.
  intros Hb. pose proof (branch_absent_false_iff output branch Hb) as H.
  destruct (branch_absent output branch); split; intros H1; try reflexivity.
  - intros pre post Heq. assert (true = false) by (apply H; eauto). discriminate.
  - discriminate.
  - exfalso. destruct (proj1 H eq_refl) as (pre & post & Heq). exact (H1 pre post Heq).
Qed.

(** X3.  When neither [bloom] nor [catkin] occurs in the text that
    [git branch] prints, [check_for_bloom] rejects the repository at once:
    it logs the error and exits with 1 without trying a checkout or looking
    for [bloom.conf]. *)
Theorem check_for_bloom_rejects_foreign_repository E cwd c output :
  check_output_result E "git branch" cwd = Some output ->
  (forall pre post, output <> pre ++ "bloom" ++ post) ->
  (forall pre post, output <> pre ++ "catkin" ++ post) ->
  check_for_bloom E cwd c
  = ([CheckOutput "git branch" cwd; Log LError not_a_bloom_release_repo_message],
     c, Raise (SystemExit 1)).
Proof.
  intros Hout Hb Hc.
  apply branch_absent_true_iff in Hb; [ | discriminate ].
  apply branch_absent_true_iff in Hc; [ | discriminate ].
  unfold check_for_bloom, check_output, not_a_bloom_release_repo, error.
  unfold bind, emit, ret, raise, sys_exit. simp_run. rewrite Hout. simp_run.
  rewrite Hb, Hc. reflexivity.
Qed.

(** On a repository whose one branch is [master] the validation fails with
    exit code 1. *)
Lemma check_for_bloom_rejects_foreign_repository_witness :
  result (check_for_bloom
            (with_branches ("* master" ++ Py.nl) (sample_env "git" None one_package "" true 0))
            (Some "/tmp/scratch/bloom_clone") "/tmp/scratch/bloom_clone")
  = Raise (SystemExit 1).
Proof.
  rewrite (check_for_bloom_rejects_foreign_repository
             (with_branches ("* master" ++ Py.nl)
                (sample_env "git" None one_package "" true 0))
             (Some "/tmp/scratch/bloom_clone") "/tmp/scratch/bloom_clone"
             ("* master" ++ Py.nl) eq_refl).
  - reflexivity.
  - apply branch_absent_true_iff; [ discriminate | reflexivity ].
  - apply branch_absent_true_iff; [ discriminate | reflexivity ].
Defined.

(** Splits a list given by its elements into what comes before a given
    end. *)
Ltac split_end :=
  match goal with
  | |- exists t0, ?l = (t0 ++ ?suffix)%list =>
      exists (firstn (List.length l - List.length suffix) l); reflexivity
  end.

(** The same for an end of [n] elements that is not given yet. *)
Ltac split_end_with n :=
  match goal with
  | |- ?l = (_ ++ _)%list =>
      transitivity (firstn (List.length l - n) l ++ skipn (List.length l - n) l)%list;
      [ symmetry; apply firstn_skipn | cbn [List.length Nat.sub firstn skipn]; reflexivity ]
  end.

(** X4.  How [check_for_bloom] can end.  It never changes the working
    directory.  When it returns, its last two events are the checkout of
    [bloom] and the test for [bloom.conf], and both succeeded.  When it
    ends with an exception, that is: the exit with code 1 after the error
    message; the [CalledProcessError] of a git call, its last event (the
    query for the branches or a command of the conversion; that of the
    last checkout is turned into the exit); the [TypeError] of
    [os.path.join] in the conversion when no directory is given, after the
    branch was renamed and checked out; or the exception with which the
    reading or the writing of [bloom.conf] failed in the conversion. *)
Theorem check_for_bloom_outcomes E cwd c :
  let loc := match cwd with
             | Some d => Py.path_join d "bloom.conf"
             | None => "bloom.conf"
             end in
  let r := check_for_bloom E cwd c in
  cwd_after r = c
  /\ match result r with
     | Next _ =>
         checkout_ok E "bloom" cwd = true /\ path_exists E loc = true
         /\ exists t0, events r = (t0 ++ [GitCheckout "bloom" cwd; PathExists loc])%list
     | Return _ => False
     | Raise e =>
         (e = SystemExit 1
          /\ exists t0, events r = (t0 ++ [Log LError not_a_bloom_release_repo_message])%list)
         \/ (e = CalledProcessError
             /\ exists t0 last, events r = (t0 ++ [last])%list /\ is_git_call last = true)
         \/ (e = TypeError /\ cwd = None
             /\ exists t0, events r
                           = (t0 ++ [ExecuteCommand "git branch -m catkin bloom" None;
                                     GitCheckout "bloom" None])%list)
         \/ (read_file_outcome E loc = inl e
             /\ exists t0, events r = (t0 ++ [ReadFile loc])%list)
         \/ (exists text, write_file_outcome E loc text = Some e
                          /\ exists t0, events r = (t0 ++ [WriteFile loc text])%list)
     end.
Proof.
  intros loc r. split; [ apply check_for_bloom_keeps_cwd | ].
  subst r. unfold check_for_bloom, convert_catkin_to_bloom, check_output, checkout,
    execute_command, os_path_exists, os_path_join, read_file, write_file,
    not_a_bloom_release_repo, info, error, try_except_CalledProcessError.
  unfold bind, emit, ret, raise, sys_exit. fold loc.
  destruct (check_output_result E "git branch" cwd) as [output | ].
  2: { cbn. right. left. split; [ reflexivity | ]. exists [], (CheckOutput "git branch" cwd).
       split; reflexivity. }
  cbv beta iota.
  destruct (branch_absent output "bloom").
  - destruct (branch_absent output "catkin").
    + cbn. left. split; [ reflexivity | split_end ].
    + cbn [fst snd app].
      destruct (execute_command_ok E "git branch -m catkin bloom" cwd).
      2: { cbn. right. left. split; [ reflexivity | ]. do 2 eexists.
           split; [ split_end_with 1 | reflexivity ]. }
      destruct (checkout_after_rename_ok E).
      2: { cbn. right. left. split; [ reflexivity | ]. do 2 eexists.
           split; [ split_end_with 1 | reflexivity ]. }
      destruct cwd as [d | ].
      2: { cbn. right. right. left. split; [ reflexivity | split; [ reflexivity | ] ].
           split_end. }
      cbv beta iota. subst loc.
      destruct (path_exists E (Py.path_join d "catkin.conf"));
        [ destruct (execute_command_ok E "git mv catkin.conf bloom.conf" (Some d)) | ];
        (destruct (renamed_conf_exists E (Py.path_join d "bloom.conf"));
         [ destruct (read_file_outcome E (Py.path_join d "bloom.conf")) as [e | text] eqn:Hrd;
           [ | cbv beta iota;
               destruct (write_file_outcome E (Py.path_join d "bloom.conf")
                           (Py.replace text "[catkin]" "[bloom]")) as [e | ] eqn:Hwr;
               [ | destruct (execute_command_ok E "git add bloom.conf" (Some d));
                   [ destruct (execute_command_ok E
                                 ("git commit -m " ++ Py.dquote
                                  ++ "rename catkin.conf to bloom.conf" ++ Py.dquote)
                                 (Some d)) | ] ] ] | ]);
        try (destruct (checkout_ok E "bloom" (Some d)) eqn:Hco;
             [ destruct (path_exists E (Py.path_join d "bloom.conf")) eqn:Hpe | ]);
        cbn;
        first
          [ solve [ repeat split; try split_end ]
          | solve [ left; split; [ reflexivity | split_end ] ]
          | solve [ right; left; split; [ reflexivity | ]; do 2 eexists;
                    split; [ split_end_with 1 | reflexivity ] ]
          | solve [ right; right; right; left; split; [ reflexivity | split_end ] ]
          | solve [ right; right; right; right; eexists; split; [ exact Hwr | split_end ] ] ].
  - destruct (checkout_ok E "bloom" cwd) eqn:Hco;
      [ destruct (path_exists E loc) eqn:Hpe | ];
      cbn; first [ solve [ repeat split; try split_end ]
                 | solve [ left; split; [ reflexivity | split_end ] ] ].
Qed.

(** ** The rewriting of the configuration file *)

(** A text in which [old] does not occur is left as it is. *)
Lemma replace_from_absent old new s :
  Py.count_from old 0 s = 0%nat -> Py.replace_from old new 0 s = s.
Proof.
  induction s as [ | c s IH]; [ reflexivity | ].
  cbn [Py.count_from Py.replace_from].
  destruct (prefix old (String c s)); [ discriminate | ].
  intros H. rewrite (IH H). reflexivity.
Qed.

(** Before the first replacement the result is the text itself: a word
    without the character [[] is a prefix of the one exactly when it is a
    prefix of the other. *)
Lemma prefix_replace_from w s :
  (forall pre post, w <> pre ++ "[" ++ post) ->
  prefix w (Py.replace_from "[catkin]" "[bloom]" 0 s) = prefix w s.
Proof.
  revert w. induction s as [ | c s IH]; intros w Hw; [ reflexivity | ].
  cbn [Py.replace_from].
  destruct w as [ | x w];
    [ destruct (prefix "[catkin]" (String c s)); reflexivity | ].
  assert (Hx : x <> "["%char).
  { intros ->. apply (Hw "" w). reflexivity. }
  assert (Hw' : forall pre post, w <> pre ++ "[" ++ post).
  { intros pre post ->. apply (Hw (String x pre) post). reflexivity. }
  destruct (prefix "[catkin]" (String c s)) eqn:Hp.
  - destruct (prefix_split _ _ Hp) as (post & Heq). inversion Heq; subst.
    cbn. destruct (ascii_dec x "["); [ contradiction | reflexivity ].
  - cbn [prefix]. destruct (ascii_dec x c); [ apply IH, Hw' | reflexivity ].
Qed.

Lemma count_from_after_bloom w :
  Py.count_from "[catkin]" 0 ("[bloom]" ++ w) = Py.count_from "[catkin]" 0 w.
Proof. reflexivity. Qed.

(** After the replacement no [[catkin]] is left. *)
Lemma replace_from_leaves_none k s :
  Py.count_from "[catkin]" 0 (Py.replace_from "[catkin]" "[bloom]" k s) = 0%nat.
Proof.
  revert k. induction s as [ | c s IH]; intros k; [ reflexivity | ].
  cbn [Py.replace_from]. destruct k as [ | k]; [ | apply IH ].
  destruct (prefix "[catkin]" (String c s)) eqn:Hp.
  - rewrite count_from_after_bloom. apply IH.
  - cbn [Py.count_from].
    assert (Hq : prefix "[catkin]" (String c (Py.replace_from "[catkin]" "[bloom]" 0 s))
                 = false).
    { cbn [prefix] in Hp |- *. destruct (ascii_dec "[" c); [ | reflexivity ].
      rewrite prefix_replace_from; [ exact Hp | ].
      intros pre post Heq.
      assert (Hc : Py.count_from "[" 0 "catkin]" <> 0%nat).
      { rewrite Heq. apply count_from_occurrence; [ discriminate | lia ]. }
      apply Hc. reflexivity. }
    rewrite Hq. apply IH.
Qed.

(** X5.  Whatever [convert_catkin_to_bloom] writes, it writes to [bloom.conf]
    in the directory it was given, and the text is the text of that file
    with every [[catkin]] replaced by [[bloom]]: no [[catkin]] is left in
    it, and a file without [[catkin]] is written back unchanged. *)
Theorem conversion_rewrites_every_section E cwd c path content :
  In (WriteFile path content) (events (convert_catkin_to_bloom E cwd c)) ->
  (exists d, cwd = Some d /\ path = Py.path_join d "bloom.conf")
  /\ content = Py.replace (file_contents E path) "[catkin]" "[bloom]"
  /\ Py.count content "[catkin]" = 0%nat
  /\ (Py.count (file_contents E path) "[catkin]" = 0%nat -> content = file_contents E path).
Proof.
  intros Hin.
  assert (H : exists d, cwd = Some d /\ path = Py.path_join d "bloom.conf"
                        /\ content = Py.replace (file_contents E path) "[catkin]" "[bloom]").
  { revert Hin.
    unfold convert_catkin_to_bloom, execute_command, os_path_exists, os_path_join,
      read_file, write_file.
    unfold bind, emit, ret, raise.
    destruct (execute_command_ok E "git branch -m catkin bloom" cwd);
      [ destruct (checkout_after_rename_ok E);
        [ destruct cwd as [d | ];
          [ cbv beta iota;
            destruct (path_exists E (Py.path_join d "catkin.conf"));
            [ destruct (execute_command_ok E "git mv catkin.conf bloom.conf" (Some d)) | ];
            try (destruct (renamed_conf_exists E (Py.path_join d "bloom.conf"));
                 [ destruct (read_file_outcome E (Py.path_join d "bloom.conf"))
                     as [e | text] eqn:Hrd;
                   [ | cbv beta iota;
                       destruct (write_file_outcome E (Py.path_join d "bloom.conf")
                                   (Py.replace text "[catkin]" "[bloom]"));
                       [ | destruct (execute_command_ok E "git add bloom.conf" (Some d));
                           [ destruct (execute_command_ok E
                                         ("git commit -m " ++ Py.dquote
                                          ++ "rename catkin.conf to bloom.conf" ++ Py.dquote)
                                         (Some d)) | ] ] ] | ]) | ] | ] | ];
      unfold events; cbn [fst app In]; intros Hin;
      repeat (destruct Hin as [Hin | Hin];
              [ first [ discriminate Hin
                      | inversion Hin; subst; exists d; repeat split;
                        unfold file_contents; rewrite Hrd; reflexivity ] | ]);
      destruct Hin. }
  destruct H as (d & -> & Hp & Hc).
  split; [ exists d; split; [ reflexivity | exact Hp ] | ].
  split; [ exact Hc | ]. split.
  - rewrite Hc. apply replace_from_leaves_none.
  - intros Hnone. rewrite Hc. apply replace_from_absent. exact Hnone.
Qed.

(** The conversion on the sample repository, where [bloom.conf] has one
    section [[bloom]] already: the file is written back as it is. *)
Lemma conversion_rewrites_every_section_witness :
  Py.count ("[bloom]" ++ Py.nl) "[catkin]" = 0%nat.
Proof.
  refine (proj1 (proj2 (proj2
            (conversion_rewrites_every_section
               (sample_env "git" None one_package "" true 0)
               (Some "/tmp/scratch/bloom_clone") "/tmp/scratch/bloom_clone"
               "/tmp/scratch/bloom_clone/bloom.conf" ("[bloom]" ++ Py.nl) _)))).
  find_event.
Defined.

(** ** [parse_bloom_conf] *)

Lemma lstrip_head s :
  Py.lstrip s = "" \/ exists c t, Py.lstrip s = String c t /\ Py.is_space c = false.
Proof.
  induction s as [ | c s IH]; [ left; reflexivity | ].
  cbn [Py.lstrip]. destruct (Py.is_space c) eqn:Hc; [ exact IH | ].
  right. exists c, s. split; [ reflexivity | exact Hc ].
Qed.

Lemma rstrip_head c t :
  Py.is_space c = false -> exists t', Py.rstrip (String c t) = String c t'.
Proof.
  intros Hc. cbn [Py.rstrip]. rewrite Hc.
  destruct (Py.rstrip t); eexists; reflexivity.
Qed.

Lemma rstrip_idempotent s : Py.rstrip (Py.rstrip s) = Py.rstrip s.
Proof.
  induction s as [ | c s IH]; [ reflexivity | ].
  cbn [Py.rstrip]. destruct (Py.rstrip s) as [ | d r] eqn:Hr.
  - destruct (Py.is_space c) eqn:Hc; [ reflexivity | ].
    cbn [Py.rstrip]. rewrite Hc. reflexivity.
  - change (Py.rstrip (String c (String d r)))
      with (match Py.rstrip (String d r) with
            | EmptyString => if Py.is_space c then EmptyString else String c EmptyString
            | String _ _ as r0 => String c r0
            end).
    rewrite IH. reflexivity.
Qed.

(** [strip] gives a text that [strip] leaves as it is. *)
Lemma strip_idempotent s : Py.strip (Py.strip s) = Py.strip s.
Proof.
  unfold Py.strip. destruct (lstrip_head s) as [-> | (c & t & -> & Hc)]; [ reflexivity | ].
  destruct (rstrip_head c t Hc) as (t' & Ht). rewrite Ht.
  cbn [Py.lstrip]. rewrite Hc. rewrite <- Ht. apply rstrip_idempotent.
Qed.

(** X6.  [parse_bloom_conf] asks for the three keys in turn.  The upstream
    repository and the upstream type are required: when git has no value
    for one of them the function raises [CalledProcessError] at that query.
    The upstream branch is optional: without a value it is the empty
    string.  The three values come without white space around them. *)
Theorem parse_bloom_conf_outcomes E cwd c :
  let ask key := CheckOutput ("git config -f bloom.conf bloom." ++ key) cwd in
  let answer key := check_output_result E ("git config -f bloom.conf bloom." ++ key) cwd in
  parse_bloom_conf E cwd c
  = match answer "upstream" with
    | None => ([ask "upstream"], c, Raise CalledProcessError)
    | Some repo =>
        match answer "upstreamtype" with
        | None => ([ask "upstream"; ask "upstreamtype"], c, Raise CalledProcessError)
        | Some type =>
            ([ask "upstream"; ask "upstreamtype"; ask "upstreambranch"], c,
             Next (Py.strip repo, Py.strip type,
                   match answer "upstreambranch" with
                   | Some branch => Py.strip branch
                   | None => ""
                   end))
        end
    end
  /\ forall t c' repo type branch,
       parse_bloom_conf E cwd c = (t, c', Next (repo, type, branch)) ->
       Py.strip repo = repo /\ Py.strip type = type /\ Py.strip branch = branch.
Proof.
  intros ask answer.
  assert (Heq : parse_bloom_conf E cwd c
                = match answer "upstream" with
                  | None => ([ask "upstream"], c, Raise CalledProcessError)
                  | Some repo =>
                      match answer "upstreamtype" with
                      | None =>
                          ([ask "upstream"; ask "upstreamtype"], c, Raise CalledProcessError)
                      | Some type =>
                          ([ask "upstream"; ask "upstreamtype"; ask "upstreambranch"], c,
                           Next (Py.strip repo, Py.strip type,
                                 match answer "upstreambranch" with
                                 | Some branch => Py.strip branch
                                 | None => ""
                                 end))
                      end
                  end).
  { subst ask answer. unfold parse_bloom_conf, check_output, try_except_CalledProcessError.
    unfold bind, emit, ret, raise. cbv beta.
    change ("git config -f bloom.conf bloom." ++ "upstream")
      with "git config -f bloom.conf bloom.upstream".
    change ("git config -f bloom.conf bloom." ++ "upstreamtype")
      with "git config -f bloom.conf bloom.upstreamtype".
    change ("git config -f bloom.conf bloom." ++ "upstreambranch")
      with "git config -f bloom.conf bloom.upstreambranch".
    destruct (check_output_result E "git config -f bloom.conf bloom.upstream" cwd);
      [ | reflexivity ].
    destruct (check_output_result E "git config -f bloom.conf bloom.upstreamtype" cwd);
      [ | reflexivity ].
    destruct (check_output_result E "git config -f bloom.conf bloom.upstreambranch" cwd);
      reflexivity. }
  split; [ exact Heq | ].
  intros t c' repo type branch H. rewrite Heq in H.
  destruct (answer "upstream") as [r | ]; [ | discriminate H ].
  destruct (answer "upstreamtype") as [ty | ]; [ | discriminate H ].
  inversion H; subst.
  repeat split; try apply strip_idempotent.
  destruct (answer "upstreambranch"); [ apply strip_idempotent | reflexivity ].
Qed.

(** [parse_bloom_conf] on the sample repository, which has no upstream
    branch configured. *)
Lemma parse_bloom_conf_outcomes_witness :
  result (parse_bloom_conf (sample_env "git" None one_package "" true 0) None
            "/tmp/scratch/bloom_clone")
  = Next ("https://example.org/project", "git", "").
Proof.
  pose proof (parse_bloom_conf_outcomes (sample_env "git" None one_package "" true 0) None
                "/tmp/scratch/bloom_clone") as H.
  cbv zeta in H. destruct H as [H _].
  etransitivity; [ exact (f_equal result H) | reflexivity ].
Defined.

(** ** [get_upstream_meta] *)

Lemma verify_from_agree first_filename v packages :
  (forall p, In p packages -> pkg_version p = v) ->
  verify_from first_filename (Some v) packages = inr (Some v).
Proof.
  induction packages as [ | p rest IH]; intros H; [ reflexivity | ].
  cbn [verify_from]. rewrite (H p (or_introl eq_refl)), String.eqb_refl.
  apply IH. intros q Hq. apply H. right. exact Hq.
Qed.

Lemma verify_from_result first_filename v packages x :
  verify_from first_filename (Some v) packages = inr x ->
  x = Some v /\ forall p, In p packages -> pkg_version p = v.
Proof.
  induction packages as [ | p rest IH]; cbn [verify_from].
  - intros H. inversion H. split; [ reflexivity | intros p [] ].
  - destruct (pkg_version p =? v) eqn:Hp; [ | discriminate ].
    apply String.eqb_eq in Hp. intros H. destruct (IH H) as [Hx Hall].
    split; [ exact Hx | ]. intros q [<- | Hq]; [ exact Hp | exact (Hall q Hq) ].
Qed.

Lemma verify_from_error first_filename v packages e :
  verify_from first_filename (Some v) packages = inl e ->
  exists q,
    In q packages /\ pkg_version q <> v
    /\ e = RuntimeError (versions_differ_message (pkg_version q) v
                           (pkg_filename q) first_filename).
Proof.
  induction packages as [ | p rest IH]; cbn [verify_from]; [ discriminate | ].
  destruct (pkg_version p =? v) eqn:Hp.
  - intros H. destruct (IH H) as (q & Hq & Hne & He).
    exists q. repeat split; [ right; exact Hq | exact Hne | exact He ].
  - apply String.eqb_neq in Hp. intros H. inversion H.
    exists p. repeat split; [ left; reflexivity | exact Hp ].
Qed.

(** [verify_equal_package_versions] gives a version exactly when all the
    packages have it; otherwise it raises a [RuntimeError]. *)
Lemma verify_equal_package_versions_result p packages :
  match verify_equal_package_versions (p :: packages) with
  | inr x =>
      x = Some (pkg_version p)
      /\ forall q, In q (p :: packages) -> pkg_version q = pkg_version p
  | inl (RuntimeError _) => exists q, In q packages /\ pkg_version q <> pkg_version p
  | inl _ => False
  end.
Proof.
  unfold verify_equal_package_versions. cbn [verify_from].
  destruct (verify_from (pkg_filename p) (Some (pkg_version p)) packages) as [e | x] eqn:Hv.
  - destruct (verify_from_error _ _ _ _ Hv) as (q & Hq & Hne & ->).
    exists q. split; assumption.
  - destruct (verify_from_result _ _ _ _ Hv) as [Hx Hall].
    split; [ exact Hx | ]. intros q [<- | Hq]; [ reflexivity | exact (Hall q Hq) ].
Qed.

(** X7.  How [get_upstream_meta] can end.  It returns only in two ways: with
    the type [package.xml], when packages were found and all have the
    version it returns, the names being those of the packages in their
    order; or with the type [stack.xml], when no package was found, [rospkg]
    is there, [stack.xml] exists and was parsed.  It exits with code 1 after
    an error message in the other cases it provides for.  An exception that
    [find_packages] or [parse_stack_file] raises is not caught: it leaves
    the function, the call being the last event.  When packages are found
    the function never looks at [stack.xml]. *)
Theorem get_upstream_meta_outcomes E upstream_dir c :
  let r := get_upstream_meta E upstream_dir c in
  let stack_path := Py.path_join upstream_dir "stack.xml" in
  match result r with
  | Next meta =>
      has_catkin_pkg E = true
      /\ ((exists packages,
             find_packages_outcome E upstream_dir = inr packages
             /\ packages <> []
             /\ meta_type meta = "package.xml"
             /\ meta_names meta = NameList (map (fun p => pkg_name (snd p)) packages)
             /\ exists v, meta_version meta = Some v
                          /\ forall p, In p packages -> pkg_version (snd p) = v)
          \/ (find_packages_outcome E upstream_dir = inr []
              /\ has_rospkg E = true /\ path_exists E stack_path = true
              /\ exists stack,
                   parse_stack_file_outcome E stack_path = inr stack
                   /\ meta = mkMeta (NameList [stack_name stack]) (stack_version stack)
                                    "stack.xml"))
  | Return _ => False
  | Raise e =>
      (e = SystemExit 1 /\ exists t0 msg, events r = (t0 ++ [Log LError msg])%list)
      \/ (find_packages_outcome E upstream_dir = inl e
          /\ exists t0, events r = (t0 ++ [FindPackages upstream_dir])%list)
      \/ (parse_stack_file_outcome E stack_path = inl e
          /\ exists t0, events r = (t0 ++ [ParseStackFile stack_path])%list)
  end
  /\ (forall packages,
        find_packages_outcome E upstream_dir = inr packages -> packages <> [] ->
        forall e, In e (events r) ->
                  e <> PathExists stack_path /\ e <> ParseStackFile stack_path).
Proof.
  intros r stack_path. subst r.
  unfold get_upstream_meta, find_packages, os_path_exists, parse_stack_file, info, error.
  unfold bind, emit, ret, raise, sys_exit. fold stack_path.
  destruct (has_catkin_pkg E).
  2: { cbn. split; [ left; split; [ reflexivity | do 2 eexists; split_end_with 1 ] | ].
       intros _ _ _ e He. repeat (destruct He as [<- | He]; [ split; discriminate | ]).
       destruct He. }
  cbv beta iota.
  destruct (find_packages_outcome E upstream_dir) as [e | [ | p rest]] eqn:Hp.
  - cbn. split; [ right; left; split; [ reflexivity | split_end ] | ].
    intros _ _ _ x He. repeat (destruct He as [<- | He]; [ split; discriminate | ]).
    destruct He.
  - split; [ | intros packages Heq H; inversion Heq; subst; contradiction ].
    destruct (has_rospkg E); [ destruct (path_exists E stack_path) | ].
    + cbv beta iota.
      destruct (parse_stack_file_outcome E stack_path) as [e | stack] eqn:Hs; cbn.
      * right. right. split; [ reflexivity | split_end ].
      * split; [ reflexivity | right; repeat split ].
        exists stack. split; reflexivity.
    + cbn. left. split; [ reflexivity | do 2 eexists; split_end_with 1 ].
    + cbn. left. split; [ reflexivity | do 2 eexists; split_end_with 1 ].
  - pose proof (verify_equal_package_versions_result (snd p) (map snd rest)) as Hv.
    cbv beta iota.
    change (map snd (p :: rest)) with (snd p :: map snd rest).
    destruct (verify_equal_package_versions (snd p :: map snd rest)) as [[] | x];
      try contradiction.
    + cbn. split; [ left; split; [ reflexivity | do 2 eexists; split_end_with 1 ] | ].
      intros _ _ _ e He. repeat (destruct He as [<- | He]; [ split; discriminate | ]).
      destruct He.
    + destruct Hv as [-> Hall]. cbn.
      split.
      * split; [ reflexivity | left ]. exists (p :: rest).
        split; [ reflexivity | ].
        split; [ discriminate | ]. split; [ reflexivity | ]. split; [ reflexivity | ].
        exists (pkg_version (snd p)). split; [ reflexivity | ].
        intros q Hq. apply Hall. change (snd p :: map snd rest) with (map snd (p :: rest)).
        apply in_map, Hq.
      * intros _ _ _ e He. repeat (destruct He as [<- | He]; [ split; discriminate | ]).
        destruct He.
Qed.

(** [get_upstream_meta] on the sample repository with its one package:
    [stack.xml] is not looked for. *)
Lemma get_upstream_meta_outcomes_witness :
  ~ In (PathExists "/tmp/scratch/upstream/stack.xml")
       (events (get_upstream_meta (sample_env "git" None one_package "" true 0)
                  "/tmp/scratch/upstream" "/tmp/scratch/bloom_clone")).
Proof.
  pose proof (get_upstream_meta_outcomes (sample_env "git" None one_package "" true 0)
                "/tmp/scratch/upstream" "/tmp/scratch/bloom_clone") as H.
  cbv zeta in H. destruct H as [_ H].
  intros Hin. destruct (H one_package eq_refl ltac:(discriminate) _ Hin) as [Hne _].
  apply Hne. reflexivity.
Defined.

(** ** More on the version guard *)

(** X8.  In every run that reaches the version guard and finds a prior tag
    whose version is less than the new version, the guard says nothing but
    the note of the last tag -- no warning, no question about replacement,
    no command -- and the run goes on with the import, whatever the command
    line. *)
Theorem newer_version_passes_silently
    E cwd tmp_dir args c0 t1 c1 clone version tarball a b c v w :
  before_guard E cwd tmp_dir args c0 = (t1, c1, Next (clone, version, tarball)) ->
  get_last_tag_by_date_result E <> "" ->
  get_versions_from_upstream_tag E (get_last_tag_by_date_result E) = inr [a; b; c] ->
  Py.parse version = Some v ->
  Py.parse (Py.join "." [a; b; c]) = Some w ->
  Py.cmp v w = Gt ->
  let rest := continue_with_import E clone args tarball c1 in
  import_upstream E cwd tmp_dir args c0
  = ((t1 ++ guard_head E ++ events rest)%list, cwd_after rest, result rest).
Proof.
  intros Hrun Htag Hseg Hv Hw Hcmp rest.
  rewrite (run_through_guard E _ _ _ _ _ _ _ _ _ Hrun).
  rewrite (version_guard_with_tag E args version c1 _ _ _ _ _ Htag Hseg Hv Hw).
  unfold Py.lt, Py.le. rewrite Hcmp. rewrite app_nil_r. reflexivity.
Qed.

(** On the sample repository with the last tag [upstream/0.9.0] and the
    upstream version 1.0.0 the run succeeds. *)
Lemma newer_version_passes_silently_witness :
  let cwd := "/home/user/release" in
  result (import_upstream (sample_env "git" None one_package "upstream/0.9.0" true 0)
            cwd "/tmp/scratch" args_plain cwd) = Next None.
Proof.
  intros cwd.
  pose proof (newer_version_passes_silently
                (sample_env "git" None one_package "upstream/0.9.0" true 0)
                cwd "/tmp/scratch" args_plain cwd _ _ _ _ _ "0" "9" "0"
                (Py.mkStrictVersion (1, 0, 0)%N None) (Py.mkStrictVersion (0, 9, 0)%N None)
                eq_refl ltac:(discriminate) eq_refl eq_refl eq_refl eq_refl) as H.
  cbv zeta in H. etransitivity; [ exact (f_equal result H) | reflexivity ].
Defined.

(** X9.  In every run that reaches the version guard, finds a prior tag with
    the version of the new version and was not asked to replace, the guard
    only warns that git-buildpackage will fail: it does not ask whether
    replacement is supported, and the run goes on with the import; no tag
    is deleted in the run. *)
Theorem collision_without_replace_only_warns
    E cwd tmp_dir args c0 t1 c1 clone version tarball a b c v w :
  before_guard E cwd tmp_dir args c0 = (t1, c1, Next (clone, version, tarball)) ->
  get_last_tag_by_date_result E <> "" ->
  get_versions_from_upstream_tag E (get_last_tag_by_date_result E) = inr [a; b; c] ->
  Py.parse version = Some v ->
  Py.parse (Py.join "." [a; b; c]) = Some w ->
  Py.cmp v w = Eq ->
  replace args = false ->
  let rest := continue_with_import E clone args tarball c1 in
  let r := import_upstream E cwd tmp_dir args c0 in
  r = ((t1 ++ (guard_head E ++ [Log LWarning (collision_warning version)])
           ++ events rest)%list,
       cwd_after rest, result rest)
  /\ forall e, In e (events r) -> is_tag_delete e = false.
Proof.
  intros Hrun Htag Hseg Hv Hw Hcmp Hrep rest r.
  assert (Hr : r = ((t1 ++ (guard_head E ++ [Log LWarning (collision_warning version)])
                        ++ events rest)%list,
                    cwd_after rest, result rest)).
  { subst r. rewrite (run_through_guard E _ _ _ _ _ _ _ _ _ Hrun).
    rewrite (version_guard_with_tag E args version c1 _ _ _ _ _ Htag Hseg Hv Hw).
    unfold Py.lt, Py.le. rewrite Hcmp, Hrep. rewrite app_nil_r. reflexivity. }
  split; [ exact Hr | ].
  rewrite Hr. unfold events at 1. cbn [fst]. intros e Hin.
  apply in_app_or in Hin. destruct Hin as [Hin | Hin].
  - apply (before_guard_keeps_tags E cwd tmp_dir args c0). rewrite Hrun. exact Hin.
  - apply in_app_or in Hin. destruct Hin as [Hin | Hin].
    + cbn in Hin. intuition (subst; reflexivity).
    + exact (continue_with_import_keeps_tags _ _ _ _ _ _ Hin).
Qed.

(** On the sample repository with the last tag [upstream/1.0.0] and the
    upstream version 1.0.0, without [--replace]: no tag is deleted. *)
Lemma collision_without_replace_only_warns_witness :
  let cwd := "/home/user/release" in
  forallb (fun e => negb (is_tag_delete e))
    (events (import_upstream (sample_env "git" None one_package "upstream/1.0.0" true 0)
               cwd "/tmp/scratch" args_plain cwd)) = true.
Proof.
  intros cwd.
  pose proof (collision_without_replace_only_warns
                (sample_env "git" None one_package "upstream/1.0.0" true 0)
                cwd "/tmp/scratch" args_plain cwd _ _ _ _ _ "1" "0" "0"
                (Py.mkStrictVersion (1, 0, 0)%N None) (Py.mkStrictVersion (1, 0, 0)%N None)
                eq_refl ltac:(discriminate) eq_refl eq_refl eq_refl eq_refl eq_refl) as H.
  cbv zeta in H. destruct H as [_ H].
  apply forallb_forall. intros e He. apply negb_true_iff. exact (H e He).
Defined.

(** X10.  A run deletes a tag only on request: every deletion of a tag in a
    run of [import_upstream] is the local or the remote deletion of the
    last tag, and it happens only when [--replace] was given,
    git-buildpackage supports the replacement and the repository has a last
    tag. *)
Theorem tag_deletion_needs_replace E cwd tmp_dir args c0 e :
  In e (events (import_upstream E cwd tmp_dir args c0)) ->
  is_tag_delete e = true ->
  let last_tag := get_last_tag_by_date_result E in
  replace args = true /\ has_replace_result E = true /\ last_tag <> ""
  /\ (e = ExecuteCommand ("git tag -d " ++ last_tag) None
      \/ e = ExecuteCommand ("git push origin :refs/tags/" ++ last_tag) None).
Proof.
  intros Hin Hdel last_tag.
  pose proof (import_upstream_replaces E cwd tmp_dir args) as Hall.
  pose proof (emits_only_In _ _ c0 e Hall Hin) as H.
  unfold is_replacement in H. rewrite Hdel in H.
  repeat (apply andb_true_iff in H; destruct H as [H ?]).
  subst last_tag.
  split; [ assumption | split; [ assumption | split ] ].
  - apply String.eqb_neq, negb_true_iff. assumption.
  - destruct e; try discriminate. destruct cwd0; try discriminate.
    match goal with
    | Hc : _ || _ = true |- _ =>
        apply orb_true_iff in Hc; destruct Hc as [Hc | Hc];
        apply String.eqb_eq in Hc; subst; [ left | right ]; reflexivity
    end.
Qed.

(** On the sample repository with the last tag [upstream/1.0.0], the
    upstream version 1.0.0 and [--replace], the local deletion of the tag
    is one of the two. *)
Lemma tag_deletion_needs_replace_witness :
  replace args_replace = true
  /\ has_replace_result (sample_env "git" None one_package "upstream/1.0.0" true 0) = true.
Proof.
  pose proof (tag_deletion_needs_replace
                (sample_env "git" None one_package "upstream/1.0.0" true 0)
                "/home/user/release" "/tmp/scratch" args_replace "/home/user/release"
                (ExecuteCommand "git tag -d upstream/1.0.0" None)) as H.
  cbv zeta in H. destruct H as (H1 & H2 & _); [ find_event | reflexivity | ].
  split; [ exact H1 | exact H2 ].
Defined.

(** ** Tags with numeric version elements *)

Lemma span_digits_number d r :
  only_digits d = true ->
  (forall c s, r = String c s -> Py.is_digit c = false) ->
  Py.span_digits (d ++ r) = (d, r).
Proof.
  intros Hd Hr. induction d as [ | c d IH].
  - cbn. destruct r as [ | c s]; [ reflexivity | ].
    cbn [Py.span_digits]. rewrite (Hr c s eq_refl). reflexivity.
  - cbn in Hd. apply andb_true_iff in Hd. destruct Hd as [Hc Hd].
    change (String c d ++ r) with (String c (d ++ r)).
    cbn [Py.span_digits]. rewrite Hc, (IH Hd). reflexivity.
Qed.

Lemma parse_number_number d r :
  is_number d = true ->
  (forall c s, r = String c s -> Py.is_digit c = false) ->
  Py.parse_number (d ++ r) = Some (Py.int d, r).
Proof.
  unfold is_number. intros Hd Hr. apply andb_true_iff in Hd. destruct Hd as [Hne Hd].
  unfold Py.parse_number. rewrite (span_digits_number d r Hd Hr).
  apply negb_true_iff in Hne. rewrite Hne. reflexivity.
Qed.

(** Three numbers joined by dots are a strict version. *)
Lemma parse_three_numbers a b c :
  is_number a = true -> is_number b = true -> is_number c = true ->
  Py.parse (Py.join "." [a; b; c])
  = Some (Py.mkStrictVersion (Py.int a, Py.int b, Py.int c) None).
Proof.
  intros Ha Hb Hc.
  change (Py.join "." [a; b; c]) with (a ++ String "." (b ++ String "." c)).
  unfold Py.parse.
  rewrite (parse_number_number a (String "." (b ++ String "." c)) Ha).
  2: { intros x s H. inversion H. reflexivity. }
  rewrite (parse_number_number b (String "." c) Hb).
  2: { intros x s H. inversion H. reflexivity. }
  unfold Py.parse_patch.
  assert (Hcn : Py.parse_number c = Some (Py.int c, "")).
  { pose proof (parse_number_number c "" Hc) as H.
    replace (c ++ "") with c in H.
    - apply H. intros x s Hx. discriminate Hx.
    - clear. induction c as [ | x c IH]; [ reflexivity | cbn; rewrite <- IH; reflexivity ]. }
  rewrite Hcn. reflexivity.
Qed.

Lemma cmp_refl v : Py.cmp v v = Eq.
Proof.
  destruct v as [[[a b] c] pre]. unfold Py.cmp, Py.cmp_tuple. cbn.
  rewrite !N.compare_refl. destruct pre as [[l n] | ]; [ | reflexivity ].
  unfold Py.cmp_prerelease. cbn. rewrite !N.compare_refl. reflexivity.
Qed.

(** X11.  When the three version elements of the last tag are numbers, their
    join is a strict version, so that the guard can raise the [ValueError]
    only for the new version; and an upstream version that is that same
    text collides with the tag: without [--replace] the guard emits the
    collision warning and the run goes on with the import. *)
Theorem tagged_version_collides
    E cwd tmp_dir args c0 t1 c1 clone version tarball a b c :
  before_guard E cwd tmp_dir args c0 = (t1, c1, Next (clone, version, tarball)) ->
  get_last_tag_by_date_result E <> "" ->
  get_versions_from_upstream_tag E (get_last_tag_by_date_result E) = inr [a; b; c] ->
  is_number a = true -> is_number b = true -> is_number c = true ->
  Py.parse (Py.join "." [a; b; c])
  = Some (Py.mkStrictVersion (Py.int a, Py.int b, Py.int c) None)
  /\ (version = Py.join "." [a; b; c] -> replace args = false ->
      let rest := continue_with_import E clone args tarball c1 in
      import_upstream E cwd tmp_dir args c0
      = ((t1 ++ (guard_head E ++ [Log LWarning (collision_warning version)])
             ++ events rest)%list,
         cwd_after rest, result rest)).
Proof.
  intros Hrun Htag Hseg Ha Hb Hc.
  pose proof (parse_three_numbers a b c Ha Hb Hc) as Hp.
  split; [ exact Hp | ].
  intros Hv Hrep rest.
  rewrite (run_through_guard E _ _ _ _ _ _ _ _ _ Hrun).
  rewrite <- Hv in Hp.
  assert (Hw : Py.parse (Py.join "." [a; b; c])
               = Some (Py.mkStrictVersion (Py.int a, Py.int b, Py.int c) None))
    by (rewrite <- Hv; exact Hp).
  rewrite (version_guard_with_tag E args version c1 _ _ _ _ _ Htag Hseg Hp Hw).
  unfold Py.lt, Py.le. rewrite cmp_refl, Hrep, app_nil_r. reflexivity.
Qed.

(** On the sample repository with the last tag [upstream/1.0.0] and the
    upstream version 1.0.0 the version of the tag is the strict version
    (1, 0, 0). *)
Lemma tagged_version_collides_witness :
  Py.parse "1.0.0" = Some (Py.mkStrictVersion (1, 0, 0)%N None).
Proof.
  pose proof (tagged_version_collides
                (sample_env "git" None one_package "upstream/1.0.0" true 0)
                "/home/user/release" "/tmp/scratch" args_plain "/home/user/release"
                _ _ _ _ _ "1" "0" "0" eq_refl ltac:(discriminate) eq_refl
                eq_refl eq_refl eq_refl) as H.
  exact (proj1 H).
Defined.

(** ** Failures and the order of a run *)

(** X12.  When the setup succeeds and the checkout of the upstream repository
    fails, [import_upstream] returns 1 at once, after an error that names
    the url (and, unless the upstream is a subversion repository, the
    branch).  For an upstream that is not a subversion repository the
    checkout is of the configured url itself, at the branch in effect. *)
Theorem failed_checkout_ends_run E cwd tmp_dir args c0 t1 c1 clone repo type ver :
  clone_and_configure E cwd tmp_dir args c0 = (t1, c1, Next (clone, repo, type, ver)) ->
  let dir := Py.path_join tmp_dir "upstream" in
  let branch := effective_branch ver in
  let url := fst (checkout_target repo type branch) in
  let cver := snd (checkout_target repo type branch) in
  vcs_checkout_ok E type dir url cver = false ->
  (exists dbg,
      import_upstream E cwd tmp_dir args c0
      = ((t1 ++ [Log LDebug dbg; VcsCheckout type dir url cver;
                 Log LError
                   (if type =? "svn"
                    then "Could not checkout upstream repostiory (" ++ url ++ ")"
                    else "Could not checkout upstream repostiory (" ++ url ++ ")"
                         ++ " to branch (" ++ branch ++ ")")])%list,
         c1, Next (Some 1%Z)))
  /\ ((type =? "svn") = false -> url = repo /\ cver = branch).
Proof.
  intros Hcc dir branch url cver Hfail. split.
  - unfold import_upstream, call, import_upstream_body, before_guard, bind.
    rewrite Hcc.
    unfold checkout_upstream, vcs_checkout, debug, error, bind, emit, ret, return_.
    fold dir branch. subst url cver.
    destruct (checkout_target repo type branch) as [u v]. cbn [fst snd] in *.
    rewrite Hfail.
    destruct (type =? "svn"); cbn; eexists; reflexivity.
  - intros Hsvn. subst url cver. unfold checkout_target. rewrite Hsvn.
    split; reflexivity.
Qed.

(** The sample repository when no checkout succeeds: the run returns 1. *)
Lemma failed_checkout_ends_run_witness :
  result (import_upstream (without_checkouts (sample_env "git" None one_package "" true 0))
            "/home/user/release" "/tmp/scratch" args_plain "/home/user/release")
  = Next (Some 1%Z).
Proof.
  pose proof (failed_checkout_ends_run
                (without_checkouts (sample_env "git" None one_package "" true 0))
                "/home/user/release" "/tmp/scratch" args_plain "/home/user/release"
                _ _ _ _ _ _ eq_refl eq_refl) as H.
  cbv zeta in H. destruct H as [(dbg & H) _].
  etransitivity; [ exact (f_equal result H) | reflexivity ].
Defined.

(** The export: when it succeeds, the tarball is named after the version
    and was exported by a call that succeeded. *)
Lemma export_tarball_next E tmp_dir repo type dir name version c t c' tarball_path :
  export_tarball E tmp_dir repo type dir name version c = (t, c', Next tarball_path) ->
  tarball_path = Py.path_join tmp_dir ("upstream-" ++ version)
  /\ exists vcs path ver,
       In (VcsExport vcs path ver tarball_path) t
       /\ vcs_export_ok E vcs path ver tarball_path = true.
Proof.
  unfold export_tarball, vcs_checkout, vcs_export, info, warning, error.
  unfold bind, emit, ret, return_.
  set (tp := Py.path_join tmp_dir ("upstream-" ++ version)).
  destruct (type =? "svn").
  - destruct (vcs_checkout_ok E "svn" _ (repo ++ "/tags/" ++ version) "");
      [ | destruct (vcs_checkout_ok E "svn" _ (repo ++ "/tags/" ++ name ++ "-" ++ version) "") ];
      cbn [negb]; cbv beta iota;
      try (destruct (vcs_export_ok E "svn" (Py.path_join tmp_dir "svn_tag") "" tp) eqn:Hex);
      cbn; intros H; inversion H; subst;
      (split; [ reflexivity | ]);
      exists "svn", (Py.path_join tmp_dir "svn_tag"), "";
      (split; [ | exact Hex ]); cbn; tauto.
  - cbv beta iota.
    destruct (vcs_export_ok E type dir version tp) eqn:Hex;
      cbn; intros H; inversion H; subst.
    split; [ reflexivity | ].
    exists type, dir, version. split; [ cbn; tauto | exact Hex ].
Qed.

Lemma before_guard_tarball E cwd tmp_dir args c t c' clone version tarball_path :
  before_guard E cwd tmp_dir args c = (t, c', Next (clone, version, tarball_path)) ->
  tarball_path = Py.path_join tmp_dir ("upstream-" ++ version)
  /\ exists vcs path ver,
       In (VcsExport vcs path ver tarball_path) t
       /\ vcs_export_ok E vcs path ver tarball_path = true.
Proof.
  unfold before_guard. intros H.
  apply bind_next_inv in H. destruct H as (t1 & c1 & conf & t2 & Hcc & H & ->).
  destruct conf as [[[clone' repo] type] ver].
  apply bind_next_inv in H. destruct H as (t3 & c3 & dir & t4 & Hco & H & ->).
  apply bind_next_inv in H. destruct H as (t5 & c5 & [name version'] & t6 & Hrm & H & ->).
  apply bind_next_inv in H. destruct H as (t7 & c7 & tp & t8 & Hex & H & ->).
  unfold ret in H. injection H as Ht8 Hc7 Hcl Hv Htp. subst.
  apply export_tarball_next in Hex. destruct Hex as (Htp & vcs & path & ver' & Hin & Hok).
  split; [ exact Htp | ].
  exists vcs, path, ver'. split; [ | exact Hok ].
  apply in_or_app. right. apply in_or_app. right. apply in_or_app. right.
  apply in_or_app. left. exact Hin.
Qed.

(** X13.  git-import-orig is only called on what the run exported: every call
    of it in a run comes after an export that succeeded, of a tarball named
    [upstream-<version>] in the scratch directory, is given that path with
    [.tar.gz] added, and is given the [--interactive] and [--merge] flags
    of the command line. *)
Theorem import_is_of_the_exported_tarball E cwd tmp_dir args c0 tarball i m :
  let r := import_upstream E cwd tmp_dir args c0 in
  In (ImportOrig tarball i m) (events r) ->
  i = interactive args /\ m = merge args
  /\ exists version vcs path ver before after,
       let tarball_path := Py.path_join tmp_dir ("upstream-" ++ version) in
       tarball = tarball_path ++ ".tar.gz"
       /\ events r = (before ++ ImportOrig tarball i m :: after)%list
       /\ In (VcsExport vcs path ver tarball_path) before
       /\ vcs_export_ok E vcs path ver tarball_path = true.
Proof.
  intros r Hin.
  destruct (import_upstream_through_guard E cwd tmp_dir args c0) as [Hev | Hrun];
    fold r in Hev || fold r in Hrun.
  { rewrite forallb_forall in Hev. apply Hev in Hin. discriminate Hin. }
  destruct Hrun as (t1 & c1 & clone & version & tp & t2 & c2 & gbp
                    & Hbg & Hg & -> & Hev & Hr).
  apply before_guard_tarball in Hbg. destruct Hbg as (Htp & vcs & path & ver & Hex & Hok).
  destruct (import_and_push_cases E clone args tp c1) as (t3 & Hev3 & Hcases).
  cbv zeta in Hcases, Hr. unfold continue_with_import, call in Hr.
  assert (Hev13 : forall e, In e ((t1 ++ t2) ++ t3)%list -> up_to 3 e = true).
  { intros e He. apply in_app_or in He. rewrite forallb_forall in Hev, Hev3.
    destruct He; auto. }
  destruct Hcases as [(e & Hraise) | Hcases].
  { rewrite Hraise in Hr. cbn in Hr. rewrite Hr in Hin. cbn in Hin.
    rewrite app_assoc in Hin. apply Hev13 in Hin. discriminate Hin. }
  set (io := ImportOrig (tp ++ ".tar.gz") (interactive args) (merge args)) in *.
  assert (Hio : ImportOrig tarball i m = io
                /\ exists after, events r = (((t1 ++ t2) ++ t3) ++ io :: after)%list).
  { rewrite Hcases in Hr. rewrite Hr in Hin. rewrite Hr. clear Hr Hcases.
    destruct (import_orig_result E _ _ _ =? 0)%Z;
      [ destruct (execute_command_ok E "git push --all -f" None);
        [ destruct (execute_command_ok E "git push --tags" None) | ] | ];
      unfold events in Hin |- *; cbn [fst snd] in Hin |- *;
      rewrite !app_assoc in Hin; rewrite !app_assoc;
      (split; [ | eexists; reflexivity ]);
      apply in_app_or in Hin; destruct Hin as [Hin | Hin];
      try (apply Hev13 in Hin; discriminate Hin);
      repeat (destruct Hin as [Hin | Hin];
              [ first [ discriminate Hin | symmetry; exact Hin ] | ]);
      destruct Hin. }
  destruct Hio as [Hio (after & Hevents)]. subst io. inversion Hio; subst tarball i m.
  split; [ reflexivity | split; [ reflexivity | ] ].
  exists version, vcs, path, ver, ((t1 ++ t2) ++ t3)%list, after.
  cbv zeta. rewrite <- Htp.
  split; [ reflexivity | split; [ exact Hevents | split; [ | exact Hok ] ] ].
  apply in_or_app. left. apply in_or_app. left. exact Hex.
Qed.

(** On the sample repository the import is of
    [/tmp/scratch/upstream-1.0.0.tar.gz], without the two flags. *)
Lemma import_is_of_the_exported_tarball_witness :
  false = interactive args_plain /\ false = merge args_plain.
Proof.
  pose proof (import_is_of_the_exported_tarball
                (sample_env "git" None one_package "" true 0)
                "/home/user/release" "/tmp/scratch" args_plain "/home/user/release"
                "/tmp/scratch/upstream-1.0.0.tar.gz" false false) as H.
  cbv zeta in H. destruct H as (H1 & H2 & _); [ find_event | ].
  split; [ exact H1 | exact H2 ].
Defined.

(** X14.  A run pushes only what was imported: every push of the branches or
    of the tags in a run comes after a call of git-import-orig that gave
    zero. *)
Theorem push_needs_successful_import E cwd tmp_dir args c0 e :
  let r := import_upstream E cwd tmp_dir args c0 in
  In e (events r) -> is_push e = true ->
  exists tarball i m before after,
    events r = (before ++ ImportOrig tarball i m :: after)%list
    /\ In e after
    /\ import_orig_result E tarball i m = 0%Z.
Proof.
  intros r Hin Hpush.
  destruct (import_upstream_through_guard E cwd tmp_dir args c0) as [Hev | Hrun];
    fold r in Hev || fold r in Hrun.
  { rewrite forallb_forall in Hev. apply Hev, up_to_3_is_no_push in Hin. congruence. }
  destruct Hrun as (t1 & c1 & clone & version & tp & t2 & c2 & gbp
                    & Hbg & Hg & -> & Hev & Hr).
  destruct (import_and_push_cases E clone args tp c1) as (t3 & Hev3 & Hcases).
  cbv zeta in Hcases, Hr. unfold continue_with_import, call in Hr.
  assert (Hev13 : forall x, In x ((t1 ++ t2) ++ t3)%list -> is_push x = false).
  { intros x He. apply up_to_3_is_no_push. apply in_app_or in He.
    rewrite forallb_forall in Hev, Hev3. destruct He; auto. }
  destruct Hcases as [(x & Hraise) | Hcases].
  { rewrite Hraise in Hr. cbn in Hr. rewrite Hr in Hin. cbn in Hin.
    rewrite app_assoc in Hin. apply Hev13 in Hin. congruence. }
  set (tarball := tp ++ ".tar.gz") in *.
  exists tarball, (interactive args), (merge args), ((t1 ++ t2) ++ t3)%list.
  rewrite Hcases in Hr. rewrite Hr in Hin. rewrite Hr. clear Hr Hcases.
  destruct (import_orig_result E tarball (interactive args) (merge args) =? 0)%Z eqn:Hrc.
  - apply Z.eqb_eq in Hrc.
    destruct (execute_command_ok E "git push --all -f" None);
      [ destruct (execute_command_ok E "git push --tags" None) | ];
      unfold events in Hin |- *; cbn [fst snd] in Hin |- *;
      rewrite !app_assoc in Hin; rewrite !app_assoc;
      eexists; (split; [ reflexivity | split; [ | exact Hrc ] ]);
      apply in_app_or in Hin; destruct Hin as [Hin | Hin];
      try (apply Hev13 in Hin; congruence);
      (destruct Hin as [Hin | Hin]; [ subst e; discriminate Hpush | exact Hin ]).
  - unfold events in Hin. cbn [fst snd] in Hin.
    rewrite !app_assoc in Hin. apply in_app_or in Hin. destruct Hin as [Hin | Hin].
    + apply Hev13 in Hin. congruence.
    + destruct Hin as [Hin | []]. subst e. discriminate Hpush.
Qed.

(** On the sample repository the push of the tags comes after a call of
    git-import-orig. *)
Lemma push_needs_successful_import_witness :
  existsb is_import_orig
    (events (import_upstream (sample_env "git" None one_package "" true 0)
               "/home/user/release" "/tmp/scratch" args_plain "/home/user/release"))
  = true.
Proof.
  pose proof (push_needs_successful_import
                (sample_env "git" None one_package "" true 0)
                "/home/user/release" "/tmp/scratch" args_plain "/home/user/release"
                (ExecuteCommand "git push --tags" None)) as H.
  cbv zeta in H. destruct H as (tb & i & m & before & after & H & _ & _);
    [ find_event | reflexivity | ].
  rewrite H. rewrite existsb_app. cbn. apply orb_true_r.
Defined.

(** Programs that return nothing but 1. *)
Lemma bind_returns_one {A B} (m : M A) (k : A -> M B) :
  (forall c rc, result (m c) = Return rc -> rc = Some 1%Z) ->
  (forall a c rc, result (k a c) = Return rc -> rc = Some 1%Z) ->
  forall c rc, result (bind m k c) = Return rc -> rc = Some 1%Z.
Proof.
  intros Hm Hk c rc. specialize (Hm c). unfold bind.
  destruct (m c) as [[t1 c1] [a | rc' | e]]; cbn in *.
  - specialize (Hk a c1 rc). destruct (k a c1) as [[t2 c2] r]. exact Hk.
  - intros H. inversion H; subst. apply Hm. reflexivity.
  - discriminate.
Qed.

Lemma never_returns_one {A} (m : M A) :
  (forall c rc, result (m c) <> Return rc) ->
  forall c rc, result (m c) = Return rc -> rc = Some 1%Z.
Proof. intros H c rc Hr. exfalso. exact (H c rc Hr). Qed.

Ltac returns_one_step :=
  first
    [ apply bind_returns_one; [ | intros ? ]
    | match goal with
      | |- forall c rc, result ((if ?b then _ else _) c) = Return rc -> _ => destruct b
      | |- forall c rc, result ((match ?x with _ => _ end) c) = Return rc -> _ => destruct x
      | |- forall c rc, result ((let '(_, _) := ?x in _) c) = Return rc -> _ => destruct x
      end
    | (intros ? ? H; cbn in H; first [ discriminate H | inversion H; reflexivity ]) ].

Lemma before_guard_returns_one E cwd tmp_dir args :
  forall c rc, result (before_guard E cwd tmp_dir args c) = Return rc -> rc = Some 1%Z.
Proof.
  unfold before_guard.
  apply bind_returns_one;
    [ apply never_returns_one, clone_and_configure_never_returns | intros [[[clone repo] type] ver] ].
  apply bind_returns_one.
  { unfold checkout_upstream. destruct (checkout_target _ _ _) as [url cver].
    unfold vcs_checkout, debug, error. repeat returns_one_step. }
  intros dir. apply bind_returns_one.
  { unfold resolve_meta, get_upstream_meta, find_packages, os_path_exists,
      parse_stack_file, first_name, info, error.
    repeat returns_one_step. }
  intros [name version]. apply bind_returns_one.
  { unfold export_tarball, vcs_checkout, vcs_export, info, warning, error.
    repeat returns_one_step. }
  intros tp. repeat returns_one_step.
Qed.

Lemma version_guard_returns_one E args version :
  forall c rc, result (version_guard E args version c) = Return rc -> rc = Some 1%Z.
Proof.
  unfold version_guard, get_last_tag_by_date, unpack3, StrictVersion, strict_lt, strict_le,
    has_replace,
    execute_command, info, warning, error.
  repeat returns_one_step.
Qed.

(** X15.  [import_upstream] returns [None] or 1, nothing else.  It returns
    [None] only at the end of a run in which git-import-orig gave zero and
    the push of the branches and the push of the tags, the last two events,
    both succeeded. *)
Theorem import_upstream_returns E cwd tmp_dir args c0 rc :
  let r := import_upstream E cwd tmp_dir args c0 in
  result r = Next rc ->
  (rc = None \/ rc = Some 1%Z)
  /\ (rc = None ->
      exists before tarball i m,
        events r = (before ++ [ImportOrig tarball i m;
                               ExecuteCommand "git push --all -f" None;
                               ExecuteCommand "git push --tags" None])%list
        /\ import_orig_result E tarball i m = 0%Z
        /\ execute_command_ok E "git push --all -f" None = true
        /\ execute_command_ok E "git push --tags" None = true).
Proof.
  intros r Hres.
  pose proof (before_guard_returns_one E cwd tmp_dir args c0) as Hb1.
  destruct (before_guard E cwd tmp_dir args c0)
    as [[t1 c1] [[[clone version] tp] | rc1 | e]] eqn:Hbg; cbn in Hb1.
  2: { subst r. unfold import_upstream, call, import_upstream_body in Hres.
       rewrite (bind_return _ _ _ _ _ _ Hbg) in Hres. cbn in Hres. inversion Hres; subst.
       rewrite (Hb1 rc eq_refl). split; [ right; reflexivity | discriminate ]. }
  2: { subst r. unfold import_upstream, call, import_upstream_body in Hres.
       rewrite (bind_raise _ _ _ _ _ _ Hbg) in Hres. discriminate Hres. }
  pose proof (run_through_guard E _ _ _ _ _ _ _ _ _ Hbg) as Hr. fold r in Hr.
  pose proof (version_guard_returns_one E args version c1) as Hg1.
  destruct (version_guard E args version c1) as [[t2 c2] [gbp | rc2 | e]]; cbn in Hg1.
  2: { rewrite Hr in Hres. cbn in Hres. inversion Hres; subst.
       rewrite (Hg1 rc eq_refl). split; [ right; reflexivity | discriminate ]. }
  2: { rewrite Hr in Hres. discriminate Hres. }
  cbv zeta in Hr. unfold continue_with_import, call in Hr.
  destruct (import_and_push_cases E clone args tp c2) as (t3 & _ & Hcases).
  cbv zeta in Hcases.
  destruct Hcases as [(x & Hraise) | Hcases].
  { rewrite Hraise in Hr. rewrite Hr in Hres. discriminate Hres. }
  rewrite Hcases in Hr. rewrite Hr in Hres. rewrite Hr. clear Hr Hcases.
  destruct (import_orig_result E _ _ _ =? 0)%Z eqn:Hrc.
  - apply Z.eqb_eq in Hrc.
    destruct (execute_command_ok E "git push --all -f" None) eqn:H1;
      [ destruct (execute_command_ok E "git push --tags" None) eqn:H2 | ];
      cbn in Hres; try discriminate Hres.
    inversion Hres; subst. split; [ left; reflexivity | ]. intros _.
    exists ((t1 ++ t2) ++ t3)%list. do 3 eexists.
    unfold events. cbn [fst snd].
    split; [ rewrite !app_assoc; reflexivity | ].
    split; [ exact Hrc | split; reflexivity ].
  - cbn in Hres. inversion Hres; subst. split; [ right; reflexivity | discriminate ].
Qed.

(** The run on the sample repository returns [None]: the push of the tags
    succeeded. *)
Lemma import_upstream_returns_witness :
  execute_command_ok (sample_env "git" None one_package "" true 0) "git push --tags" None
  = true.
Proof.
  pose proof (import_upstream_returns
                (sample_env "git" None one_package "" true 0)
                "/home/user/release" "/tmp/scratch" args_plain "/home/user/release"
                None eq_refl) as H.
  cbv zeta in H. destruct H as [_ H].
  destruct (H eq_refl) as (before & tb & i & m & _ & _ & _ & H2). exact H2.
Defined.

(** X16.  [import_upstream] creates the orphan branch [upstream] exactly when
    [upstream] does not occur in the text that [git branch] prints, and
    before it updates and imports: when the creation fails the run ends
    with [CalledProcessError] and git-import-orig is not called. *)
Theorem upstream_branch_is_created_when_absent E clone args tarball_path c output :
  check_output_result E "git branch" None = Some output ->
  let r := import_and_push E clone args tarball_path c in
  (In (CreateBranch "upstream" true true) (events r)
   <-> forall pre post, output <> pre ++ "upstream" ++ post)
  /\ ((forall pre post, output <> pre ++ "upstream" ++ post) ->
      create_branch_ok E "upstream" = false ->
      exists msg,
        r = ([CheckOutput "git branch" None; Log LInfo msg;
              CreateBranch "upstream" true true],
             c, Raise CalledProcessError)).
Proof.
  intros Hout r.
  pose proof (branch_absent_true_iff output "upstream" ltac:(discriminate)) as Habs.
  subst r. unfold import_and_push, create_initial_upstream_branch, create_branch,
    check_output, vcs_update, import_orig, execute_command, info.
  unfold bind, emit, ret, raise, return_. rewrite Hout. cbv beta iota.
  destruct (branch_absent output "upstream").
  - pose proof (proj1 Habs eq_refl) as Hno. split.
    + split; [ intros _; exact Hno | intros _ ].
      destruct (create_branch_ok E "upstream");
        [ destruct (import_orig_result E _ _ _ =? 0)%Z;
          [ destruct (execute_command_ok E "git push --all -f" None);
            [ destruct (execute_command_ok E "git push --tags" None) | ] | ] | ];
        unfold events; cbn [fst app In]; tauto.
    + intros _ Hfail. rewrite Hfail. eexists. reflexivity.
  - split.
    + split.
      * destruct (import_orig_result E _ _ _ =? 0)%Z;
          [ destruct (execute_command_ok E "git push --all -f" None);
            [ destruct (execute_command_ok E "git push --tags" None) | ] | ];
          unfold events; cbn [fst app In]; intros Hin;
          repeat (destruct Hin as [Hin | Hin]; [ discriminate Hin | ]); destruct Hin.
      * intros Hno. apply Habs in Hno. discriminate Hno.
    + intros Hno. apply Habs in Hno. discriminate Hno.
Qed.

(** On a repository whose branches are [master] and [bloom] the branch
    [upstream] is created. *)
Lemma upstream_branch_is_created_when_absent_witness :
  In (CreateBranch "upstream" true true)
     (events (import_and_push
                (with_branches ("* bloom" ++ Py.nl ++ "  master" ++ Py.nl)
                   (sample_env "git" None one_package "" true 0))
                "/tmp/scratch/bloom_clone" args_plain "/tmp/scratch/upstream-1.0.0"
                "/tmp/scratch/bloom_clone")).
Proof.
  pose proof (upstream_branch_is_created_when_absent
                (with_branches ("* bloom" ++ Py.nl ++ "  master" ++ Py.nl)
                   (sample_env "git" None one_package "" true 0))
                "/tmp/scratch/bloom_clone" args_plain "/tmp/scratch/upstream-1.0.0"
                "/tmp/scratch/bloom_clone" _ eq_refl) as H.
  cbv zeta in H. destruct H as [H _]. apply H.
  apply branch_absent_true_iff; [ discriminate | reflexivity ].
Defined.

Lemma up_to_0_is_no_discovery e : up_to 0 e = true -> is_discovery e = false.
Proof.
  unfold up_to, stage. destruct (is_discovery e); [ discriminate | reflexivity ].
Qed.

(** X17.  With [--not-catkin], [--upstream-name] and [--upstream-tag], the
    name and the version of the upstream project are the ones given: the
    metadata are resolved without a look at the upstream tree, and in the
    whole run no manifest is searched for or parsed. *)
Theorem not_catkin_takes_the_given_metadata E cwd tmp_dir args c0 n v :
  not_catkin args = true -> name args = Some n -> tag args = Some v ->
  (forall upstream_dir c,
      resolve_meta E args upstream_dir c
      = ([Log LInfo ("Upstream has version " ++ ansi E "boldon" ++ v ++ ansi E "reset");
          Log LInfo ("Upstream manually specified as "
                     ++ ansi E "boldon" ++ n ++ ansi E "reset")],
         c, Next (n, v)))
  /\ forall e, In e (events (import_upstream E cwd tmp_dir args c0)) -> is_discovery e = false.
Proof.
  intros Hnc Hn Hv.
  assert (Hmeta : forall upstream_dir c,
             resolve_meta E args upstream_dir c
             = ([Log LInfo ("Upstream has version " ++ ansi E "boldon" ++ v ++ ansi E "reset");
                 Log LInfo ("Upstream manually specified as "
                            ++ ansi E "boldon" ++ n ++ ansi E "reset")],
                c, Next (n, v))).
  { intros upstream_dir c. unfold resolve_meta, info. rewrite Hnc, Hn, Hv. reflexivity. }
  split; [ exact Hmeta | ].
  intros e Hin.
  destruct (import_upstream_through_resolver E cwd tmp_dir args c0) as [Hev | Hrun].
  { cbv zeta in Hev. rewrite forallb_forall in Hev. apply up_to_0_is_no_discovery, Hev, Hin. }
  destruct Hrun as (t1 & c1 & clone & repo & type & ver & t2 & c2 & dir
                    & Hcc & Hco & Hdir & Hev & Hrm).
  rewrite Hmeta in Hrm. destruct Hrm as (t4 & Hr & Hev4).
  rewrite Hr in Hin. rewrite forallb_forall in Hev, Hev4.
  rewrite app_assoc in Hin. apply in_app_or in Hin. destruct Hin as [Hin | Hin].
  - apply up_to_0_is_no_discovery, Hev, Hin.
  - apply in_app_or in Hin. destruct Hin as [Hin | Hin].
    + destruct Hin as [<- | [<- | []]]; reflexivity.
    + apply negb_true_iff, Hev4, Hin.
Qed.

(** On the sample repository with
    [--not-catkin --upstream-name project --upstream-tag 2.0.0] the tree is
    not searched. *)
Lemma not_catkin_takes_the_given_metadata_witness :
  forallb (fun e => negb (is_discovery e))
    (events (import_upstream (sample_env "git" None one_package "" true 0)
               "/home/user/release" "/tmp/scratch" (args_not_catkin "2.0.0")
               "/home/user/release")) = true.
Proof.
  pose proof (not_catkin_takes_the_given_metadata
                (sample_env "git" None one_package "" true 0)
                "/home/user/release" "/tmp/scratch" (args_not_catkin "2.0.0")
                "/home/user/release" "project" "2.0.0" eq_refl eq_refl eq_refl) as H.
  destruct H as [_ H]. apply forallb_forall. intros e He. apply negb_true_iff, H, He.
Defined.
